(** * RuleListClassifier: a shallow embedding of [RuleListClassifier.py]

    The scikit-learn wrapper around Letham's Bayesian Rule Lists is modelled
    method by method.  Python objects become records, attributes that may be
    missing become [option] fields, exceptions become a [result] value, and
    the mutation of [self] is threaded through a small state-and-exception
    monad.  Everything imported from other packages (sklearn, pandas, fim,
    [LethamBRL.BRL_code], [Discretization.MDLP]) is an operation of the
    [Collaborators] interface.  Floating-point numbers are exact rationals.
    [fit2], an older copy of [fit] that mines without the class split, is
    modelled after [fit]; [score], a call of [sklearn.metrics.accuracy_score]
    on what [predict] returns, is left out. *)

From Stdlib Require Import QArith.
From stdpp Require Import gmap strings list pretty.


(** ** Python values *)

(** The exceptions the wrapper raises itself or lets through. *)
Inductive exn :=
| Exception (msg : string)
| TypeError
| AttributeError (name : string)
| IndexError
| AssertionError
| ValueError.

Inductive result (A : Type) :=
| Ok (a : A)
| Raise (e : exn).
Arguments Ok {A} a.
Arguments Raise {A} e.

(** A cell of the input matrix: a categorical token or a number. *)
Inductive cell :=
| Str (s : string)
| Num (q : Q).

(** Python's [==] on cells: strings by content, numbers by value, and a
    string never equals a number. *)
Definition cell_eqb (a b : cell) : bool :=
  match a, b with
  | Str s, Str t => bool_decide (s = t)
  | Num p, Num q => Qeq_bool p q
  | _, _ => false
  end.

Definition is_str (c : cell) : bool :=
  match c with Str _ => true | Num _ => false end.

Abbreviation row := (list cell).
Abbreviation matrix := (list (list cell)).

(** [set(lhs).issubset(xi)]: every token of [lhs] occurs in [xi]. *)
Definition issubset (lhs xi : row) : bool :=
  forallb (fun t => existsb (cell_eqb t) xi) lhs.

(** An element of [self.itemsets]: the string ['null'] at index 0, a tuple of
    tokens elsewhere. *)
Inductive itemset :=
| null
| items (t : row).

(** [set(lhs)] for an element of [self.itemsets]; Python iterates the string
    ['null'] character by character. *)
Definition set_of (lhs : itemset) : row :=
  match lhs with
  | null => [Str "n"; Str "u"; Str "l"; Str "l"]
  | items t => t
  end.

(** [enumerate(l)] *)
Definition enumerate {A} (l : list A) : list (nat * A) := imap pair l.

(** [set([i for (i,xi) in enumerate(data) if set(lhs).issubset(xi)])] *)
Definition satisfied_by (lhs : row) (data : matrix) : gset nat :=
  list_to_set (fst <$> filter (fun ix => issubset lhs ix.2 = true) (enumerate data)).

(** [set(range(n))] *)
Definition set_range (n : nat) : gset nat := set_seq 0 n.

(** ** External collaborators *)

(** The two spellings of the cardinality bound of [fpgrowth]: [zmax=] and
    [max=]. *)
Inductive keyword := kw_zmax | kw_max.

(** What the wrapper imports from other packages.  Each operation is taken
    as given; a call that raises returns [Raise].  [Rng] is the state of the
    random generators the sampler draws from, [Frame] a pandas data frame
    and [Cuts] the cut points a discretizer keeps.  [list_set] is
    [list(set(...))], whose iteration order Python leaves to the hash
    values.  [preds_d_t X N d theta] stands for
    [preds_d_t(X, np.zeros((N, 1), dtype=int), d, theta)], [str_num] for
    [astype(str)] on a number and [str_round x d] for [str(np.round(x, d))]. *)
Class Collaborators (Rng Frame Cuts : Type) := {
  Chains : Type;
  Permsdic : Type;
  check_X_y : matrix -> list Z -> result (matrix * list Z);
  fpgrowth : matrix -> Z -> keyword -> Z -> result (list (row * Z));
  list_set : list row -> list row;
  DataFrame : matrix -> list string -> result Frame;
  np_array : Frame -> matrix;
  str_num : Q -> string;
  str_round : Q -> Z -> string;
  MDLP_Discretizer : Frame -> string -> result (Frame * Cuts);
  apply_cutpoints : Cuts -> Frame -> result Frame;
  default_permsdic : Permsdic;
  run_bdl_multichain_serial :
    Z -> Z -> list Q -> Z -> Z -> list (gset nat) -> list (list Z) ->
    gmap nat nat -> list nat -> Z -> Permsdic -> Z -> Z ->
    list (option (list nat)) -> bool -> Rng -> result (Chains * Q) * Rng;
  merge_chains : Chains -> result Permsdic;
  get_point_estimate :
    Permsdic -> list nat -> list (gset nat) -> list (list Z) -> list Q ->
    gmap nat nat -> Z -> Z -> Z -> bool -> result (option (list nat));
  get_rule_rhs :
    list (gset nat) -> list (list Z) -> list nat -> list Q -> bool ->
    result (list Q * list (Q * Q));
  preds_d_t :
    list (gset nat) -> nat -> option (list nat) -> list Q -> result (list Q)
}.

(** The calls and the output a run leaves behind. *)
Inductive event :=
| printed (msg : string)
| called_check_X_y
| called_fpgrowth (k : keyword)
| called_MDLP_Discretizer
| called_apply_cutpoints
| called_run_bdl_multichain_serial
| called_merge_chains
| called_get_point_estimate
| called_get_rule_rhs
| called_preds_d_t.

Section Model.
Context {Rng Frame Cuts : Type}.

(** ** The classifier object *)

(** Modelled from the spec: [Discretization.MDLP] is not among the sources;
    the spec treats the discretizer as an external collaborator with a
    cut-point policy.  The object is its [_data] frame together with the cut
    points found at construction, and [apply_cutpoints] rewrites [_data]
    from them, which is how [predict_proba] uses it (assign [_data], call,
    read [_data] back). *)
Record Discretizer := {
  _data : Frame;
  _cuts : Cuts
}.

(** The attributes of [self].  [__init__] sets everything up to [d_star];
    the last four exist only once [fit] has assigned them, so [None] there
    is a missing attribute, whereas [None] in [discretizer] and [d_star] is
    Python's [None]. *)
Record RuleListClassifier := {
  listlengthprior : Z;
  listwidthprior : Z;
  maxcardinality : Z;
  minsupport : Z;
  alpha : list Q;
  n_chains : Z;
  max_iter : Z;
  class1label : string;
  verbose : bool;
  thinning : Z;
  burnin : Z;
  discretizer : option Discretizer;
  d_star : option (list nat);
  feature_labels : option (list string);
  itemsets : option (list itemset);
  theta : option (list Q);
  ci_theta : option (list (Q * Q))
}.

Definition set_discretizer (v : option Discretizer) (m : RuleListClassifier) :=
  {| listlengthprior := listlengthprior m; listwidthprior := listwidthprior m;
     maxcardinality := maxcardinality m; minsupport := minsupport m;
     alpha := alpha m; n_chains := n_chains m; max_iter := max_iter m;
     class1label := class1label m; verbose := verbose m;
     thinning := thinning m; burnin := burnin m;
     discretizer := v; d_star := d_star m;
     feature_labels := feature_labels m; itemsets := itemsets m;
     theta := theta m; ci_theta := ci_theta m |}.

Definition set_d_star (v : option (list nat)) (m : RuleListClassifier) :=
  {| listlengthprior := listlengthprior m; listwidthprior := listwidthprior m;
     maxcardinality := maxcardinality m; minsupport := minsupport m;
     alpha := alpha m; n_chains := n_chains m; max_iter := max_iter m;
     class1label := class1label m; verbose := verbose m;
     thinning := thinning m; burnin := burnin m;
     discretizer := discretizer m; d_star := v;
     feature_labels := feature_labels m; itemsets := itemsets m;
     theta := theta m; ci_theta := ci_theta m |}.

Definition set_feature_labels (v : list string) (m : RuleListClassifier) :=
  {| listlengthprior := listlengthprior m; listwidthprior := listwidthprior m;
     maxcardinality := maxcardinality m; minsupport := minsupport m;
     alpha := alpha m; n_chains := n_chains m; max_iter := max_iter m;
     class1label := class1label m; verbose := verbose m;
     thinning := thinning m; burnin := burnin m;
     discretizer := discretizer m; d_star := d_star m;
     feature_labels := Some v; itemsets := itemsets m;
     theta := theta m; ci_theta := ci_theta m |}.

Definition set_itemsets (v : list itemset) (m : RuleListClassifier) :=
  {| listlengthprior := listlengthprior m; listwidthprior := listwidthprior m;
     maxcardinality := maxcardinality m; minsupport := minsupport m;
     alpha := alpha m; n_chains := n_chains m; max_iter := max_iter m;
     class1label := class1label m; verbose := verbose m;
     thinning := thinning m; burnin := burnin m;
     discretizer := discretizer m; d_star := d_star m;
     feature_labels := feature_labels m; itemsets := Some v;
     theta := theta m; ci_theta := ci_theta m |}.

Definition set_theta (t : list Q) (ci : list (Q * Q)) (m : RuleListClassifier) :=
  {| listlengthprior := listlengthprior m; listwidthprior := listwidthprior m;
     maxcardinality := maxcardinality m; minsupport := minsupport m;
     alpha := alpha m; n_chains := n_chains m; max_iter := max_iter m;
     class1label := class1label m; verbose := verbose m;
     thinning := thinning m; burnin := burnin m;
     discretizer := discretizer m; d_star := d_star m;
     feature_labels := feature_labels m; itemsets := itemsets m;
     theta := Some t; ci_theta := Some ci |}.

(** [__init__] *)
Definition init (listlengthprior listwidthprior maxcardinality minsupport : Z)
    (alpha : list Q) (n_chains max_iter : Z) (class1label : string)
    (verbose : bool) : RuleListClassifier :=
  {| listlengthprior := listlengthprior; listwidthprior := listwidthprior;
     maxcardinality := maxcardinality; minsupport := minsupport;
     alpha := alpha; n_chains := n_chains; max_iter := max_iter;
     class1label := class1label; verbose := verbose;
     thinning := 1; burnin := (max_iter / 2)%Z;
     discretizer := None; d_star := None;
     feature_labels := None; itemsets := None;
     theta := None; ci_theta := None |}.

(** [RuleListClassifier()] with the default arguments. *)
Definition default_classifier : RuleListClassifier :=
  init 3 1 2 10 [1%Q; 1%Q] 3 50000 "class 1" true.

(** ** State and exceptions *)

(** What a method call can change: the object, the random generators, and
    the sequence of collaborator calls and printed lines. *)
Record world := {
  self : RuleListClassifier;
  rng : Rng;
  trace : list event
}.

(** A method body: it ends with a value or an exception, and in both cases
    with the world as it left it. *)
Definition M (A : Type) : Type := world -> result A * world.

Definition ret {A} (a : A) : M A := fun w => (Ok a, w).

Definition bind {A B} (c : M A) (k : A -> M B) : M B := fun w =>
  match c w with
  | (Ok a, w') => k a w'
  | (Raise e, w') => (Raise e, w')
  end.

Definition raise {A} (e : exn) : M A := fun w => (Raise e, w).

Definition lift {A} (r : result A) : M A := fun w => (r, w).

Notation "x <- c ;; k" := (bind c (fun x => k))
  (at level 100, c at next level, right associativity).
Notation "c ;; k" := (bind c (fun _ => k))
  (at level 100, right associativity).

(** [self.f] for an attribute that [__init__] creates. *)
Definition read {A} (f : RuleListClassifier -> A) : M A :=
  fun w => (Ok (f (self w)), w).

(** [self.name] for an attribute that may not exist yet. *)
Definition getattr {A} (name : string) (f : RuleListClassifier -> option A) : M A :=
  fun w => match f (self w) with
           | Some a => (Ok a, w)
           | None => (Raise (AttributeError name), w)
           end.

(** [self.name = v] *)
Definition assign (f : RuleListClassifier -> RuleListClassifier) : M unit :=
  fun w => (Ok tt, {| self := f (self w); rng := rng w; trace := trace w |}).

Definition emit (e : event) : M unit :=
  fun w => (Ok tt, {| self := self w; rng := rng w; trace := trace w ++ [e] |}).

(** A call of a collaborator that neither sees nor changes the world. *)
Definition call {A} (e : event) (r : result A) : M A := emit e ;; lift r.

(** [print msg] *)
Definition print (msg : string) : M unit := emit (printed msg).

(** [try: body  except TypeError: handler] *)
Definition try_except_TypeError {A} (body handler : M A) : M A := fun w =>
  match body w with
  | (Raise TypeError, w') => handler w'
  | r => r
  end.

(** [for a in l: s = body(s, a)] *)
Fixpoint for_each {A S} (l : list A) (body : S -> A -> M S) (s : S) : M S :=
  match l with
  | [] => ret s
  | a :: l' => s' <- body s a ;; for_each l' body s'
  end.

(** [l[i]] and [l[i] = v] on a Python list, for [i >= 0]. *)
Definition getitem {A} (l : list A) (i : nat) : result A :=
  match l !! i with
  | Some a => Ok a
  | None => Raise IndexError
  end.

Definition setitem {A} (i : nat) (v : A) (l : list A) : result (list A) :=
  if bool_decide (i < length l) then Ok (<[i := v]> l) else Raise IndexError.

(** ** Helper methods *)

Context `{!Collaborators Rng Frame Cuts}.

Definition nl : string := String (Ascii.ascii_of_nat 10) "".

(** [astype(str)] on one cell. *)
Definition astype_str (c : cell) : string :=
  match c with
  | Str s => s
  | Num q => str_num q
  end.

(** [_prepend_feature_labels]: the loops index [Xl[i][j]] and
    [self.feature_labels[j]] for every [j < len(Xl[0])]. *)
Definition _prepend_feature_labels (X : matrix) : M matrix :=
  let Xl := map (map astype_str) X in
  Xl <- for_each (seq 0 (length Xl)) (fun Xl i =>
          for_each (seq 0 (length (default [] (Xl !! 0)))) (fun Xl j =>
            labels <- getattr "feature_labels" feature_labels ;;
            label <- lift (getitem labels j) ;;
            Xli <- lift (getitem Xl i) ;;
            x <- lift (getitem Xli j) ;;
            ret (<[i := <[j := label +:+ " : " +:+ x]> Xli]> Xl)) Xl) Xl ;;
  ret (map (map Str) Xl).

(** [np.hstack((X, np.array(y).reshape((len(y), 1))))] *)
Definition hstack (X : matrix) (y : list Z) : result matrix :=
  if bool_decide (length X = length y)
  then Ok (zip_with (fun r l => r ++ [Num (inject_Z l)]) X y)
  else Raise ValueError.

(** [discretize] *)
Definition discretize (X : matrix) (y : list Z) : M matrix :=
  Xy <- lift (hstack X y) ;;
  labels <- getattr "feature_labels" feature_labels ;;
  D <- lift (DataFrame Xy (labels ++ ["y"])) ;;
  dc <- call called_MDLP_Discretizer (MDLP_Discretizer D "y") ;;
  assign (set_discretizer (Some {| _data := dc.1; _cuts := dc.2 |})) ;;
  _prepend_feature_labels (map (@removelast cell) (np_array dc.1)).

(** [_to_itemset_indices] *)
Definition _to_itemset_indices (data : matrix) : M (list (gset nat)) :=
  its <- getattr "itemsets" itemsets ;;
  let X := replicate (length its) (∅ : gset nat) in
  X <- lift (setitem 0 (set_range (length data)) X) ;;
  its <- getattr "itemsets" itemsets ;;
  for_each (enumerate its) (fun X jl =>
    if bool_decide (0 < jl.1)
    then lift (setitem jl.1 (satisfied_by (set_of jl.2) data) X)
    else ret X) X.

(** ** [fit] *)

(** Python's truth value of [self.d_star]: [None] and the empty list are
    false. *)
Definition truthy (d : option (list nat)) : bool :=
  match d with
  | Some (_ :: _) => true
  | _ => false
  end.

(** [[x for i,x in enumerate(data) if y[i]==c]] *)
Fixpoint rows_with_label (c : Z) (ixs : list (nat * row)) (y : list Z)
    : result matrix :=
  match ixs with
  | [] => Ok []
  | (i, x) :: rest =>
      match y !! i with
      | None => Raise IndexError
      | Some l =>
          match rows_with_label c rest y with
          | Ok r => Ok (if bool_decide (l = c) then x :: r else r)
          | Raise e => Raise e
          end
      end
  end.

(** The two [fpgrowth] calls of one branch of the [try]. *)
Definition mine (k : keyword) (data_pos data_neg : matrix) : M (list row) :=
  supp <- read minsupport ;;
  card <- read maxcardinality ;;
  pos <- call (called_fpgrowth k) (fpgrowth data_pos supp k card) ;;
  let itemsets := map fst pos in
  supp <- read minsupport ;;
  card <- read maxcardinality ;;
  neg <- call (called_fpgrowth k) (fpgrowth data_neg supp k card) ;;
  ret (itemsets ++ map fst neg).

(** The data-vs.-lhs sets built by [fit]: [X[0]] and then [X[j+1]] for
    every mined itemset. *)
Definition fit_sets (itemsets : list row) (data : matrix)
    : result (list (gset nat)) :=
  let X := replicate (length itemsets + 1) (∅ : gset nat) in
  match setitem 0 (set_range (length data)) X with
  | Raise e => Raise e
  | Ok X =>
      foldl (fun acc jl =>
               match acc with
               | Ok X => setitem (jl.1 + 1) (satisfied_by jl.2 data) X
               | Raise e => Raise e
               end) (Ok X) (enumerate itemsets)
  end.

(** [Counter(lhs_len)] *)
Definition Counter (l : list nat) : gmap nat nat :=
  foldl (fun m n => <[n := S (default 0 (m !! n))]> m) ∅ l.

(** The sampler: the one collaborator that draws random numbers. *)
Definition sample (Xtrain : list (gset nat)) (Ytrain : list (list Z))
    (nruleslen : gmap nat nat) (lhs_len : list nat) (permsdic : Permsdic)
    : M (Chains * Q) := fun w =>
  let m := self w in
  let '(r, g) :=
    run_bdl_multichain_serial (max_iter m) (thinning m) (alpha m)
      (listlengthprior m) (listwidthprior m) Xtrain Ytrain nruleslen lhs_len
      (maxcardinality m) permsdic (burnin m) (n_chains m)
      (replicate (Z.to_nat (n_chains m)) None) (verbose m) (rng w) in
  (r, {| self := m; rng := g;
         trace := trace w ++ [called_run_bdl_multichain_serial] |}).

Definition fit (X : matrix) (y : list Z) (feature_labels : option (list string))
    : M unit :=
  if bool_decide (size (list_to_set y : gset Z) ≠ 2)
  then raise (Exception "Only binary classification is supported at this time!")
  else
  Xy <- call called_check_X_y (check_X_y X y) ;;
  let X := Xy.1 in
  let y := Xy.2 in
  feature_labels <-
    match feature_labels with
    | None =>
        X0 <- lift (getitem X 0) ;;
        ret (map (fun i => "ft" +:+ pretty (i + 1)) (seq 0 (length X0)))
    | Some l => ret l
    end ;;
  assign (set_feature_labels feature_labels) ;;
  (* [np.array(X).tolist()] leaves a list of lists as it is *)
  X0 <- lift (getitem X 0) ;;
  X00 <- lift (getitem X0 0) ;;
  X <- (if is_str X00 then ret X else
        v <- read verbose ;;
        (if v then print "Warning: non-categorical data. Trying to discretize. (Please convert categorical values to strings to avoid this.)" else ret tt) ;;
        discretize X y) ;;
  let permsdic := default_permsdic in
  let data := X in
  data_pos <- lift (rows_with_label 0 (enumerate data) y) ;;
  data_neg <- lift (rows_with_label 1 (enumerate data) y) ;;
  if negb (bool_decide (length data_pos + length data_neg = length data))
  then raise AssertionError
  else
  itemsets <- try_except_TypeError (mine kw_zmax data_pos data_neg)
                                   (mine kw_max data_pos data_neg) ;;
  let itemsets := list_set itemsets in
  v <- read verbose ;;
  (if v then print (pretty (length itemsets) +:+ " rules mined") else ret tt) ;;
  X <- lift (fit_sets itemsets data) ;;
  let lhs_len := 0 :: map length itemsets in
  let nruleslen := Counter lhs_len in
  let itemsets_all := null :: map items itemsets in
  let Xtrain := X in
  let Ytrain := map (fun l => [l; 1 - l]%Z) y in
  assign (set_itemsets itemsets_all) ;;
  res <- sample Xtrain Ytrain nruleslen lhs_len permsdic ;;
  permsdic <- call called_merge_chains (merge_chains res.1) ;;
  m <- read id ;;
  d <- call called_get_point_estimate
         (get_point_estimate permsdic lhs_len Xtrain Ytrain (alpha m) nruleslen
            (maxcardinality m) (listlengthprior m) (listwidthprior m) (verbose m)) ;;
  assign (set_d_star d) ;;
  d <- read d_star ;;
  match d with
  | Some (j :: js) =>
      a <- read alpha ;;
      rhs <- call called_get_rule_rhs (get_rule_rhs Xtrain Ytrain (j :: js) a true) ;;
      assign (set_theta rhs.1 rhs.2)
  | _ => ret tt
  end.

(** ** Description *)

(** [s[n:]] on a string. *)
Fixpoint string_drop (n : nat) (s : string) : string :=
  match n, s with
  | S n', String _ s' => string_drop n' s'
  | _, _ => s
  end.

(** ["".join([c]*n)] *)
Fixpoint string_rep (c : string) (n : nat) : string :=
  match n with
  | O => ""
  | S n' => c +:+ string_rep c n'
  end.

(** The elements of an itemset as [str.join] needs them: a number among
    them is a [TypeError]. *)
Fixpoint strings_of (t : row) : result (list string) :=
  match t with
  | [] => Ok []
  | Str s :: t' =>
      match strings_of t' with
      | Ok l => Ok (s :: l)
      | Raise e => Raise e
      end
  | Num _ :: _ => Raise TypeError
  end.

(** [tostring] *)
Definition tostring (decimals : Z) : M string :=
  d <- read d_star ;;
  if truthy d then
    c1 <- read class1label ;;
    let detect := if bool_decide (c1 ≠ "class 1")
                  then "for detecting " +:+ c1 else "" in
    let header := "Trained RuleListClassifier " +:+ detect +:+ nl in
    let separator := string_rep "=" (String.length header) +:+ nl in
    s <- for_each (enumerate (default [] d)) (fun s ij =>
           its <- getattr "itemsets" itemsets ;;
           lhs <- lift (getitem its ij.2) ;;
           condition <-
             match lhs with
             | items t =>
                 ks <- lift (strings_of t) ;;
                 ret ("ELSE IF " +:+ String.concat " AND " ks +:+ " THEN")
             | null => ret "ELSE"
             end ;;
           c1 <- read class1label ;;
           th <- getattr "theta" theta ;;
           th_i <- lift (getitem th ij.1) ;;
           ci <- getattr "ci_theta" ci_theta ;;
           ci_i <- lift (getitem ci ij.1) ;;
           ret (s +:+ condition +:+ " probability of " +:+ c1 +:+ ": "
                  +:+ str_round (th_i * 100) decimals +:+ "% ("
                  +:+ str_round (ci_i.1 * 100) decimals +:+ "%-"
                  +:+ str_round (ci_i.2 * 100) decimals +:+ "%)" +:+ nl)) "" ;;
    ret (header +:+ separator +:+ string_drop 5 s +:+ string_drop 1 separator)
  else ret "(Untrained RuleListClassifier)".

(** [__str__] *)
Definition __str__ : M string := tostring 1.

(** ** Prediction *)

(** [predict_proba] *)
Definition predict_proba (X : matrix) : M (list (list Q)) :=
  disc <- read discretizer ;;
  D <- match disc with
       | Some d =>
           labels <- getattr "feature_labels" feature_labels ;;
           f <- lift (DataFrame X labels) ;;
           assign (set_discretizer (Some {| _data := f; _cuts := _cuts d |})) ;;
           f' <- call called_apply_cutpoints (apply_cutpoints (_cuts d) f) ;;
           assign (set_discretizer (Some {| _data := f'; _cuts := _cuts d |})) ;;
           _prepend_feature_labels (map (@removelast cell) (np_array f'))
       | None => ret X
       end ;;
  let N := length D in
  X <- _to_itemset_indices D ;;
  d <- read d_star ;;
  th <- getattr "theta" theta ;;
  P <- call called_preds_d_t (preds_d_t X N d th) ;;
  ret (map (fun p => [(1 - p)%Q; p]) P).

(** [a[:,0]] on a two-dimensional array. *)
Fixpoint column0 (a : list (list Q)) : result (list Q) :=
  match a with
  | [] => Ok []
  | r :: a' =>
      match r, column0 a' with
      | p :: _, Ok c => Ok (p :: c)
      | [], _ => Raise IndexError
      | _, Raise e => Raise e
      end
  end.

(** [predict]: [1*(self.predict_proba(X)[:,0]>=0.5)] *)
Definition predict (X : matrix) : M (list Z) :=
  proba <- predict_proba X ;;
  c <- lift (column0 proba) ;;
  ret (map (fun p => if Qle_bool (1 # 2) p then 1%Z else 0%Z) c).

End Model.

Arguments Discretizer : clear implicits.
Arguments RuleListClassifier : clear implicits.
Arguments world : clear implicits.
Arguments M : clear implicits.

(** ** The predictor of the rule-list engine *)

Module BRL_code.

(** The position of the first rule of the list whose satisfaction set holds
    transaction [i]. *)
Fixpoint first_match (X : list (gset nat)) (i : nat) (d : list (nat * nat))
    : result (option nat) :=
  match d with
  | [] => Ok None
  | (k, j) :: d' =>
      match X !! j with
      | None => Raise IndexError
      | Some Xj => if bool_decide (i ∈ Xj) then Ok (Some k) else first_match X i d'
      end
  end.

Definition pred_one (X : list (gset nat)) (d : list nat) (theta : list Q)
    (i : nat) : result Q :=
  match first_match X i (enumerate d) with
  | Raise e => Raise e
  | Ok (Some k) => getitem theta k
  | Ok None => getitem theta (length d - 1)
  end.

Fixpoint collect {A} (l : list (result A)) : result (list A) :=
  match l with
  | [] => Ok []
  | Raise e :: _ => Raise e
  | Ok a :: l' =>
      match collect l' with
      | Ok r => Ok (a :: r)
      | Raise e => Raise e
      end
  end.

(** Modelled from the spec: [LethamBRL.BRL_code.preds_d_t] is not among the
    sources.  Per the Predictor (spec 4.6), each transaction gets the
    [theta] of the first rule of the point-estimate list whose satisfaction
    set contains it, and the probability of the terminal null rule, the last
    position of the list, when none matches.  There is no list to walk when
    the point estimate is [None]. *)
Definition preds_d_t (X : list (gset nat)) (N : nat) (d : option (list nat))
    (theta : list Q) : result (list Q) :=
  match d with
  | None => Raise TypeError
  | Some d => collect (map (pred_one X d theta) (seq 0 N))
  end.

End BRL_code.

(** ** A small set of collaborators to run the model with *)

(** Stand-ins for the imported packages, simple enough to evaluate.  The
    properties below hold for every set of collaborators; these serve to run
    the model on concrete inputs. *)
Module Demo.

Definition check_X_y (X : matrix) (y : list Z) : result (matrix * list Z) :=
  if bool_decide (length X = length y) && bool_decide (2 <= length X)
  then Ok (X, y) else Raise ValueError.

Definition row_eqb (a b : row) : bool :=
  bool_decide (length a = length b) && forallb (fun p => cell_eqb p.1 p.2) (zip a b).

Fixpoint dedup (l : list row) : list row :=
  match l with
  | [] => []
  | a :: l' => if existsb (row_eqb a) l' then dedup l' else a :: dedup l'
  end.

Definition support (t : row) (data : matrix) : Z :=
  Z.of_nat (length (filter (fun xi => issubset t xi = true) data)).

(** A miner of single items: every token whose support reaches [supp]
    percent, provided the cardinality bound admits one item.  It understands
    one spelling of the bound only. *)
Definition fpgrowth (spelling : keyword) (data : matrix) (supp : Z)
    (k : keyword) (card : Z) : result (list (row * Z)) :=
  match spelling, k with
  | kw_zmax, kw_zmax | kw_max, kw_max =>
      Ok (if bool_decide (1 <= card)%Z
          then filter (fun r => (supp * Z.of_nat (length data) <= 100 * r.2)%Z)
                 (map (fun t => (t, support t data))
                    (dedup (map (fun c => [c]) (concat data))))
          else [])
  | _, _ => Raise TypeError
  end.

Definition str_num (q : Q) : string :=
  pretty (Qnum q) +:+ "/" +:+ pretty (Zpos (Qden q)).

(** The point estimate of the stand-in sampler: the first mined rule
    followed by the default rule. *)
Definition point_estimate (Xtrain : list (gset nat)) : option (list nat) :=
  if bool_decide (2 <= length Xtrain) then Some [1; 0] else Some [0].

Definition collaborators (spelling : keyword) : Collaborators nat matrix unit :=
  Build_Collaborators nat matrix unit
    (* Chains, Permsdic *) unit unit
    check_X_y
    (fpgrowth spelling)
    (* list_set *) dedup
    (* DataFrame *) (fun X _ => Ok X)
    (* np_array *) (fun f => f)
    str_num
    (* str_round *) (fun q _ => str_num q)
    (* MDLP_Discretizer *) (fun D _ => Ok (D, tt))
    (* apply_cutpoints *) (fun _ f => Ok f)
    (* default_permsdic *) tt
    (* run_bdl_multichain_serial *)
    (fun _ _ _ _ _ _ _ _ _ _ _ _ _ _ _ g => (Ok (tt, 1%Q), S g))
    (* merge_chains *) (fun _ => Ok tt)
    (* get_point_estimate *)
    (fun _ _ Xtrain _ _ _ _ _ _ _ => Ok (point_estimate Xtrain))
    (* get_rule_rhs: one half everywhere *)
    (fun _ _ d _ _ => Ok (map (fun _ => 1 # 2) d, map (fun _ => (0%Q, 1%Q)) d))
    BRL_code.preds_d_t.

(** A classifier fresh from [__init__]. *)
Definition w0 : world nat matrix unit :=
  {| self := default_classifier; rng := 0; trace := [] |}.

(** Four transactions over two features. *)
Definition X4 : matrix :=
  [[Str "a"; Str "b"]; [Str "a"; Str "c"]; [Str "d"; Str "b"]; [Str "d"; Str "c"]].

(** A fitted model whose list is the default rule alone, with probability
    one quarter for class 1. *)
Definition mostly_class_0 : world nat matrix unit :=
  {| self := set_theta [1 # 4] [(1 # 10, 1 # 2)]
               (set_d_star (Some [0]) (set_itemsets [null] default_classifier));
     rng := 0; trace := [] |}.

End Demo.

(** ** Comparing runs *)

Section Runs.
Context {Rng Frame Cuts : Type}.

(** Two method bodies started in related worlds end with the same value or
    exception, in related worlds. *)
Definition rel {A} (R : relation (world Rng Frame Cuts))
    (c c' : M Rng Frame Cuts A) : Prop :=
  forall w w', R w w' -> (c w).1 = (c' w').1 /\ R (c w).2 (c' w').2.

(** A method body keeps an invariant of the world. *)
Definition preserves {A} (P : world Rng Frame Cuts -> Prop)
    (c : M Rng Frame Cuts A) : Prop :=
  forall w, P w -> P (c w).2.

(** Relations and invariants that do not look at the trace. *)
Definition blind (R : relation (world Rng Frame Cuts)) : Prop :=
  forall w w' t t', R w w' ->
    R {| self := self w; rng := rng w; trace := t |}
      {| self := self w'; rng := rng w'; trace := t' |}.

Definition ignores_trace (P : world Rng Frame Cuts -> Prop) : Prop :=
  forall w t, P w -> P {| self := self w; rng := rng w; trace := t |}.

(** Worlds with the same object and the same random generators; they may
    differ in what was called and printed on the way. *)
Definition same_state (w w' : world Rng Frame Cuts) : Prop :=
  self w = self w' /\ rng w = rng w'.

(** What [fit] leaves in the object apart from the frame the discretizer
    happens to hold. *)
Definition fitted_part (m : RuleListClassifier Frame Cuts) :=
  (listlengthprior m, listwidthprior m, maxcardinality m, minsupport m,
   alpha m, n_chains m, max_iter m, class1label m, verbose m, thinning m,
   burnin m, _cuts <$> discretizer m, d_star m, feature_labels m,
   itemsets m, theta m, ci_theta m).

Definition same_model (w w' : world Rng Frame Cuts) : Prop :=
  fitted_part (self w) = fitted_part (self w') /\ rng w = rng w'.

End Runs.

(** The collaborators [C] with another itemset miner. *)
Definition with_fpgrowth {Rng Frame Cuts : Type} (C : Collaborators Rng Frame Cuts)
    (f : matrix -> Z -> keyword -> Z -> result (list (row * Z)))
    : Collaborators Rng Frame Cuts :=
  Build_Collaborators Rng Frame Cuts (@Chains _ _ _ C) (@Permsdic _ _ _ C)
    (@check_X_y _ _ _ C) f (@list_set _ _ _ C) (@DataFrame _ _ _ C)
    (@np_array _ _ _ C) (@str_num _ _ _ C) (@str_round _ _ _ C)
    (@MDLP_Discretizer _ _ _ C) (@apply_cutpoints _ _ _ C)
    (@default_permsdic _ _ _ C) (@run_bdl_multichain_serial _ _ _ C)
    (@merge_chains _ _ _ C) (@get_point_estimate _ _ _ C)
    (@get_rule_rhs _ _ _ C) (@preds_d_t _ _ _ C).

(** The trace has grown from [t0] by events that satisfy [ok] only. *)
Definition trace_within {Rng Frame Cuts : Type} (ok : event -> Prop)
    (t0 : list event) (w : world Rng Frame Cuts) : Prop :=
  exists evs, trace w = t0 ++ evs /\ Forall ok evs.

(** ** [fit2] *)

Section Fit2.
Context {Rng Frame Cuts : Type} `{!Collaborators Rng Frame Cuts}.

Notation "x <- c ;; k" := (bind c (fun x => k))
  (at level 100, c at next level, right associativity).
Notation "c ;; k" := (bind c (fun _ => k))
  (at level 100, right associativity).

(** The sets [fit2] builds: [X = [set(range(len(data)))]] and one
    [X.append(...)] per itemset. *)
Definition fit2_sets (itemsets : list row) (data : matrix) : list (gset nat) :=
  foldl (fun X item => X ++ [satisfied_by item data])
        [set_range (length data)] itemsets.

(** [fit2]: the keyword arguments it accepts are not used. *)
Definition fit2 (X : matrix) (y : list Z) (feature_labels : option (list string))
    : M Rng Frame Cuts unit :=
  Xy <- call called_check_X_y (check_X_y X y) ;;
  let X := Xy.1 in
  let y := Xy.2 in
  feature_labels <-
    match feature_labels with
    | None =>
        X0 <- lift (getitem X 0) ;;
        ret (map (fun i => "ft" +:+ pretty (i + 1)) (seq 0 (length X0)))
    | Some l => ret l
    end ;;
  assign (set_feature_labels feature_labels) ;;
  let permsdic := default_permsdic in
  let data := X in
  supp <- read minsupport ;;
  card <- read maxcardinality ;;
  mined <- call (called_fpgrowth kw_zmax) (fpgrowth data supp kw_zmax card) ;;
  let itemsets := map fst mined in
  let itemsets := list_set itemsets in
  print (pretty (length itemsets) +:+ " rules mined") ;;
  let X := fit2_sets itemsets data in
  let lhs_len := 0 :: map length itemsets in
  let nruleslen := Counter lhs_len in
  let itemsets_all := null :: map items itemsets in
  let Xtrain := X in
  let Ytrain := map (fun l => [l; 1 - l]%Z) y in
  assign (set_itemsets itemsets_all) ;;
  res <- sample Xtrain Ytrain nruleslen lhs_len permsdic ;;
  permsdic <- call called_merge_chains (merge_chains res.1) ;;
  m <- read id ;;
  d <- call called_get_point_estimate
         (get_point_estimate permsdic lhs_len Xtrain Ytrain (alpha m) nruleslen
            (maxcardinality m) (listlengthprior m) (listwidthprior m) (verbose m)) ;;
  assign (set_d_star d) ;;
  d <- read d_star ;;
  match d with
  | Some (j :: js) =>
      a <- read alpha ;;
      rhs <- call called_get_rule_rhs (get_rule_rhs Xtrain Ytrain (j :: js) a true) ;;
      assign (set_theta rhs.1 rhs.2)
  | _ => ret tt
  end.

End Fit2.

(** ** The stages of [fit] *)

Section Stages.
Context {Rng Frame Cuts : Type} `{!Collaborators Rng Frame Cuts}.

Notation "x <- c ;; k" := (bind c (fun x => k))
  (at level 100, c at next level, right associativity).
Notation "c ;; k" := (bind c (fun _ => k))
  (at level 100, right associativity).

(** The world in which [fit] looks at the first cell of the checked input:
    [check_X_y] was called and the feature labels are recorded, those given
    or [ft1], [ft2], ... for the columns of the first row [X0]. *)
Definition checked (w : world Rng Frame Cuts) (feature_labels : option (list string))
    (X0 : row) : world Rng Frame Cuts :=
  {| self := set_feature_labels
               (default (map (fun i => "ft" +:+ pretty (i + 1)) (seq 0 (length X0)))
                  feature_labels) (self w);
     rng := rng w;
     trace := trace w ++ [called_check_X_y] |}.

(** Lines 165 to 168 of [fit], for a checked input whose first cell is [c]:
    the transactions are the input itself when [c] is a string; when not,
    [fit] warns, if verbose, and discretizes. *)
Definition fit_transactions (c : cell) (X : matrix) (y : list Z)
    : M Rng Frame Cuts matrix :=
  if is_str c then ret X else
  v <- read verbose ;;
  (if v then print "Warning: non-categorical data. Trying to discretize. (Please convert categorical values to strings to avoid this.)" else ret tt) ;;
  discretize X y.

(** [fit] from line 184 on: what it does with the itemsets the miner
    returned. *)
Definition fit_from_itemsets (data : matrix) (y : list Z) (itemsets : list row)
    : M Rng Frame Cuts unit :=
  let permsdic := default_permsdic in
  let itemsets := list_set itemsets in
  v <- read verbose ;;
  (if v then print (pretty (length itemsets) +:+ " rules mined") else ret tt) ;;
  X <- lift (fit_sets itemsets data) ;;
  let lhs_len := 0 :: map length itemsets in
  let nruleslen := Counter lhs_len in
  let itemsets_all := null :: map items itemsets in
  let Xtrain := X in
  let Ytrain := map (fun l => [l; 1 - l]%Z) y in
  assign (set_itemsets itemsets_all) ;;
  res <- sample Xtrain Ytrain nruleslen lhs_len permsdic ;;
  permsdic <- call called_merge_chains (merge_chains res.1) ;;
  m <- read id ;;
  d <- call called_get_point_estimate
         (get_point_estimate permsdic lhs_len Xtrain Ytrain (alpha m) nruleslen
            (maxcardinality m) (listlengthprior m) (listwidthprior m) (verbose m)) ;;
  assign (set_d_star d) ;;
  d <- read d_star ;;
  match d with
  | Some (j :: js) =>
      a <- read alpha ;;
      rhs <- call called_get_rule_rhs (get_rule_rhs Xtrain Ytrain (j :: js) a true) ;;
      assign (set_theta rhs.1 rhs.2)
  | _ => ret tt
  end.

(** [fit] from line 175 on: the class partitions, the assertion and the
    mining. *)
Definition fit_from_data (data : matrix) (y : list Z) : M Rng Frame Cuts unit :=
  data_pos <- lift (rows_with_label 0 (enumerate data) y) ;;
  data_neg <- lift (rows_with_label 1 (enumerate data) y) ;;
  if negb (bool_decide (length data_pos + length data_neg = length data))
  then raise AssertionError
  else
  itemsets <- try_except_TypeError (mine kw_zmax data_pos data_neg)
                                   (mine kw_max data_pos data_neg) ;;
  fit_from_itemsets data y itemsets.

End Stages.

(** ** More about runs *)

(** From a world where [I] holds, a method body ends in a world where
    [Post] holds, whether it returns or raises. *)
Definition ensures {Rng Frame Cuts : Type} {A}
    (I Post : world Rng Frame Cuts -> Prop) (c : M Rng Frame Cuts A) : Prop :=
  forall w, I w -> Post (c w).2.

(** The collaborators [C] with another point estimate. *)
Definition with_get_point_estimate {Rng Frame Cuts : Type}
    (C : Collaborators Rng Frame Cuts)
    (f : @Permsdic _ _ _ C -> list nat -> list (gset nat) -> list (list Z) ->
         list Q -> gmap nat nat -> Z -> Z -> Z -> bool -> result (option (list nat)))
    : Collaborators Rng Frame Cuts :=
  Build_Collaborators Rng Frame Cuts (@Chains _ _ _ C) (@Permsdic _ _ _ C)
    (@check_X_y _ _ _ C) (@fpgrowth _ _ _ C) (@list_set _ _ _ C)
    (@DataFrame _ _ _ C) (@np_array _ _ _ C) (@str_num _ _ _ C)
    (@str_round _ _ _ C) (@MDLP_Discretizer _ _ _ C) (@apply_cutpoints _ _ _ C)
    (@default_permsdic _ _ _ C) (@run_bdl_multichain_serial _ _ _ C)
    (@merge_chains _ _ _ C) f (@get_rule_rhs _ _ _ C) (@preds_d_t _ _ _ C).

(** Stand-ins whose sampler finds no rule list. *)
Definition no_estimate : Collaborators nat matrix unit :=
  with_get_point_estimate (Demo.collaborators kw_zmax)
    (fun _ _ _ _ _ _ _ _ _ _ => Ok None).

(** Stand-ins whose sampler keeps, as the state of the generators, the sets
    it was called with: for each satisfaction set, its members among the
    first eight indices.  The rest is as in [Demo.collaborators]. *)
Definition members (X : gset nat) : list nat :=
  filter (fun i => i ∈ X) (seq 0 8).

Definition recording (spelling : keyword) : Collaborators (list (list nat)) matrix unit :=
  Build_Collaborators (list (list nat)) matrix unit
    (* Chains, Permsdic *) unit unit
    Demo.check_X_y
    (Demo.fpgrowth spelling)
    (* list_set *) Demo.dedup
    (* DataFrame *) (fun X _ => Ok X)
    (* np_array *) (fun f => f)
    Demo.str_num
    (* str_round *) (fun q _ => Demo.str_num q)
    (* MDLP_Discretizer *) (fun D _ => Ok (D, tt))
    (* apply_cutpoints *) (fun _ f => Ok f)
    (* default_permsdic *) tt
    (* run_bdl_multichain_serial *)
    (fun _ _ _ _ _ Xtrain _ _ _ _ _ _ _ _ _ _ => (Ok (tt, 1%Q), map members Xtrain))
    (* merge_chains *) (fun _ => Ok tt)
    (* get_point_estimate *)
    (fun _ _ Xtrain _ _ _ _ _ _ _ => Ok (Demo.point_estimate Xtrain))
    (* get_rule_rhs *)
    (fun _ _ d _ _ => Ok (map (fun _ => 1 # 2) d, map (fun _ => (0%Q, 1%Q)) d))
    BRL_code.preds_d_t.

(** A classifier fresh from [__init__], with nothing recorded. *)
Definition fresh : world (list (list nat)) matrix unit :=
  {| self := default_classifier; rng := []; trace := [] |}.

(** What prediction reads of the object once the transactions are
    categorical. *)
Definition rule_list {Frame Cuts : Type} (m : RuleListClassifier Frame Cuts) :=
  (itemsets m, d_star m, theta m).

Definition same_rule_list {Rng Frame Cuts : Type} (w w' : world Rng Frame Cuts)
    : Prop :=
  rule_list (self w) = rule_list (self w').

(** The arguments of the constructor, with what [__init__] derives from
    them. *)
Definition hyperparameters {Frame Cuts : Type} (m : RuleListClassifier Frame Cuts) :=
  (listlengthprior m, listwidthprior m, maxcardinality m, minsupport m,
   alpha m, n_chains m, max_iter m, class1label m, verbose m, thinning m,
   burnin m).

(** ** Labelled rows *)

(** A row with its first [k] cells labelled. *)
Definition labelled (labels : list string) (k : nat) (r : list string)
    : list string :=
  imap (fun j x => if decide (j < k)
                   then default "" (labels !! j) +:+ " : " +:+ x else x) r.

(** The inner loop of [_prepend_feature_labels] on row [i]. *)
Definition label_row {Rng Frame Cuts : Type} (i : nat) (Xl : list (list string)) (j : nat)
    : M Rng Frame Cuts (list (list string)) :=
  bind (getattr "feature_labels" feature_labels) (fun labels =>
  bind (lift (getitem labels j)) (fun label =>
  bind (lift (getitem Xl i)) (fun Xli =>
  bind (lift (getitem Xli j)) (fun x =>
  ret (<[i := <[j := label +:+ " : " +:+ x]> Xli]> Xl))))).

(** * Properties *)

(** ** The satisfaction sets *)

Lemma issubset_spec (lhs xi : row) :
  issubset lhs xi = true <->
  forall t, t ∈ lhs -> exists c, c ∈ xi /\ cell_eqb t c = true.
Proof.
  unfold issubset. rewrite forallb_forall. split.
  - intros Hall t Ht. apply list_elem_of_In, Hall, existsb_exists in Ht.
    destruct Ht as (c & Hc & Heq). exists c. by rewrite list_elem_of_In.
  - intros Hall t Ht. apply existsb_exists.
    destruct (Hall t) as (c & Hc & Heq); [by apply list_elem_of_In|].
    exists c. by rewrite <- list_elem_of_In.
Qed.

Lemma elem_of_satisfied_by (lhs : row) (data : matrix) (i : nat) :
  i ∈ satisfied_by lhs data <->
  exists xi, data !! i = Some xi /\ issubset lhs xi = true.
Proof.
  unfold satisfied_by, enumerate.
  rewrite elem_of_list_to_set, list_elem_of_fmap. split.
  - intros ([j xi] & -> & Hin). apply list_elem_of_filter in Hin as [Hsub Hin].
    apply elem_of_lookup_imap in Hin as (k & y & Heq & Hk).
    inversion Heq; subst. eauto.
  - intros (xi & Hi & Hsub). exists (i, xi). split; [done|].
    apply list_elem_of_filter. split; [done|].
    apply elem_of_lookup_imap. eauto.
Qed.

Lemma elem_of_set_range (n i : nat) : i ∈ set_range n <-> i < n.
Proof. unfold set_range. rewrite elem_of_set_seq. lia. Qed.

Lemma setitem_Ok {A} (i : nat) (v : A) (l : list A) :
  i < length l -> setitem i v l = Ok (<[i := v]> l).
Proof. intros Hi. unfold setitem. by rewrite bool_decide_eq_true_2. Qed.

Lemma enumerate_snoc {A} (l : list A) (x : A) :
  enumerate (l ++ [x]) = enumerate l ++ [(length l, x)].
Proof.
  unfold enumerate. rewrite imap_app. simpl. by rewrite Nat.add_0_r.
Qed.

Lemma fit_sets_loop (data : matrix) (l : list row) (X0 : list (gset nat)) :
  length l < length X0 ->
  exists X,
    foldl (fun acc jl =>
             match acc with
             | Ok X => setitem (jl.1 + 1) (satisfied_by jl.2 data) X
             | Raise e => Raise e
             end) (Ok X0) (enumerate l) = Ok X
    /\ length X = length X0
    /\ X !! 0 = X0 !! 0
    /\ forall j lhs, l !! j = Some lhs ->
                     X !! (j + 1) = Some (satisfied_by lhs data).
Proof.
  induction l as [|x l IH] using rev_ind; intros Hlen.
  - exists X0. do 3 (split; [done|]). intros j lhs Hj. by rewrite lookup_nil in Hj.
  - rewrite length_app in Hlen. simpl in Hlen.
    destruct IH as (X & Hfold & HX & H0 & Hrest); [lia|].
    rewrite enumerate_snoc, foldl_app, Hfold. simpl.
    rewrite setitem_Ok by lia. eexists. split; [done|].
    rewrite length_insert. split; [done|]. split.
    + rewrite list_lookup_insert_ne by lia. done.
    + intros j lhs Hj. destruct (decide (j = length l)) as [->|Hne].
      * rewrite list_lookup_middle in Hj by done. inversion Hj; subst.
        rewrite list_lookup_insert_eq by lia. done.
      * rewrite list_lookup_insert_ne by lia. apply Hrest.
        rewrite lookup_app_l in Hj; [done|].
        apply lookup_lt_Some in Hj. rewrite length_app in Hj. simpl in Hj. lia.
Qed.

Lemma fit_sets_spec (itemsets : list row) (data : matrix) :
  exists X,
    fit_sets itemsets data = Ok X
    /\ length X = length itemsets + 1
    /\ X !! 0 = Some (set_range (length data))
    /\ forall j lhs, itemsets !! j = Some lhs ->
                     X !! (j + 1) = Some (satisfied_by lhs data).
Proof.
  unfold fit_sets. rewrite setitem_Ok by (rewrite length_replicate; lia).
  destruct (fit_sets_loop data itemsets
              (<[0 := set_range (length data)]> (replicate (length itemsets + 1) ∅)))
    as (X & Hfold & HX & H0 & Hrest).
  { rewrite length_insert, length_replicate. lia. }
  exists X. split; [done|]. rewrite length_insert, length_replicate in HX.
  split; [done|]. split; [|done].
  rewrite H0. apply list_lookup_insert_eq. rewrite length_replicate. lia.
Qed.

Section Loops.
Context {Rng Frame Cuts : Type}.
Implicit Types w : world Rng Frame Cuts.

Lemma for_each_snoc {A S} (l : list A) (a : A)
    (body : S -> A -> M Rng Frame Cuts S) (s : S) w :
  for_each (l ++ [a]) body s w =
  match for_each l body s w with
  | (Ok s', w') => body s' a w'
  | (Raise e, w') => (Raise e, w')
  end.
Proof.
  revert s w. induction l as [|x l IH]; intros s w; simpl.
  - unfold bind, ret. destruct (body s a w) as [[s'|e] w']; done.
  - unfold bind. destruct (body s x w) as [[s'|e] w']; [apply IH|done].
Qed.

Lemma to_itemset_indices_loop (data : matrix) (l : list itemset)
    (X0 : list (gset nat)) w :
  length l <= length X0 ->
  exists X,
    for_each (enumerate l) (fun X jl =>
      if bool_decide (0 < jl.1)
      then lift (setitem jl.1 (satisfied_by (set_of jl.2) data) X)
      else ret X) X0 w = (Ok X, w)
    /\ length X = length X0
    /\ X !! 0 = X0 !! 0
    /\ forall j lhs, 0 < j -> l !! j = Some lhs ->
                     X !! j = Some (satisfied_by (set_of lhs) data).
Proof.
  induction l as [|x l IH] using rev_ind; intros Hlen.
  - exists X0. do 3 (split; [done|]). intros j lhs _ Hj. by rewrite lookup_nil in Hj.
  - rewrite length_app in Hlen. simpl in Hlen.
    destruct IH as (X & Hloop & HX & H0 & Hrest); [lia|].
    rewrite enumerate_snoc, for_each_snoc, Hloop. simpl.
    case_bool_decide as Hl.
    + unfold lift. rewrite setitem_Ok by lia. eexists. split; [done|].
      rewrite length_insert. split; [done|]. split.
      * rewrite list_lookup_insert_ne by lia. done.
      * intros j lhs Hpos Hj. destruct (decide (j = length l)) as [->|Hne].
        -- rewrite list_lookup_middle in Hj by done. inversion Hj; subst.
           rewrite list_lookup_insert_eq by lia. done.
        -- rewrite list_lookup_insert_ne by lia. apply Hrest; [done|].
           rewrite lookup_app_l in Hj; [done|].
           apply lookup_lt_Some in Hj. rewrite length_app in Hj. simpl in Hj. lia.
    + exists X. do 3 (split; [done|]). intros j lhs Hpos Hj.
      apply Hrest; [done|]. rewrite lookup_app_l in Hj; [done|].
      apply lookup_lt_Some in Hj. rewrite length_app in Hj. simpl in Hj. lia.
Qed.

Lemma to_itemset_indices_spec (data : matrix) w (its : list itemset) :
  itemsets (self w) = Some its ->
  its <> [] ->
  exists X,
    _to_itemset_indices data w = (Ok X, w)
    /\ length X = length its
    /\ X !! 0 = Some (set_range (length data))
    /\ forall j lhs, 0 < j -> its !! j = Some lhs ->
                     X !! j = Some (satisfied_by (set_of lhs) data).
Proof.
  intros Hits Hne. unfold _to_itemset_indices, bind, getattr, lift. rewrite Hits.
  assert (0 < length its) as Hpos by (destruct its; [done|simpl; lia]).
  rewrite setitem_Ok by (by rewrite length_replicate).
  destruct (to_itemset_indices_loop data its
              (<[0 := set_range (length data)]> (replicate (length its) ∅)) w)
    as (X & Hloop & HX & H0 & Hrest).
  { by rewrite length_insert, length_replicate. }
  exists X. cbn. rewrite Hits. split; [exact Hloop|]. rewrite length_insert, length_replicate in HX.
  split; [done|]. split; [|done].
  rewrite H0. apply list_lookup_insert_eq. by rewrite length_replicate.
Qed.

Lemma to_itemset_indices_Ok (data : matrix) w w' (X : list (gset nat)) :
  _to_itemset_indices data w = (Ok X, w') ->
  exists its, itemsets (self w) = Some its /\ its <> [].
Proof.
  unfold _to_itemset_indices, bind, getattr, lift.
  destruct (itemsets (self w)) as [its|]; [|intros [=]].
  destruct its as [|e its]; [cbn; intros [=]|]. intros _. by exists (e :: its).
Qed.

End Loops.

(** ** Reasoning about method bodies *)

Section Logic.
Context {Rng Frame Cuts : Type}.
Implicit Types w : world Rng Frame Cuts.
Implicit Types R : relation (world Rng Frame Cuts).

Lemma bind_read {A B} (f : RuleListClassifier Frame Cuts -> A)
    (k : A -> M Rng Frame Cuts B) w :
  bind (read f) k w = k (f (self w)) w.
Proof. reflexivity. Qed.

Lemma rel_ret {A} R (a : A) : rel R (ret a) (ret a).
Proof. intros w w' HR. done. Qed.

Lemma rel_raise {A} R (e : exn) : rel R (raise (A := A) e) (raise e).
Proof. intros w w' HR. done. Qed.

Lemma rel_lift {A} R (r : result A) : rel R (lift r) (lift r).
Proof. intros w w' HR. done. Qed.

Lemma rel_bind {A B} R (c c' : M Rng Frame Cuts A) (k k' : A -> M Rng Frame Cuts B) :
  rel R c c' -> (forall a, rel R (k a) (k' a)) -> rel R (bind c k) (bind c' k').
Proof.
  intros Hc Hk w w' HR. unfold bind. destruct (Hc w w' HR) as [Hv Hw].
  destruct (c w) as [[a|e] w1], (c' w') as [[a'|e'] w1']; simpl in *;
    try discriminate.
  - inversion Hv; subst. by apply Hk.
  - inversion Hv; subst. done.
Qed.

Lemma rel_for_each {A S} R (l : list A) (body body' : S -> A -> M Rng Frame Cuts S) :
  (forall s a, rel R (body s a) (body' s a)) ->
  forall s, rel R (for_each l body s) (for_each l body' s).
Proof.
  intros Hb. induction l as [|a l IH]; intros s; simpl.
  - apply rel_ret.
  - apply rel_bind; [apply Hb|apply IH].
Qed.

Lemma rel_try {A} R (b b' h h' : M Rng Frame Cuts A) :
  rel R b b' -> rel R h h' ->
  rel R (try_except_TypeError b h) (try_except_TypeError b' h').
Proof.
  intros Hb Hh w w' HR. unfold try_except_TypeError.
  destruct (Hb w w' HR) as [Hv Hw].
  destruct (b w) as [[a|e] w1], (b' w') as [[a'|e'] w1']; simpl in *;
    try discriminate; inversion Hv; subst; [done|].
  destruct e'; try done. by apply Hh.
Qed.

Lemma rel_emit R (e e' : event) : blind R -> rel R (emit e) (emit e').
Proof. intros HR w w' Hw. split; [done|]. by apply HR. Qed.

Lemma rel_call {A} R (e e' : event) (r : result A) :
  blind R -> rel R (call e r) (call e' r).
Proof.
  intros HR. apply rel_bind; [by apply rel_emit|]. intros _. apply rel_lift.
Qed.

Lemma rel_read {A} R (f : RuleListClassifier Frame Cuts -> A) :
  (forall w w', R w w' -> f (self w) = f (self w')) -> rel R (read f) (read f).
Proof. intros Hf w w' HR. unfold read. simpl. split; [by rewrite (Hf w w')|done]. Qed.

Lemma rel_getattr {A} R name (f : RuleListClassifier Frame Cuts -> option A) :
  (forall w w', R w w' -> f (self w) = f (self w')) ->
  rel R (getattr name f) (getattr name f).
Proof.
  intros Hf w w' HR. unfold getattr. rewrite (Hf w w' HR).
  by destruct (f (self w')).
Qed.

Lemma rel_assign R (f f' : RuleListClassifier Frame Cuts -> RuleListClassifier Frame Cuts) :
  (forall w w', R w w' -> R (assign f w).2 (assign f' w').2) ->
  rel R (assign f) (assign f').
Proof. intros Hf w w' HR. split; [done|]. by apply Hf. Qed.

(** Invariants. *)
Lemma preserves_at {A} (P : world Rng Frame Cuts -> Prop) (c : M Rng Frame Cuts A) w :
  preserves P c -> P w -> P (c w).2.
Proof. intros Hc. apply Hc. Qed.

Lemma preserves_ret {A} (P : world Rng Frame Cuts -> Prop) (a : A) :
  preserves P (ret a).
Proof. by intros w. Qed.

Lemma preserves_raise {A} (P : world Rng Frame Cuts -> Prop) (e : exn) :
  preserves P (raise (A := A) e).
Proof. by intros w. Qed.

Lemma preserves_lift {A} (P : world Rng Frame Cuts -> Prop) (r : result A) :
  preserves P (lift r).
Proof. by intros w. Qed.

Lemma preserves_read {A} (P : world Rng Frame Cuts -> Prop)
    (f : RuleListClassifier Frame Cuts -> A) :
  preserves P (read f).
Proof. by intros w. Qed.

Lemma preserves_getattr {A} (P : world Rng Frame Cuts -> Prop) name
    (f : RuleListClassifier Frame Cuts -> option A) :
  preserves P (getattr name f).
Proof. intros w. unfold getattr. by destruct (f (self w)). Qed.

Lemma preserves_bind {A B} (P : world Rng Frame Cuts -> Prop)
    (c : M Rng Frame Cuts A) (k : A -> M Rng Frame Cuts B) :
  preserves P c -> (forall a, preserves P (k a)) -> preserves P (bind c k).
Proof.
  intros Hc Hk w Hw. unfold bind. specialize (Hc w Hw).
  destruct (c w) as [[a|e] w1]; simpl in *; [by apply Hk|done].
Qed.

Lemma preserves_for_each {A S} (P : world Rng Frame Cuts -> Prop) (l : list A)
    (body : S -> A -> M Rng Frame Cuts S) :
  (forall s a, preserves P (body s a)) -> forall s, preserves P (for_each l body s).
Proof.
  intros Hb. induction l as [|a l IH]; intros s; simpl.
  - apply preserves_ret.
  - apply preserves_bind; [apply Hb|apply IH].
Qed.

Lemma preserves_emit (P : world Rng Frame Cuts -> Prop) (e : event) :
  ignores_trace P -> preserves P (emit e).
Proof. intros HP w Hw. by apply HP. Qed.

Lemma preserves_call {A} (P : world Rng Frame Cuts -> Prop) (e : event) (r : result A) :
  ignores_trace P -> preserves P (call e r).
Proof.
  intros HP. apply preserves_bind; [by apply preserves_emit|].
  intros _. apply preserves_lift.
Qed.

Lemma preserves_assign (P : world Rng Frame Cuts -> Prop)
    (f : RuleListClassifier Frame Cuts -> RuleListClassifier Frame Cuts) :
  (forall w, P w -> P (assign f w).2) -> preserves P (assign f).
Proof. intros Hf w. apply Hf. Qed.

Lemma same_state_blind : blind (same_state (Rng := Rng) (Frame := Frame) (Cuts := Cuts)).
Proof. intros w w' t t' [H1 H2]. done. Qed.

Lemma same_model_blind : blind (same_model (Rng := Rng) (Frame := Frame) (Cuts := Cuts)).
Proof. intros w w' t t' [H1 H2]. done. Qed.

Lemma same_state_ignores_trace w0 : ignores_trace (same_state w0).
Proof. intros w t [H1 H2]. done. Qed.

Lemma same_model_ignores_trace w0 : ignores_trace (same_model w0).
Proof. intros w t [H1 H2]. done. Qed.

Lemma bind_Ok_inv {A B} (c : M Rng Frame Cuts A) (k : A -> M Rng Frame Cuts B)
    w (b : B) w' :
  bind c k w = (Ok b, w') ->
  exists a w1, c w = (Ok a, w1) /\ k a w1 = (Ok b, w').
Proof.
  unfold bind. destruct (c w) as [[a|e] w1]; [|intros [=]]. intros Hk. eauto.
Qed.


Lemma trace_within_emit (ok : event -> Prop) (t0 : list event) (e : event) :
  ok e -> preserves (Rng := Rng) (Frame := Frame) (Cuts := Cuts) (trace_within ok t0) (emit e).
Proof.
  intros He w (evs & Ht & Hok). exists (evs ++ [e]). simpl. split.
  - by rewrite Ht, app_assoc.
  - apply Forall_app. split; [done|]. by constructor.
Qed.

Lemma trace_within_call {A} (ok : event -> Prop) (t0 : list event) (e : event)
    (r : result A) :
  ok e -> preserves (Rng := Rng) (Frame := Frame) (Cuts := Cuts) (trace_within ok t0) (call e r).
Proof.
  intros He. apply preserves_bind; [by apply trace_within_emit|].
  intros _. apply preserves_lift.
Qed.

Lemma trace_within_assign (ok : event -> Prop) (t0 : list event)
    (f : RuleListClassifier Frame Cuts -> RuleListClassifier Frame Cuts) :
  preserves (Rng := Rng) (trace_within ok t0) (assign f).
Proof. by intros w Hw. Qed.

Lemma preserves_try {A} (P : world Rng Frame Cuts -> Prop) (b h : M Rng Frame Cuts A) :
  preserves P b -> preserves P h -> preserves P (try_except_TypeError b h).
Proof.
  intros Hb Hh w Hw. unfold try_except_TypeError. specialize (Hb w Hw).
  destruct (b w) as [[a|e] w1]; simpl in *; [done|].
  destruct e; try done. by apply Hh.
Qed.

End Logic.

Section Sampler.
Context {Rng Frame Cuts : Type} `{!Collaborators Rng Frame Cuts}.
Implicit Types w : world Rng Frame Cuts.

Lemma trace_within_sample ok t0 Xtrain Ytrain nruleslen lhs_len permsdic :
  ok called_run_bdl_multichain_serial ->
  preserves (trace_within ok t0) (sample Xtrain Ytrain nruleslen lhs_len permsdic).
Proof.
  intros He w (evs & Ht & Hok). unfold sample.
  destruct (run_bdl_multichain_serial _ _ _ _ _ _ _ _ _ _ _ _ _ _ _ _) as [r g].
  exists (evs ++ [called_run_bdl_multichain_serial]). simpl. split.
  - by rewrite Ht, app_assoc.
  - apply Forall_app. split; [done|]. by constructor.
Qed.

(** The sampler leaves the object alone. *)
Lemma sample_self (P : RuleListClassifier Frame Cuts -> Prop)
    Xtrain Ytrain nruleslen lhs_len permsdic :
  preserves (fun w => P (self w)) (sample Xtrain Ytrain nruleslen lhs_len permsdic).
Proof.
  intros w Hw. unfold sample.
  by destruct (run_bdl_multichain_serial _ _ _ _ _ _ _ _ _ _ _ _ _ _ _ _) as [r g].
Qed.

End Sampler.

(** One step of a proof that a method body keeps an invariant, and one step
    of a proof that two runs agree. *)
Ltac preserves_step :=
  first
    [ apply preserves_ret
    | apply preserves_raise
    | apply preserves_lift
    | apply preserves_read
    | apply preserves_getattr
    | apply preserves_call;
      first [apply same_state_ignores_trace | apply same_model_ignores_trace]
    | apply trace_within_call; solve [simpl; auto]
    | apply trace_within_emit; solve [simpl; auto]
    | apply trace_within_assign
    | apply trace_within_sample; solve [simpl; auto]
    | apply preserves_try
    | apply preserves_for_each; intros ? ?
    | apply preserves_bind; [|intros ?]
    | match goal with
      | |- preserves _ (if ?b then _ else _) => destruct b
      | |- preserves _ (match ?x with _ => _ end) => destruct x
      end ].

Ltac field_eq :=
  let H := fresh in
  intros ? ? [H _];
  first [ by rewrite H | unfold fitted_part in H; by simplify_eq ].

Ltac rel_step :=
  first
    [ apply rel_ret
    | apply rel_raise
    | apply rel_lift
    | apply rel_read; field_eq
    | apply rel_getattr; field_eq
    | apply rel_call; first [apply same_state_blind | apply same_model_blind]
    | apply rel_emit; first [apply same_state_blind | apply same_model_blind]
    | apply rel_assign; intros ? ? [? ?]; split; simpl; congruence
    | apply rel_for_each; intros ? ?
    | apply rel_bind; [|intros ?]
    | match goal with
      | |- rel _ (if ?b then _ else _) (if ?b then _ else _) => destruct b
      | |- rel _ (match ?x with _ => _ end) (match ?x with _ => _ end) => destruct x
      end ].

(** ** Prediction *)

Section Prediction.
Context {Rng Frame Cuts : Type} `{!Collaborators Rng Frame Cuts}.
Implicit Types w : world Rng Frame Cuts.

Lemma prepend_feature_labels_preserves P (X : matrix) :
  preserves (Rng := Rng) P (_prepend_feature_labels X).
Proof. unfold _prepend_feature_labels. repeat preserves_step. Qed.

Lemma to_itemset_indices_preserves P (data : matrix) :
  preserves (Rng := Rng) (Frame := Frame) (Cuts := Cuts) P (_to_itemset_indices data).
Proof. unfold _to_itemset_indices. repeat preserves_step. Qed.

Lemma predict_proba_frame (X : matrix) w :
  discretizer (self w) = None -> same_state w (predict_proba X w).2.
Proof.
  intros Hnone. unfold predict_proba. rewrite bind_read, Hnone.
  apply (preserves_at (same_state w)); [|done].
  apply preserves_bind; [preserves_step|intros D].
  apply preserves_bind; [apply to_itemset_indices_preserves|intros X0].
  repeat preserves_step.
Qed.

Lemma predict_frame (X : matrix) w :
  discretizer (self w) = None -> same_state w (predict X w).2.
Proof.
  intros Hnone. unfold predict, bind at 1.
  pose proof (predict_proba_frame X w Hnone) as Hpp.
  destruct (predict_proba X w) as [[proba|e] w1]; simpl in *; [|done].
  apply (preserves_at (same_state w)); [|done]. repeat preserves_step.
Qed.

Lemma prepend_feature_labels_rel (X : matrix) :
  rel (Rng := Rng) same_model (_prepend_feature_labels X) (_prepend_feature_labels X).
Proof. unfold _prepend_feature_labels. repeat rel_step. Qed.

Lemma to_itemset_indices_rel (data : matrix) :
  rel (Rng := Rng) (Frame := Frame) (Cuts := Cuts) same_model
    (_to_itemset_indices data) (_to_itemset_indices data).
Proof. unfold _to_itemset_indices. repeat rel_step. Qed.

Lemma set_data_same_model w w' (f f' : Frame) (c : Cuts) :
  same_model w w' ->
  same_model (assign (set_discretizer (Some {| _data := f; _cuts := c |})) w).2
             (assign (set_discretizer (Some {| _data := f'; _cuts := c |})) w').2.
Proof.
  intros [Hf Hr]. split; [|done]. unfold fitted_part in *. simpl.
  simplify_eq. congruence.
Qed.

Lemma predict_proba_rel (X : matrix) :
  rel same_model (predict_proba X) (predict_proba X).
Proof.
  intros w w' HR. unfold predict_proba. rewrite !bind_read.
  assert (_cuts <$> discretizer (self w) = _cuts <$> discretizer (self w')) as Hc.
  { destruct HR as [Hf _]. unfold fitted_part in Hf. by simplify_eq. }
  revert w w' HR Hc.
  assert (forall D : M Rng Frame Cuts matrix, rel same_model D D ->
            rel same_model
              (bind D (fun D => bind (_to_itemset_indices D) (fun X0 =>
                 bind (read d_star) (fun d => bind (getattr "theta" theta) (fun th =>
                   bind (call called_preds_d_t (preds_d_t X0 (length D) d th))
                     (fun P => ret (map (fun p => [(1 - p)%Q; p]) P)))))))
              (bind D (fun D => bind (_to_itemset_indices D) (fun X0 =>
                 bind (read d_star) (fun d => bind (getattr "theta" theta) (fun th =>
                   bind (call called_preds_d_t (preds_d_t X0 (length D) d th))
                     (fun P => ret (map (fun p => [(1 - p)%Q; p]) P)))))))) as Hrest.
  { intros D HD. apply rel_bind; [done|intros D0].
    apply rel_bind; [apply to_itemset_indices_rel|intros X0]. repeat rel_step. }
  intros w w' HR Hc.
  destruct (discretizer (self w)) as [d|], (discretizer (self w')) as [d'|];
    simpl in Hc; try discriminate.
  - injection Hc as Hc. rewrite Hc. apply Hrest; [|done].
    apply rel_bind; [rel_step|intros labels].
    apply rel_bind; [rel_step|intros f].
    apply rel_bind; [apply rel_assign; intros; by apply set_data_same_model|intros _].
    apply rel_bind; [rel_step|intros f'].
    apply rel_bind; [apply rel_assign; intros; by apply set_data_same_model|intros _].
    apply prepend_feature_labels_rel.
  - apply Hrest; [|done]. apply rel_ret.
Qed.

Lemma predict_proba_same_model (X : matrix) w :
  same_model w (predict_proba X w).2.
Proof.
  destruct (discretizer (self w)) as [d|] eqn:Hd.
  - unfold predict_proba. rewrite bind_read, Hd.
    apply (preserves_at (same_model w)); [|done].
    assert (forall f, preserves (same_model w)
              (assign (set_discretizer (Some {| _data := f; _cuts := _cuts d |}))))
      as Hassign.
    { intros f. apply preserves_assign. intros w1 [Hf Hr]. split; [|done].
      rewrite Hf. unfold fitted_part. simpl.
      assert (_cuts <$> discretizer (self w1) = Some (_cuts d)) as <-; [|done].
      unfold fitted_part in Hf. rewrite Hd in Hf. simpl in Hf. by simplify_eq. }
    apply preserves_bind.
    { apply preserves_bind; [preserves_step|intros labels].
      apply preserves_bind; [preserves_step|intros f].
      apply preserves_bind; [apply Hassign|intros _].
      apply preserves_bind; [preserves_step|intros f'].
      apply preserves_bind; [apply Hassign|intros _].
      apply prepend_feature_labels_preserves. }
    intros D. apply preserves_bind; [apply to_itemset_indices_preserves|intros X0].
    repeat preserves_step.
  - destruct (predict_proba_frame X w Hd) as [Hs Hr]. split; [by rewrite Hs|done].
Qed.

End Prediction.

(** ** The mining fallback *)

Section Fallback.
Context {Rng Frame Cuts : Type} (C : Collaborators Rng Frame Cuts).
Implicit Types w : world Rng Frame Cuts.

Let C' : Collaborators Rng Frame Cuts :=
  with_fpgrowth C (fun data supp _ card => fpgrowth data supp kw_max card).

Hypothesis zmax_unsupported :
  forall data supp card, fpgrowth (Collaborators := C) data supp kw_zmax card = Raise TypeError.

Lemma mine_fallback (data_pos data_neg : matrix) w :
  (try_except_TypeError (mine (Collaborators0 := C) kw_zmax data_pos data_neg)
                        (mine (Collaborators0 := C) kw_max data_pos data_neg) w).1
  = match fpgrowth data_pos (minsupport (self w)) kw_max (maxcardinality (self w)) with
    | Ok pos =>
        match fpgrowth data_neg (minsupport (self w)) kw_max (maxcardinality (self w)) with
        | Ok neg => Ok (map fst pos ++ map fst neg)
        | Raise e => Raise e
        end
    | Raise e => Raise e
    end.
Proof.
  unfold try_except_TypeError, mine, bind, read, call, bind, emit, lift, ret. simpl.
  rewrite zmax_unsupported. simpl.
  destruct (fpgrowth data_pos _ kw_max _) as [pos|e]; simpl; [|done].
  destruct (fpgrowth data_neg _ kw_max _) as [neg|e]; done.
Qed.

Lemma mine_fallback_rel (data_pos data_neg : matrix) :
  rel same_state
    (try_except_TypeError (mine (Collaborators0 := C) kw_zmax data_pos data_neg)
                          (mine (Collaborators0 := C) kw_max data_pos data_neg))
    (try_except_TypeError (mine (Collaborators0 := C') kw_zmax data_pos data_neg)
                          (mine (Collaborators0 := C') kw_max data_pos data_neg)).
Proof.
  intros w w' [Hs Hr].
  unfold try_except_TypeError, mine, bind, read, call, bind, emit, lift, ret. simpl.
  rewrite zmax_unsupported, <- Hs. simpl.
  destruct (fpgrowth data_pos _ kw_max _) as [pos|e] eqn:Hpos.
  - destruct (fpgrowth data_neg _ kw_max _) as [neg|e] eqn:Hneg; [done|].
    destruct e; simpl; rewrite ?Hpos, ?Hneg; done.
  - destruct e; simpl; rewrite ?Hpos; done.
Qed.

Lemma sample_rel Xtrain Ytrain nruleslen lhs_len :
  rel same_state
    (sample (Collaborators0 := C) Xtrain Ytrain nruleslen lhs_len default_permsdic)
    (sample (Collaborators0 := C') Xtrain Ytrain nruleslen lhs_len default_permsdic).
Proof.
  intros w w' [Hs Hr]. unfold sample. simpl. rewrite <- Hs, <- Hr.
  destruct (run_bdl_multichain_serial _ _ _ _ _ _ _ _ _ _ _ _ _ _ _ _) as [r g].
  done.
Qed.

Lemma fit_fallback_rel X y feature_labels :
  rel same_state (fit (Collaborators0 := C) X y feature_labels)
                 (fit (Collaborators0 := C') X y feature_labels).
Proof.
  unfold fit, discretize, _prepend_feature_labels, print.
  repeat first [ apply mine_fallback_rel | apply sample_rel | rel_step ].
Qed.

End Fallback.

(** ** What [fit] calls, and when *)

Section Fit.
Context {Rng Frame Cuts : Type} `{!Collaborators Rng Frame Cuts}.
Implicit Types w : world Rng Frame Cuts.

(** C3: a label vector whose set of distinct values does not have size two
    makes [fit] raise at once: nothing was called, nothing was drawn, and
    the object, [d_star] included, is as before.  With exactly two distinct
    values the check lets [fit] go on to [check_X_y]. *)
Theorem fit_checks_labels_first (X : matrix) (y : list Z)
    (feature_labels : option (list string)) w :
  (size (list_to_set y : gset Z) <> 2 ->
   fit X y feature_labels w =
   (Raise (Exception "Only binary classification is supported at this time!"), w))
  /\ (size (list_to_set y : gset Z) = 2 ->
      exists evs, trace (fit X y feature_labels w).2
                  = trace w ++ called_check_X_y :: evs).
Proof.
  split; intros Hy; unfold fit.
  - by rewrite bool_decide_eq_true_2.
  - rewrite bool_decide_eq_false_2 by (by intros ?).
    unfold call at 1. unfold bind at 1. unfold bind at 1. unfold emit at 1. simpl.
    unfold lift at 1.
    destruct (check_X_y X y) as [Xy|e]; simpl; [|by exists []].
    match goal with
    | |- exists evs, trace (?k ?w1).2 = _ =>
        assert (trace_within (fun _ => True) (trace w ++ [called_check_X_y]) (k w1).2)
          as (evs & Ht & _)
    end.
    { apply preserves_at; [|exists []; by rewrite app_nil_r].
      unfold discretize, _prepend_feature_labels, mine, print. repeat preserves_step. }
    exists evs. by rewrite Ht, <- app_assoc.
Qed.

End Fit.

Section FitResult.
Context {Rng Frame Cuts : Type} `{!Collaborators Rng Frame Cuts}.
Implicit Types w : world Rng Frame Cuts.

Ltac bind_inv H :=
  let a := fresh "a" in
  let w1 := fresh "w" in
  let Hc := fresh "Hc" in
  apply bind_Ok_inv in H as (a & w1 & Hc & H).

(** A fit that returns leaves ['null'] followed by the mined itemsets in
    [self.itemsets], so the attribute is there and not empty whenever
    prediction follows a fit. *)
Lemma fit_Ok_itemsets (X : matrix) (y : list Z)
    (feature_labels : option (list string)) w w' :
  fit X y feature_labels w = (Ok tt, w') ->
  exists mined : list row, itemsets (self w') = Some (null :: map items mined).
Proof.
  unfold fit. case_bool_decide; [intros [=]|]. intros Hfit.
  do 8 bind_inv Hfit.
  destruct (negb _); [discriminate Hfit|].
  do 4 bind_inv Hfit.
  match type of Hfit with
  | bind (assign (set_itemsets (null :: map items ?l))) _ _ = _ =>
      exists l; bind_inv Hfit;
      match type of Hfit with
      | _ ?w1 = _ => assert (itemsets (self w1) = Some (null :: map items l)) as Hits
      end
  end.
  { match goal with H : assign _ _ = _ |- _ => unfold assign in H; by simplify_eq end. }
  revert Hits. change (w') with ((Ok tt, w').2). rewrite <- Hfit.
  apply (preserves_at (fun w => itemsets (self w) = Some _)).
  apply preserves_bind;
    [apply (sample_self (fun m => itemsets m = Some _))|intros res].
  apply preserves_bind;
    [apply preserves_bind; [by intros ?|intros _; apply preserves_lift]|intros permsdic].
  apply preserves_bind; [apply preserves_read|intros m].
  apply preserves_bind;
    [apply preserves_bind; [by intros ?|intros _; apply preserves_lift]|intros d].
  apply preserves_bind; [by intros ?|intros _].
  apply preserves_bind; [apply preserves_read|intros d'].
  destruct d' as [[|j js]|]; try apply preserves_ret.
  apply preserves_bind; [apply preserves_read|intros al].
  apply preserves_bind;
    [apply preserves_bind; [by intros ?|intros _; apply preserves_lift]|intros rhs].
  by intros ?.
Qed.

End FitResult.

(** ** When prediction returns *)

Section Predictor.

Lemma first_match_Ok (X : list (gset nat)) (i : nat) (d : list nat) (k0 : nat) :
  Forall (fun j => j < length X) d ->
  exists r, BRL_code.first_match X i (imap (fun k j => (k0 + k, j)) d) = Ok r
            /\ forall k, r = Some k -> k < k0 + length d.
Proof.
  revert k0. induction d as [|j d IH]; intros k0 Hd; simpl.
  - exists None. by split.
  - apply Forall_cons in Hd as [Hj Hd].
    destruct (lookup_lt_is_Some_2 X j Hj) as [Xj HXj]. rewrite HXj.
    case_bool_decide.
    + eexists. split; [done|]. intros k [= <-]. lia.
    + destruct (IH (S k0) Hd) as (r & Hr & Hk).
      rewrite (imap_ext _ (fun k j => (S k0 + k, j))) by (intros; simpl; f_equal; lia).
      exists r. split; [done|]. intros k Hrk. specialize (Hk k Hrk). lia.
Qed.

Lemma collect_Ok {A} (l : list (result A)) :
  Forall (fun r => exists a, r = Ok a) l ->
  exists v, BRL_code.collect l = Ok v /\ length v = length l.
Proof.
  induction l as [|r l IH]; intros Hl; simpl.
  - by exists [].
  - apply Forall_cons in Hl as [[a ->] Hl]. destruct (IH Hl) as (v & -> & Hv).
    exists (a :: v). simpl. by rewrite Hv.
Qed.

(** The predictor answers for every transaction when the rule list is not
    empty, its rules have satisfaction sets and [theta] is aligned with
    it. *)
Lemma preds_d_t_Ok (X : list (gset nat)) (N : nat) (d : list nat) (theta : list Q) :
  d <> [] ->
  Forall (fun j => j < length X) d ->
  length theta = length d ->
  exists P, BRL_code.preds_d_t X N (Some d) theta = Ok P /\ length P = N.
Proof.
  intros Hne Hd Hth. unfold BRL_code.preds_d_t.
  destruct (collect_Ok (map (BRL_code.pred_one X d theta) (seq 0 N))) as (P & HP & Hlen).
  { apply Forall_forall. intros r Hr. apply list_elem_of_fmap in Hr as (i & -> & _).
    unfold BRL_code.pred_one, enumerate.
    destruct (first_match_Ok X i d 0 Hd) as (r & Hr & Hk).
    rewrite (imap_ext _ pair) in Hr by done. rewrite Hr.
    assert (0 < length d) by (destruct d; [done|simpl; lia]).
    destruct r as [k|].
    - specialize (Hk k eq_refl). unfold getitem.
      destruct (lookup_lt_is_Some_2 theta k) as [t ->]; [lia|eauto].
    - unfold getitem.
      destruct (lookup_lt_is_Some_2 theta (length d - 1)) as [t ->]; [lia|eauto]. }
  exists P. split; [done|]. by rewrite Hlen, length_map, length_seq.
Qed.

End Predictor.

Section Returns.
Context {Rng Frame Cuts : Type} `{!Collaborators Rng Frame Cuts}.
Implicit Types w : world Rng Frame Cuts.

(** With the predictor of the spec, [predict_proba] returns one row per
    transaction for a model as [fit] leaves it on categorical data: a
    non-empty rule list over the rule indices, with a [theta] per
    position. *)
Lemma predict_proba_returns (X : matrix) w (its : list itemset)
    (d : list nat) (th : list Q) :
  preds_d_t = BRL_code.preds_d_t ->
  discretizer (self w) = None ->
  itemsets (self w) = Some its ->
  d_star (self w) = Some d ->
  theta (self w) = Some th ->
  d <> [] ->
  Forall (fun j => j < length its) d ->
  length th = length d ->
  exists rows w', predict_proba X w = (Ok rows, w') /\ length rows = length X.
Proof.
  intros Hpreds Hnone Hits Hd Hth Hne Hin Hlen.
  assert (its <> []) as Hits_ne.
  { intros ->. destruct d as [|j d]; [done|]. apply Forall_cons in Hin as [Hj _].
    simpl in Hj. lia. }
  destruct (to_itemset_indices_spec X w its Hits Hits_ne) as (X0 & HX0 & HlenX & _).
  destruct (preds_d_t_Ok X0 (length X) d th Hne) as (P & HP & HlenP);
    [by rewrite HlenX|done|].
  unfold predict_proba. rewrite bind_read, Hnone.
  unfold bind at 1, ret. unfold bind at 1. rewrite HX0.
  rewrite bind_read, Hd. unfold bind at 1, getattr. rewrite Hth.
  unfold bind, call, bind, emit, lift. simpl. rewrite Hpreds, HP.
  eexists _, _. split; [done|]. by rewrite length_map.
Qed.

End Returns.

(** * Prediction with a fitted model *)

Section PredictionClaims.
Context {Rng Frame Cuts : Type} `{!Collaborators Rng Frame Cuts}.
Implicit Types w : world Rng Frame Cuts.

(** [predict_proba] answers with one row [1 - p; p] per entry of what
    [preds_d_t] returned. *)
Lemma predict_proba_Ok (X : matrix) w w' (rows : list (list Q)) :
  predict_proba X w = (Ok rows, w') ->
  exists P : list Q, rows = map (fun p => [(1 - p)%Q; p]) P.
Proof.
  unfold predict_proba. intros Hpp.
  apply bind_Ok_inv in Hpp as (disc & w1 & _ & Hpp).
  apply bind_Ok_inv in Hpp as (D & w2 & _ & Hpp).
  apply bind_Ok_inv in Hpp as (X0 & w3 & _ & Hpp).
  apply bind_Ok_inv in Hpp as (d & w4 & _ & Hpp).
  apply bind_Ok_inv in Hpp as (th & w5 & _ & Hpp).
  apply bind_Ok_inv in Hpp as (P & w6 & _ & Hpp).
  exists P. unfold ret in Hpp. by simplify_eq.
Qed.

Lemma column0_rows (P : list Q) :
  column0 (map (fun p => [(1 - p)%Q; p]) P) = Ok (map (fun p => (1 - p)%Q) P).
Proof. induction P as [|p P IH]; simpl; [done|]. by rewrite IH. Qed.

(** What [predict] makes of the rows: label 1 where column 0 is at least
    one half, label 0 elsewhere. *)
Lemma predict_labels (X : matrix) w w' (P : list Q) :
  predict_proba X w = (Ok (map (fun p => [(1 - p)%Q; p]) P), w') ->
  predict X w
  = (Ok (map (fun p => if Qle_bool (1 # 2) (1 - p) then 1%Z else 0%Z) P), w').
Proof.
  intros Hpp. unfold predict, bind, lift, ret. rewrite Hpp, column0_rows.
  by rewrite map_map.
Qed.

(** After a fit that found no point estimate and so never set [theta]. *)
Lemma predict_proba_without_theta (X : matrix) w (lhs : itemset) (its : list itemset) :
  discretizer (self w) = None ->
  itemsets (self w) = Some (lhs :: its) ->
  theta (self w) = None ->
  predict_proba X w = (Raise (AttributeError "theta"), w).
Proof.
  intros Hnone Hits Htheta. unfold predict_proba. rewrite bind_read, Hnone.
  destruct (to_itemset_indices_spec X w (lhs :: its) Hits) as (X0 & HX0 & _); [done|].
  unfold bind at 1, ret. unfold bind at 1. rewrite HX0.
  rewrite bind_read. unfold bind, getattr. by rewrite Htheta.
Qed.

(** C4: every row [predict_proba] returns has exactly two entries, [1 - p]
    and [p] for one probability [p], and they sum to 1. *)
Theorem predict_proba_rows_sum_to_1 (X : matrix) w w' (rows : list (list Q)) :
  predict_proba X w = (Ok rows, w') ->
  Forall (fun r => length r = 2
                   /\ (exists p, r = [(1 - p)%Q; p])
                   /\ (foldr Qplus 0 r == 1)%Q) rows.
Proof.
  intros Hpp. apply predict_proba_Ok in Hpp as (P & ->).
  apply Forall_forall. intros r Hr.
  apply list_elem_of_fmap in Hr as (p & -> & _).
  split; [done|]. split; [by exists p|]. simpl. ring.
Qed.

Lemma predict_rel (X : matrix) : rel same_model (predict X) (predict X).
Proof.
  unfold predict. apply rel_bind; [apply predict_proba_rel|intros proba].
  repeat rel_step.
Qed.

Lemma predict_world (X : matrix) w :
  (predict X w).2 = (predict_proba X w).2.
Proof.
  unfold predict, bind, lift, ret.
  destruct (predict_proba X w) as [[proba|e] w1]; [|done].
  by destruct (column0 proba).
Qed.

Lemma predict_proba_trace (X : matrix) w :
  trace_within (fun e => e = called_apply_cutpoints \/ e = called_preds_d_t)
    (trace w) (predict_proba X w).2.
Proof.
  apply preserves_at; [|exists []; by rewrite app_nil_r].
  unfold predict_proba, _prepend_feature_labels, _to_itemset_indices.
  repeat preserves_step.
Qed.

(** C5: a second call of [predict_proba], or of [predict], on the same
    input and the object the first call left behind returns what the first
    call returned.  Neither call touches the random generators, and the only
    collaborators a call reaches are the discretizer's [apply_cutpoints] and
    [preds_d_t]. *)
Theorem predict_twice_same_output (X : matrix) w :
  (predict_proba X (predict_proba X w).2).1 = (predict_proba X w).1
  /\ (predict X (predict X w).2).1 = (predict X w).1
  /\ rng (predict_proba X w).2 = rng w
  /\ rng (predict X w).2 = rng w
  /\ trace_within (fun e => e = called_apply_cutpoints \/ e = called_preds_d_t)
       (trace w) (predict X w).2.
Proof.
  pose proof (predict_proba_same_model X w) as Hpp.
  assert (same_model w (predict X w).2) as Hp by (by rewrite predict_world).
  split; [|split; [|split; [|split]]].
  - symmetry. by apply predict_proba_rel.
  - symmetry. by apply predict_rel.
  - symmetry. apply Hpp.
  - symmetry. apply Hp.
  - rewrite predict_world. apply predict_proba_trace.
Qed.

(** C10: when the object holds no discretizer, [predict_proba] and
    [predict] leave every attribute of it as it was. *)
Theorem predict_leaves_model_unchanged (X : matrix) w :
  discretizer (self w) = None ->
  self (predict_proba X w).2 = self w /\ self (predict X w).2 = self w.
Proof.
  intros Hnone. split; symmetry.
  - apply (predict_proba_frame X w Hnone).
  - apply (predict_frame X w Hnone).
Qed.

(** A classifier that was never fitted has no [itemsets] attribute. *)
Lemma untrained_predict_proba (X : matrix)
    (llp lwp mc ms : Z) (alpha : list Q) (nc mi : Z) (label : string)
    (verbose : bool) (g : Rng) (t : list event) :
  let w := {| self := init llp lwp mc ms alpha nc mi label verbose;
              rng := g; trace := t |} in
  predict_proba X w = (Raise (AttributeError "itemsets"), w).
Proof. reflexivity. Qed.

(** C2: on a classifier that was never fitted, the description is the
    explicit "(Untrained RuleListClassifier)", but [predict_proba] and
    [predict] end in an [AttributeError] for the missing [itemsets]. *)
Theorem untrained_model_is_described_not_predicted (X : matrix)
    (llp lwp mc ms : Z) (alpha : list Q) (nc mi : Z) (label : string)
    (verbose : bool) (g : Rng) (t : list event) :
  let w := {| self := init llp lwp mc ms alpha nc mi label verbose;
              rng := g; trace := t |} in
  tostring 1 w = (Ok "(Untrained RuleListClassifier)", w)
  /\ predict_proba X w = (Raise (AttributeError "itemsets"), w)
  /\ predict X w = (Raise (AttributeError "itemsets"), w).
Proof. done. Qed.

End PredictionClaims.

(** * The class partitions *)

Section Partition.
(** The lengths of the two class partitions. *)
Lemma rows_with_label_length (c : Z) (y : list Z) (data : matrix) (k : nat) :
  k + length data <= length y ->
  exists r, rows_with_label c (imap (fun i x => (k + i, x)) data) y = Ok r
            /\ length r = length (filter (fun l => l = c) (take (length data) (drop k y))).
Proof.
  revert k. induction data as [|x data IH]; intros k Hlen; simpl in *.
  - by exists [].
  - rewrite Nat.add_0_r.
    destruct (lookup_lt_is_Some_2 y k) as [l Hl]; [lia|]. rewrite Hl.
    destruct (IH (S k)) as (r & Hr & Hlenr); [lia|].
    rewrite (imap_ext _ (fun i x => (S k + i, x))) by (intros; simpl; f_equal; lia).
    rewrite Hr. eexists. split; [done|].
    rewrite (drop_S _ _ _ Hl). simpl. rewrite filter_cons.
    case_bool_decide; case_decide; try done; simpl; by rewrite Hlenr.
Qed.

Lemma count_labels_0_1 (y : list Z) :
  length (filter (fun l => l = 0%Z) y) + length (filter (fun l => l = 1%Z) y) <= length y
  /\ (length (filter (fun l => l = 0%Z) y) + length (filter (fun l => l = 1%Z) y) = length y
      <-> Forall (fun l => l = 0%Z \/ l = 1%Z) y).
Proof.
  induction y as [|l y [IHle IH]]; simpl.
  - split; [done|]. split; [by constructor|done].
  - rewrite !filter_cons. rewrite Forall_cons.
    repeat case_decide; subst; simpl; try lia.
    + split; [lia|]. split; [intros; split; [by left|apply IH; lia]|intros [_ Hy]; apply IH in Hy; lia].
    + split; [lia|]. split; [intros; split; [by right|apply IH; lia]|intros [_ Hy]; apply IH in Hy; lia].
Qed.

(** With one label per transaction, the rows with label 0 and the rows with
    label 1 together are as many as the transactions exactly when every
    label is 0 or 1. *)
Lemma partition_sizes (data : matrix) (y : list Z) :
  length data = length y ->
  exists data_pos data_neg,
    rows_with_label 0 (enumerate data) y = Ok data_pos
    /\ rows_with_label 1 (enumerate data) y = Ok data_neg
    /\ (length data_pos + length data_neg = length data
        <-> Forall (fun l => l = 0%Z \/ l = 1%Z) y).
Proof.
  intros Hlen.
  destruct (rows_with_label_length 0 y data 0) as (pos & Hpos & Hlpos); [lia|].
  destruct (rows_with_label_length 1 y data 0) as (neg & Hneg & Hlneg); [lia|].
  exists pos, neg. split; [exact Hpos|]. split; [exact Hneg|].
  rewrite Hlpos, Hlneg, drop_0, Hlen, firstn_all. apply count_labels_0_1.
Qed.

End Partition.

(** * The first call of the miner *)

Section MiningTrace.
Context {Rng Frame Cuts : Type} `{!Collaborators Rng Frame Cuts}.
Implicit Types w : world Rng Frame Cuts.

Lemma bind_call {A B} (e : event) (r : result A) (k : A -> M Rng Frame Cuts B) w :
  bind (call e r) k w
  = bind (lift r) k {| self := self w; rng := rng w; trace := trace w ++ [e] |}.
Proof. unfold call, bind, emit, lift. simpl. by destruct r. Qed.

(** The first thing [mine] does is to call [fpgrowth]. *)
Lemma mine_trace (k : keyword) (data_pos data_neg : matrix) w :
  trace_within (fun _ => True) (trace w ++ [called_fpgrowth k])
    (mine k data_pos data_neg w).2.
Proof.
  unfold mine. rewrite !bind_read, bind_call.
  apply (preserves_at (trace_within _ _)); [|exists []; by rewrite app_nil_r].
  repeat preserves_step.
Qed.

Lemma try_mine_trace (data_pos data_neg : matrix) w :
  trace_within (fun _ => True) (trace w ++ [called_fpgrowth kw_zmax])
    (try_except_TypeError (mine kw_zmax data_pos data_neg)
                          (mine kw_max data_pos data_neg) w).2.
Proof.
  unfold try_except_TypeError.
  pose proof (mine_trace kw_zmax data_pos data_neg w) as Hzmax.
  destruct (mine kw_zmax data_pos data_neg w) as [[a|e] w1]; [done|].
  destruct e; try done. revert Hzmax. apply (preserves_at (trace_within _ _)).
  unfold mine. repeat preserves_step.
Qed.

End MiningTrace.

(** * Runs with the demo collaborators *)

(** C1: a fitted model that gives class 1 the probability 1/4 answers
    [0.75, 0.25] for a transaction, and [predict] labels the transaction 1:
    the label is 1 when column 0 is at least 0.5. *)
Theorem predict_labels_1_when_column_0_is_large :
  let C := Demo.collaborators kw_zmax in
  (predict_proba (Collaborators0 := C) [[Str "a"]] Demo.mostly_class_0).1
    = Ok [[3 # 4; 1 # 4]]
  /\ (predict (Collaborators0 := C) [[Str "a"]] Demo.mostly_class_0).1 = Ok [1%Z].
Proof. split; vm_compute; reflexivity. Qed.

(** C9, as stated, fails: the labels 1 and 2 are two distinct values, so
    the binary check lets them through, but no row has label 0 and one row
    has label 1, and [fit] ends in the [AssertionError]. *)
Lemma labels_1_2_fail_the_assertion :
  let C := Demo.collaborators kw_zmax in
  let data := [[Str "a"]; [Str "b"]] in
  let y := [1; 2]%Z in
  size (list_to_set y : gset Z) = 2
  /\ rows_with_label 0 (enumerate data) y = Ok []
  /\ rows_with_label 1 (enumerate data) y = Ok [[Str "a"]]
  /\ 0 + 1 <> length data
  /\ (fit (Collaborators0 := C) data y None Demo.w0).1 = Raise AssertionError.
Proof. repeat split; try (vm_compute; reflexivity). simpl. lia. Qed.

(** The remaining theorems at work on concrete inputs. *)
Lemma predict_proba_rows_sum_to_1_witness :
  Forall (fun r => length r = 2
                   /\ (exists p, r = [(1 - p)%Q; p])
                   /\ (foldr Qplus 0 r == 1)%Q) [[3 # 4; 1 # 4]].
Proof.
  apply (predict_proba_rows_sum_to_1 (Collaborators0 := Demo.collaborators kw_zmax)
           [[Str "a"]] Demo.mostly_class_0
           (predict_proba (Collaborators0 := Demo.collaborators kw_zmax)
              [[Str "a"]] Demo.mostly_class_0).2).
  vm_compute. reflexivity.
Defined.

Lemma predict_leaves_model_unchanged_witness :
  let C := Demo.collaborators kw_zmax in
  self (predict_proba (Collaborators0 := C) Demo.X4 Demo.mostly_class_0).2
    = self Demo.mostly_class_0
  /\ self (predict (Collaborators0 := C) Demo.X4 Demo.mostly_class_0).2
     = self Demo.mostly_class_0.
Proof. apply predict_leaves_model_unchanged. reflexivity. Defined.

(** * More properties of the methods *)

(** ** More about method bodies *)

Section Steps.
Context {Rng Frame Cuts : Type}.
Implicit Types w : world Rng Frame Cuts.

Lemma bind_ret {A B} (a : A) (k : A -> M Rng Frame Cuts B) w :
  bind (ret a) k w = k a w.
Proof. reflexivity. Qed.

Lemma bind_lift_Ok {A B} (a : A) (k : A -> M Rng Frame Cuts B) w :
  bind (lift (Ok a)) k w = k a w.
Proof. reflexivity. Qed.

Lemma bind_lift_Raise {A B} (e : exn) (k : A -> M Rng Frame Cuts B) w :
  bind (lift (Raise e)) k w = (Raise e, w).
Proof. reflexivity. Qed.

Lemma bind_assign {B} (f : RuleListClassifier Frame Cuts -> RuleListClassifier Frame Cuts)
    (k : unit -> M Rng Frame Cuts B) w :
  bind (assign f) k w
  = k tt {| self := f (self w); rng := rng w; trace := trace w |}.
Proof. reflexivity. Qed.

Lemma bind_emit {B} (e : event) (k : unit -> M Rng Frame Cuts B) w :
  bind (emit e) k w
  = k tt {| self := self w; rng := rng w; trace := trace w ++ [e] |}.
Proof. reflexivity. Qed.

Lemma bind_call_Ok {A B} (e : event) (a : A) (k : A -> M Rng Frame Cuts B) w :
  bind (call e (Ok a)) k w
  = k a {| self := self w; rng := rng w; trace := trace w ++ [e] |}.
Proof. reflexivity. Qed.

Lemma bind_call_Raise {A B} (e : event) (x : exn) (k : A -> M Rng Frame Cuts B) w :
  bind (call e (Raise x)) k w
  = (Raise x, {| self := self w; rng := rng w; trace := trace w ++ [e] |}).
Proof. reflexivity. Qed.

Lemma bind_getattr_Some {A B} name (f : RuleListClassifier Frame Cuts -> option A)
    (a : A) (k : A -> M Rng Frame Cuts B) w :
  f (self w) = Some a -> bind (getattr name f) k w = k a w.
Proof. intros Hf. unfold bind, getattr. by rewrite Hf. Qed.

Lemma bind_getattr_None {A B} name (f : RuleListClassifier Frame Cuts -> option A)
    (k : A -> M Rng Frame Cuts B) w :
  f (self w) = None -> bind (getattr name f) k w = (Raise (AttributeError name), w).
Proof. intros Hf. unfold bind, getattr. by rewrite Hf. Qed.

Lemma bind_assoc {A B C} (c : M Rng Frame Cuts A) (k1 : A -> M Rng Frame Cuts B)
    (k2 : B -> M Rng Frame Cuts C) w :
  bind (bind c k1) k2 w = bind c (fun a => bind (k1 a) k2) w.
Proof. unfold bind. by destruct (c w) as [[a|e] w1]. Qed.

Lemma bind_cong {A B} (c c' : M Rng Frame Cuts A) (k : A -> M Rng Frame Cuts B) w w' :
  c w = c' w' -> bind c k w = bind c' k w'.
Proof. unfold bind. by intros ->. Qed.

(** Invariants of the object alone. *)
Lemma self_emit (Q : RuleListClassifier Frame Cuts -> Prop) (e : event) :
  preserves (Rng := Rng) (fun w => Q (self w)) (emit e).
Proof. by intros w. Qed.

Lemma self_call {A} (Q : RuleListClassifier Frame Cuts -> Prop) (e : event)
    (r : result A) :
  preserves (Rng := Rng) (fun w => Q (self w)) (call e r).
Proof.
  apply preserves_bind; [apply self_emit|]. intros _. apply preserves_lift.
Qed.

Lemma self_assign (Q : RuleListClassifier Frame Cuts -> Prop)
    (f : RuleListClassifier Frame Cuts -> RuleListClassifier Frame Cuts) :
  (forall m, Q m -> Q (f m)) ->
  preserves (Rng := Rng) (fun w => Q (self w)) (assign f).
Proof. intros Hf w. apply Hf. Qed.

End Steps.

(** One step of a proof that a method body keeps an invariant of the
    object. *)
Ltac self_step Q :=
  first
    [ apply preserves_ret
    | apply preserves_raise
    | apply preserves_lift
    | apply preserves_read
    | apply preserves_getattr
    | apply (self_call Q)
    | apply (self_emit Q)
    | apply (sample_self Q)
    | apply (self_assign Q); solve [intros ? ?; simpl; auto]
    | apply preserves_try
    | apply preserves_for_each; intros ? ?
    | apply preserves_bind; [|intros ?]
    | match goal with
      | |- preserves _ (if ?b then _ else _) => destruct b
      | |- preserves _ (match ?x with _ => _ end) => destruct x
      end ].

(** ** What no method changes *)

Section Frames.
Context {Rng Frame Cuts : Type} `{!Collaborators Rng Frame Cuts}.
Implicit Types w : world Rng Frame Cuts.

(** No method writes to what the constructor set from its arguments: after
    [fit], [fit2] or [predict_proba], returned or raised, the nine arguments,
    [thinning] and [burnin] are what they were. *)
Theorem fit_keeps_hyperparameters (X : matrix) (y : list Z)
    (feature_labels : option (list string)) w :
  hyperparameters (self (fit X y feature_labels w).2) = hyperparameters (self w)
  /\ hyperparameters (self (fit2 X y feature_labels w).2) = hyperparameters (self w)
  /\ hyperparameters (self (predict_proba X w).2) = hyperparameters (self w).
Proof.
  set (Q := fun m : RuleListClassifier Frame Cuts =>
              hyperparameters m = hyperparameters (self w)).
  split; [|split]; apply (preserves_at (fun w' => Q (self w'))); try done.
  - unfold fit, discretize, _prepend_feature_labels, mine, print.
    repeat self_step Q.
  - unfold fit2, print. repeat self_step Q.
  - unfold predict_proba, _prepend_feature_labels, _to_itemset_indices.
    repeat self_step Q.
Qed.

End Frames.

(** ** The three encoders of the satisfaction sets *)

Section Encoders.
Context {Rng Frame Cuts : Type} `{!Collaborators Rng Frame Cuts}.
Implicit Types w : world Rng Frame Cuts.

Lemma fit2_sets_eq (itemsets : list row) (data : matrix) :
  fit2_sets itemsets data
  = set_range (length data) :: map (fun lhs => satisfied_by lhs data) itemsets.
Proof.
  unfold fit2_sets.
  assert (forall init : list (gset nat),
            foldl (fun X item => X ++ [satisfied_by item data]) init itemsets
            = init ++ map (fun lhs => satisfied_by lhs data) itemsets) as Hfold.
  { induction itemsets as [|lhs itemsets IH]; intros init; simpl.
    - by rewrite app_nil_r.
    - by rewrite IH, <- app_assoc. }
  by rewrite Hfold.
Qed.

Lemma fit_sets_closed (mined : list row) (data : matrix) :
  fit_sets mined data
  = Ok (set_range (length data) :: map (fun lhs => satisfied_by lhs data) mined).
Proof.
  destruct (fit_sets_spec mined data) as (X & -> & Hlen & H0 & Hrest).
  f_equal. apply list_eq. intros [|j]; [done|]. simpl.
  destruct (mined !! j) as [lhs|] eqn:Hj.
  - rewrite list_lookup_fmap, Hj. simpl.
    replace (S j) with (j + 1) by lia. by apply Hrest.
  - rewrite list_lookup_fmap, Hj. simpl. apply lookup_ge_None.
    apply lookup_ge_None in Hj. lia.
Qed.

Lemma to_itemset_indices_closed (mined : list row) (data : matrix) w :
  itemsets (self w) = Some (null :: map items mined) ->
  _to_itemset_indices data w
  = (Ok (set_range (length data) :: map (fun lhs => satisfied_by lhs data) mined), w).
Proof.
  intros Hits.
  destruct (to_itemset_indices_spec data w _ Hits) as (X & -> & Hlen & H0 & Hrest);
    [done|].
  f_equal. f_equal. apply list_eq. intros [|j]; [done|]. simpl.
  destruct (mined !! j) as [lhs|] eqn:Hj.
  - rewrite list_lookup_fmap, Hj. simpl.
    apply (Hrest (S j) (items lhs)); [lia|]. simpl. by rewrite list_lookup_fmap, Hj.
  - rewrite list_lookup_fmap, Hj. simpl. apply lookup_ge_None.
    apply lookup_ge_None in Hj. simpl in Hlen. rewrite length_map in Hlen. lia.
Qed.

(** The three places that build the satisfaction sets agree: the in-place
    loop of [fit], the appending loop of [fit2], and [_to_itemset_indices]
    on an object whose [itemsets] are ['null'] followed by the same mined
    itemsets, as [fit] and [fit2] store them. *)
Theorem encoders_agree (mined : list row) (data : matrix) w :
  itemsets (self w) = Some (null :: map items mined) ->
  fit_sets mined data = Ok (fit2_sets mined data)
  /\ _to_itemset_indices data w = (Ok (fit2_sets mined data), w).
Proof.
  intros Hits. rewrite fit2_sets_eq. split.
  - apply fit_sets_closed.
  - by apply to_itemset_indices_closed.
Qed.

(** What [_to_itemset_indices] does with the [itemsets] it finds: without
    the attribute it ends in an [AttributeError], with an empty list in an
    [IndexError] from the assignment of set 0, and with any other list it
    returns one set per entry.  It never changes the world. *)
Theorem to_itemset_indices_cases (data : matrix) w :
  (_to_itemset_indices data w).2 = w
  /\ (itemsets (self w) = None ->
      (_to_itemset_indices data w).1 = Raise (AttributeError "itemsets"))
  /\ (itemsets (self w) = Some [] ->
      (_to_itemset_indices data w).1 = Raise IndexError)
  /\ (forall lhs its, itemsets (self w) = Some (lhs :: its) ->
      exists X, (_to_itemset_indices data w).1 = Ok X
                /\ length X = S (length its)).
Proof.
  split; [|split; [|split]].
  - apply (preserves_at (fun w1 => w1 = w)); [|done].
    unfold _to_itemset_indices. repeat preserves_step.
  - intros Hits. unfold _to_itemset_indices. by rewrite bind_getattr_None.
  - intros Hits. unfold _to_itemset_indices.
    by rewrite (bind_getattr_Some _ _ _ _ _ Hits).
  - intros lhs its Hits.
    destruct (to_itemset_indices_spec data w _ Hits) as (X & -> & Hlen & _); [done|].
    by exists X.
Qed.

Lemma cell_eqb_trans (a b c : cell) :
  cell_eqb a b = true -> cell_eqb b c = true -> cell_eqb a c = true.
Proof.
  destruct a as [s|p], b as [t|q], c as [u|r]; simpl; try done.
  - rewrite !bool_decide_eq_true. congruence.
  - rewrite !Qeq_bool_iff. apply Qeq_trans.
Qed.

Lemma issubset_trans (a b c : row) :
  issubset a b = true -> issubset b c = true -> issubset a c = true.
Proof.
  rewrite !issubset_spec. intros Hab Hbc t Ht.
  destruct (Hab t Ht) as (u & Hu & Htu). destruct (Hbc u Hu) as (v & Hv & Huv).
  exists v. split; [done|]. by apply (cell_eqb_trans t u v).
Qed.

(** Every satisfaction set holds indices of transactions only, so it is
    part of set 0, and no transaction satisfies anything in an empty
    matrix. *)
Theorem satisfaction_sets_within_range (data : matrix) w w'
    (X : list (gset nat)) :
  _to_itemset_indices data w = (Ok X, w') ->
  Forall (fun Xj => Xj ⊆ set_range (length data)) X
  /\ (data = [] -> Forall (fun Xj => Xj = ∅) X).
Proof.
  intros HX.
  destruct (to_itemset_indices_Ok data w w' X HX) as (its & Hits & Hne).
  destruct (to_itemset_indices_spec data w its Hits Hne) as (X' & HX' & Hlen & H0 & Hrest).
  rewrite HX in HX'. injection HX' as HXeq Hweq. subst X'.
  assert (Forall (fun Xj => Xj ⊆ set_range (length data)) X) as Hsub.
  { apply Forall_lookup. intros j Xj Hj. destruct j as [|j].
    - rewrite H0 in Hj. by simplify_eq.
    - destruct (lookup_lt_is_Some_2 its (S j)) as [lhs Hlhs].
      { rewrite <- Hlen. by apply lookup_lt_Some in Hj. }
      rewrite (Hrest (S j) lhs) in Hj by (done || lia). simplify_eq.
      intros i Hi. apply elem_of_satisfied_by in Hi as (xi & Hi & _).
      apply elem_of_set_range. by apply lookup_lt_Some in Hi. }
  split; [done|]. intros ->. eapply Forall_impl; [exact Hsub|].
  intros Xj HXj. simpl in HXj. apply leibniz_equiv. apply elem_of_equiv_empty.
  intros i Hi. apply HXj, elem_of_set_range in Hi. lia.
Qed.

(** A rule whose antecedent holds all the tokens of another rule's is
    satisfied by no more transactions than that rule, and a rule with an
    empty antecedent is satisfied by every transaction. *)
Theorem longer_antecedent_fewer_transactions (data : matrix) w w'
    (X : list (gset nat)) (its : list itemset) (j1 j2 : nat)
    (lhs1 lhs2 : itemset) :
  itemsets (self w) = Some its ->
  _to_itemset_indices data w = (Ok X, w') ->
  0 < j1 -> 0 < j2 ->
  its !! j1 = Some lhs1 -> its !! j2 = Some lhs2 ->
  exists X1 X2,
    X !! j1 = Some X1 /\ X !! j2 = Some X2
    /\ (issubset (set_of lhs1) (set_of lhs2) = true -> X2 ⊆ X1)
    /\ (set_of lhs1 = [] -> X1 = set_range (length data)).
Proof.
  intros Hits HX Hj1 Hj2 Hl1 Hl2.
  assert (its <> []) as Hne by (intros ->; by rewrite lookup_nil in Hl1).
  destruct (to_itemset_indices_spec data w its Hits Hne) as (X' & HX' & _ & _ & Hrest).
  rewrite HX in HX'. injection HX' as HXeq Hweq. subst X'.
  exists (satisfied_by (set_of lhs1) data), (satisfied_by (set_of lhs2) data).
  split; [by apply Hrest|]. split; [by apply Hrest|]. split.
  - intros Hsub i Hi. apply elem_of_satisfied_by in Hi as (xi & Hi & Hxi).
    apply elem_of_satisfied_by. exists xi. split; [done|].
    by apply (issubset_trans _ (set_of lhs2)).
  - intros Hempty. rewrite Hempty. apply leibniz_equiv. intros i.
    rewrite elem_of_satisfied_by, elem_of_set_range. split.
    + intros (xi & Hi & _). by apply lookup_lt_Some in Hi.
    + intros Hi. destruct (lookup_lt_is_Some_2 data i Hi) as [xi Hxi]. eauto.
Qed.

End Encoders.

(** ** Feature labels in front of the cells *)

Section Prepend.
Context {Rng Frame Cuts : Type} `{!Collaborators Rng Frame Cuts}.
Implicit Types w : world Rng Frame Cuts.

Lemma labelled_length labels k r : length (labelled labels k r) = length r.
Proof. unfold labelled. apply length_imap. Qed.

Lemma labelled_0 labels r : labelled labels 0 r = r.
Proof.
  unfold labelled. apply list_eq. intros j. rewrite list_lookup_imap.
  destruct (r !! j); [|done]. cbn beta. case_decide; [lia|done].
Qed.

Lemma labelled_S labels k r (l x : string) :
  labels !! k = Some l -> r !! k = Some x ->
  <[k := l +:+ " : " +:+ x]> (labelled labels k r) = labelled labels (S k) r.
Proof.
  intros Hl Hx. apply list_eq. intros j. unfold labelled.
  destruct (decide (j = k)) as [->|Hne].
  - rewrite list_lookup_insert_eq
      by (rewrite length_imap; by apply lookup_lt_Some in Hx).
    rewrite list_lookup_imap, Hx. cbn beta. rewrite Hl.
    case_decide; [done|lia].
  - rewrite list_lookup_insert_ne by done. rewrite !list_lookup_imap.
    destruct (r !! j); [|done]. cbn beta. repeat case_decide; try done; lia.
Qed.

Lemma labelled_all labels r :
  length r <= length labels ->
  labelled labels (length r) r
  = zip_with (fun l x => l +:+ " : " +:+ x) labels r.
Proof.
  intros Hlen. apply list_eq. intros j. unfold labelled.
  rewrite list_lookup_imap, lookup_zip_with.
  destruct (r !! j) as [x|] eqn:Hx.
  - apply lookup_lt_Some in Hx as Hj.
    destruct (lookup_lt_is_Some_2 labels j) as [l Hl]; [lia|].
    rewrite Hl. cbn beta. case_decide; [done|lia].
  - by destruct (labels !! j).
Qed.

Lemma label_row_loop (labels : list string) (i k : nat)
    (Xl : list (list string)) (r : list string) w :
  feature_labels (self w) = Some labels ->
  Xl !! i = Some r ->
  k <= length r -> k <= length labels ->
  for_each (seq 0 k) (label_row i) Xl w = (Ok (<[i := labelled labels k r]> Xl), w).
Proof.
  intros Hlabels Hi. induction k as [|k IH]; intros Hr Hl.
  - simpl. unfold ret. by rewrite labelled_0, list_insert_id.
  - rewrite seq_S, for_each_snoc, IH by lia. simpl.
    destruct (lookup_lt_is_Some_2 labels k) as [l Hlk]; [lia|].
    destruct (lookup_lt_is_Some_2 r k) as [x Hxk]; [lia|].
    unfold label_row. rewrite (bind_getattr_Some _ _ _ _ _ Hlabels).
    unfold getitem at 1. rewrite Hlk, bind_lift_Ok.
    unfold getitem at 1.
    rewrite list_lookup_insert_eq by (by apply lookup_lt_Some in Hi).
    rewrite bind_lift_Ok. unfold getitem.
    assert (labelled labels k r !! k = Some x) as ->.
    { unfold labelled. rewrite list_lookup_imap, Hxk. cbn beta.
      case_decide; [lia|done]. }
    rewrite bind_lift_Ok. unfold ret.
    by rewrite list_insert_insert_eq, (labelled_S labels k r l x).
Qed.

Lemma prepend_rows_loop (labels : list string) (n k : nat)
    (Xl : list (list string)) w :
  feature_labels (self w) = Some labels ->
  Forall (fun r => length r = n) Xl ->
  n <= length labels ->
  k <= length Xl ->
  for_each (seq 0 k) (fun Xl i =>
    for_each (seq 0 (length (default [] (Xl !! 0)))) (label_row i) Xl) Xl w
  = (Ok (imap (fun i r => if decide (i < k) then labelled labels n r else r) Xl), w).
Proof.
  intros Hlabels Hrect Hn. induction k as [|k IH]; intros Hk.
  - cbn [seq for_each]. unfold ret. f_equal. f_equal. apply list_eq. intros i.
    rewrite list_lookup_imap. destruct (Xl !! i); [|done]. cbn beta.
    case_decide; [lia|done].
  - rewrite seq_S, for_each_snoc, IH by lia. cbn [Nat.add].
    destruct (lookup_lt_is_Some_2 Xl k) as [r Hr]; [lia|].
    assert (length r = n) as Hlen by (by eapply (Forall_lookup_1 _ _ _ _ Hrect)).
    set (Xk := imap _ Xl).
    assert (length (default [] (Xk !! 0)) = n) as ->.
    { unfold Xk. rewrite list_lookup_imap.
      destruct (Xl !! 0) as [r0|] eqn:Hr0; cbn beta.
      - assert (length r0 = n) by (by eapply (Forall_lookup_1 _ _ _ _ Hrect)).
        case_decide; simpl; [by rewrite labelled_length|done].
      - apply lookup_ge_None in Hr0. lia. }
    rewrite (label_row_loop labels k n Xk r) by
      (done || lia || (unfold Xk; rewrite list_lookup_imap, Hr; cbn beta;
                       case_decide; [lia|done])).
    f_equal. f_equal. apply list_eq. intros i. unfold Xk.
    destruct (decide (i = k)) as [->|Hne].
    + rewrite list_lookup_insert_eq by (rewrite length_imap; lia).
      rewrite list_lookup_imap, Hr. cbn beta. case_decide; [done|lia].
    + rewrite list_lookup_insert_ne by done. rewrite !list_lookup_imap.
      destruct (Xl !! i); [|done]. cbn beta. repeat case_decide; try done; lia.
Qed.

Lemma prepend_feature_labels_Ok (X : matrix) (labels : list string)
    (n : nat) w :
  feature_labels (self w) = Some labels ->
  Forall (fun r => length r = n) X ->
  n <= length labels ->
  _prepend_feature_labels X w
  = (Ok (map (fun r => zip_with (fun l c => Str (l +:+ " : " +:+ astype_str c))
                                labels r) X), w).
Proof.
  intros Hlabels Hrect Hn. unfold _prepend_feature_labels.
  assert (Forall (fun r : list string => length r = n) (map (map astype_str) X))
    as Hrect'.
  { apply Forall_fmap. eapply Forall_impl; [exact Hrect|].
    intros r Hr. simpl. by rewrite length_map. }
  unfold bind at 1.
  pose proof (prepend_rows_loop labels n (length (map (map astype_str) X))
                (map (map astype_str) X) w Hlabels Hrect' Hn) as Hloop.
  unfold label_row in Hloop. rewrite Hloop by done. unfold ret. f_equal. f_equal.
  apply list_eq. intros i. rewrite !list_lookup_fmap, list_lookup_imap.
  rewrite list_lookup_fmap.
  destruct (X !! i) as [r|] eqn:Hr; simpl; [|done].
  assert (length r = n) as Hlen by (by eapply (Forall_lookup_1 _ _ _ _ Hrect)).
  apply lookup_lt_Some in Hr. rewrite length_map.
  case_decide; [|lia]. f_equal.
  replace n with (length (map astype_str r)) by (by rewrite length_map).
  rewrite labelled_all by (rewrite length_map; lia).
  apply list_eq. intros j. rewrite list_lookup_fmap, !lookup_zip_with.
  rewrite list_lookup_fmap.
  destruct (labels !! j); simpl; [|done]. by destruct (r !! j).
Qed.

(** On a rectangular matrix with a label for every column,
    [_prepend_feature_labels] returns the matrix of the same shape whose
    cell in column [j] is the string [feature_labels[j] + " : " + str(cell)],
    and changes nothing. *)
Theorem prepend_feature_labels_spec (X : matrix) (labels : list string)
    (n : nat) w :
  feature_labels (self w) = Some labels ->
  Forall (fun r => length r = n) X ->
  n <= length labels ->
  _prepend_feature_labels X w
  = (Ok (map (fun r => zip_with (fun l c => Str (l +:+ " : " +:+ astype_str c))
                                labels r) X), w).
Proof. apply prepend_feature_labels_Ok. Qed.

Lemma for_each_app {A S} (l1 l2 : list A) (body : S -> A -> M Rng Frame Cuts S)
    (s : S) w :
  for_each (l1 ++ l2) body s w =
  match for_each l1 body s w with
  | (Ok s', w') => for_each l2 body s' w'
  | (Raise e, w') => (Raise e, w')
  end.
Proof.
  revert s w. induction l1 as [|a l1 IH]; intros s w; simpl; [done|].
  unfold bind. destruct (body s a w) as [[s'|e] w']; [apply IH|done].
Qed.

(** The edges of [_prepend_feature_labels]: an empty matrix comes back
    empty without a look at [self.feature_labels]; with a cell to label, a
    missing [feature_labels] is an [AttributeError], and a first row wider
    than [feature_labels] an [IndexError].  The object is never changed. *)
Theorem prepend_feature_labels_edges (X : matrix) w :
  (_prepend_feature_labels X w).2 = w
  /\ (X = [] -> (_prepend_feature_labels X w).1 = Ok [])
  /\ (forall c r rest, X = (c :: r) :: rest ->
      feature_labels (self w) = None ->
      (_prepend_feature_labels X w).1 = Raise (AttributeError "feature_labels"))
  /\ (forall r rest labels, X = r :: rest ->
      feature_labels (self w) = Some labels ->
      length labels < length r ->
      (_prepend_feature_labels X w).1 = Raise IndexError).
Proof.
  split; [|split; [|split]].
  - apply (preserves_at (fun w1 => w1 = w)); [|done].
    unfold _prepend_feature_labels. repeat preserves_step.
  - by intros ->.
  - intros c r rest -> Hnone. unfold _prepend_feature_labels. simpl.
    unfold bind at 1. unfold bind at 1. unfold bind at 1.
    by rewrite (bind_getattr_None _ _ _ _ Hnone).
  - intros r rest labels -> Hlabels Hlen. unfold _prepend_feature_labels.
    set (Xl := map (map astype_str) (r :: rest)).
    assert (Xl !! 0 = Some (map astype_str r)) as H0 by done.
    unfold bind at 1.
    replace (length Xl) with (S (length rest)) by (unfold Xl; simpl; by rewrite length_map).
    rewrite <- cons_seq. cbn [for_each]. unfold bind at 1.
    rewrite H0. cbn [from_option id]. rewrite length_map.
    replace (length r) with (length labels + S (length r - S (length labels))) by lia.
    rewrite seq_app, for_each_app.
    pose proof (label_row_loop labels 0 (length labels) Xl (map astype_str r) w
                  Hlabels H0) as Hloop.
    unfold label_row in Hloop. rewrite Hloop by (rewrite ?length_map; lia).
    cbn [Nat.add seq for_each]. unfold bind at 1.
    rewrite (bind_getattr_Some _ _ _ _ _ Hlabels).
    unfold getitem at 1. by rewrite (lookup_ge_None_2 labels (length labels)).
Qed.

End Prepend.

(** ** [predict] on top of [predict_proba] *)

Section Labels.
Context {Rng Frame Cuts : Type} `{!Collaborators Rng Frame Cuts}.
Implicit Types w : world Rng Frame Cuts.

(** [predict] adds no failure of its own to [predict_proba]: it raises what
    [predict_proba] raises, and where [predict_proba] returns it returns one
    label, 0 or 1, per row; in both cases it leaves the world
    [predict_proba] left. *)
Theorem predict_fails_only_with_predict_proba (X : matrix) w :
  (predict X w).2 = (predict_proba X w).2
  /\ (forall e, (predict_proba X w).1 = Raise e -> (predict X w).1 = Raise e)
  /\ (forall rows, (predict_proba X w).1 = Ok rows ->
      exists labels, (predict X w).1 = Ok labels
                     /\ length labels = length rows
                     /\ Forall (fun l => l = 0%Z \/ l = 1%Z) labels).
Proof.
  split; [apply predict_world|].
  destruct (predict_proba X w) as [[rows|e] w1] eqn:Hpp; simpl.
  - split; [done|]. intros rows' [= <-].
    destruct (predict_proba_Ok _ _ _ _ Hpp) as (P & ->).
    rewrite (predict_labels _ _ _ _ Hpp). simpl. eexists. split; [done|].
    split; [by rewrite !length_map|].
    apply Forall_forall. intros l Hl. apply list_elem_of_fmap in Hl as (p & -> & _).
    destruct (Qle_bool _ _); auto.
  - split; [|done]. intros e' [= <-]. unfold predict, bind. by rewrite Hpp.
Qed.

End Labels.

(** ** [tostring] *)

Section Description.
Context {Rng Frame Cuts : Type} `{!Collaborators Rng Frame Cuts}.
Implicit Types w : world Rng Frame Cuts.

Lemma for_each_foldl {A S} (P : A -> Prop) (f : S -> A -> S) (l : list A)
    (body : S -> A -> M Rng Frame Cuts S) w :
  Forall P l ->
  (forall s a, P a -> body s a w = (Ok (f s a), w)) ->
  forall s, for_each l body s w = (Ok (foldl f s l), w).
Proof.
  intros Hl Hbody. induction Hl as [|a l Ha Hl IH]; intros s; simpl.
  - done.
  - unfold bind. rewrite (Hbody s a Ha). apply IH.
Qed.

Lemma enumerate_lookups {A} (l : list A) :
  Forall (fun ij => l !! ij.1 = Some ij.2) (enumerate l).
Proof.
  apply Forall_lookup. intros i [i' a] Hi. unfold enumerate in Hi.
  rewrite list_lookup_imap in Hi. destruct (l !! i) eqn:Hli; by simplify_eq/=.
Qed.

Lemma strings_of_Ok (t : row) :
  Forall (fun c => is_str c = true) t -> exists l, strings_of t = Ok l.
Proof.
  induction 1 as [|c t Hc Ht (l & IH)]; simpl; [by eexists|].
  destruct c; [|done]. rewrite IH. by eexists.
Qed.

Lemma strings_of_Raise (t : row) :
  Exists (fun c => is_str c = false) t -> strings_of t = Raise TypeError.
Proof.
  induction 1 as [c t Hc|c t Ht IH]; simpl.
  - by destruct c.
  - destruct c; [|done]. by rewrite IH.
Qed.

Lemma string_app_assoc (a b c : string) : (a +:+ b) +:+ c = a +:+ b +:+ c.
Proof.
  induction a as [|x a IH]; [done|].
  change (String x ((a +:+ b) +:+ c) = String x (a +:+ b +:+ c)). by f_equal.
Qed.

Lemma string_app_length (a b : string) :
  String.length (a +:+ b) = String.length a + String.length b.
Proof.
  induction a as [|x a IH]; [done|].
  change (S (String.length (a +:+ b)) = S (String.length a + String.length b)).
  by f_equal.
Qed.

Lemma string_drop_1_rep (n : nat) (s : string) :
  0 < n -> string_drop 1 (string_rep "=" n +:+ s) = string_rep "=" (n - 1) +:+ s.
Proof. destruct n; [lia|]. intros _. by rewrite Nat.sub_succ, Nat.sub_0_r. Qed.

Lemma tostring_world (decimals : Z) w : (tostring decimals w).2 = w.
Proof.
  symmetry. apply (preserves_at (fun w1 => w = w1)); [|done].
  unfold tostring. repeat preserves_step.
Qed.

(** The description of a trained model.  When the point estimate is a
    non-empty list of rule indices that [self.itemsets] has, with string
    tokens, and [theta] and [ci_theta] have an entry per rule, [tostring]
    returns, and changes nothing: the header line, with the class-1 label
    when it is not the default one; a row of [=] as long as the header line
    with its newline; the rule lines, one per entry of the point estimate,
    in its order, without the first five characters of the text, so that
    the first line starts with [IF] or with [probability]; and a row of [=]
    one shorter.  The line of a rule is [ELSE IF], its tokens joined by
    [ AND ], and [THEN], or [ELSE] alone for the rule ['null'], followed by
    the probability and its interval, in percent. *)
Theorem tostring_of_trained_model (decimals : Z) w (d : list nat)
    (its : list itemset) (th : list Q) (ci : list (Q * Q)) :
  d_star (self w) = Some d ->
  d <> [] ->
  itemsets (self w) = Some its ->
  theta (self w) = Some th ->
  ci_theta (self w) = Some ci ->
  Forall (fun j => exists lhs, its !! j = Some lhs
                   /\ Forall (fun c => is_str c = true)
                        (match lhs with items t => t | null => [] end)) d ->
  length d <= length th ->
  length d <= length ci ->
  let c1 := class1label (self w) in
  let header := "Trained RuleListClassifier "
                +:+ (if bool_decide (c1 <> "class 1") then "for detecting " +:+ c1 else "")
                +:+ nl in
  let condition := fun j : nat =>
    match its !! j with
    | Some (items t) =>
        "ELSE IF "
        +:+ String.concat " AND " (match strings_of t with Ok ks => ks | Raise _ => [] end)
        +:+ " THEN"
    | _ => "ELSE"
    end in
  let line := fun ij : nat * nat =>
    condition ij.2 +:+ " probability of " +:+ c1 +:+ ": "
      +:+ str_round (default 0%Q (th !! ij.1) * 100) decimals +:+ "% ("
      +:+ str_round ((default (0%Q, 0%Q) (ci !! ij.1)).1 * 100) decimals +:+ "%-"
      +:+ str_round ((default (0%Q, 0%Q) (ci !! ij.1)).2 * 100) decimals +:+ "%)"
      +:+ nl in
  let rules := foldl (fun s ij => s +:+ line ij) "" (enumerate d) in
  tostring decimals w
  = (Ok (header +:+ string_rep "=" (String.length header) +:+ nl
           +:+ string_drop 5 rules
           +:+ string_rep "=" (String.length header - 1) +:+ nl), w).
Proof.
  intros Hd Hne Hits Hth Hci Hrules Hlth Hlci c1 header condition line rules.
  unfold tostring. rewrite bind_read, Hd.
  destruct d as [|j0 d0]; [done|]. cbn [truthy from_option id].
  rewrite bind_read. fold c1. cbv zeta. fold header.
  set (body := fun (s : string) (ij : nat * nat) => bind _ _).
  assert (for_each (enumerate (j0 :: d0)) body "" w = (Ok rules, w)) as Hs.
  { apply (for_each_foldl
             (fun ij : nat * nat => (j0 :: d0) !! ij.1 = Some ij.2)
             (fun s ij => s +:+ line ij)); [apply enumerate_lookups|].
    intros s0 [i j] Hij. simpl in Hij. unfold body.
    rewrite (bind_getattr_Some _ _ _ _ _ Hits).
    assert (j ∈ j0 :: d0) as Hj by (by eapply list_elem_of_lookup_2).
    rewrite Forall_forall in Hrules. destruct (Hrules j Hj) as (lhs & Hlhs & Hstr).
    unfold getitem at 1. cbn [fst snd]. rewrite Hlhs, bind_lift_Ok.
    apply lookup_lt_Some in Hij.
    destruct (lookup_lt_is_Some_2 th i) as [t Ht]; [lia|].
    destruct (lookup_lt_is_Some_2 ci i) as [c Hc]; [lia|].
    assert (forall cond : string,
      bind (ret cond) (fun condition =>
        bind (read class1label) (fun c1 =>
        bind (getattr "theta" theta) (fun th =>
        bind (lift (getitem th i)) (fun th_i =>
        bind (getattr "ci_theta" ci_theta) (fun ci =>
        bind (lift (getitem ci i)) (fun ci_i =>
          ret (s0 +:+ condition +:+ " probability of " +:+ c1 +:+ ": "
                  +:+ str_round (th_i * 100) decimals +:+ "% ("
                  +:+ str_round (ci_i.1 * 100) decimals +:+ "%-"
                  +:+ str_round (ci_i.2 * 100) decimals +:+ "%)" +:+ nl))))))) w
      = (Ok (s0 +:+ cond +:+ " probability of " +:+ c1 +:+ ": "
                  +:+ str_round (t * 100) decimals +:+ "% ("
                  +:+ str_round (c.1 * 100) decimals +:+ "%-"
                  +:+ str_round (c.2 * 100) decimals +:+ "%)" +:+ nl), w)) as Htail.
    { intros cond. rewrite bind_ret, bind_read.
      rewrite (bind_getattr_Some _ _ _ _ _ Hth). unfold getitem at 1.
      rewrite Ht, bind_lift_Ok. rewrite (bind_getattr_Some _ _ _ _ _ Hci).
      unfold getitem. by rewrite Hc, bind_lift_Ok. }
    unfold line, condition. cbn [fst snd]. rewrite Hlhs, Ht, Hc.
    cbn [from_option id].
    destruct lhs as [|t0].
    - apply Htail.
    - destruct (strings_of_Ok t0 Hstr) as (ks & Hks). rewrite Hks.
      unfold bind at 1. unfold bind at 1. unfold lift, ret. apply (Htail _). }
  unfold bind at 1. rewrite Hs. unfold ret.
  rewrite (string_app_assoc (string_rep "=" (String.length header)) nl).
  rewrite string_drop_1_rep; [done|].
  unfold header. rewrite string_app_length. simpl. lia.
Qed.

(** What [tostring] does on every other object.  It never changes the
    world.  A point estimate that is [None] or the empty list gives the
    untrained description.  With a non-empty point estimate whose first rule
    is [j]: a missing [itemsets] is an [AttributeError], a [j] that
    [itemsets] does not have an [IndexError], a number among the tokens of
    itemset [j] a [TypeError], and a missing [theta] an [AttributeError]
    once the condition of rule [j] is written. *)
Theorem tostring_edges (decimals : Z) w :
  (tostring decimals w).2 = w
  /\ (truthy (d_star (self w)) = false ->
      (tostring decimals w).1 = Ok "(Untrained RuleListClassifier)")
  /\ (forall j js, d_star (self w) = Some (j :: js) ->
      (itemsets (self w) = None ->
       (tostring decimals w).1 = Raise (AttributeError "itemsets"))
      /\ (forall its, itemsets (self w) = Some its ->
          (its !! j = None -> (tostring decimals w).1 = Raise IndexError)
          /\ (forall t, its !! j = Some (items t) ->
              Exists (fun c => is_str c = false) t ->
              (tostring decimals w).1 = Raise TypeError)
          /\ (forall lhs, its !! j = Some lhs ->
              Forall (fun c => is_str c = true)
                (match lhs with items t => t | null => [] end) ->
              theta (self w) = None ->
              (tostring decimals w).1 = Raise (AttributeError "theta")))).
Proof.
  split; [apply tostring_world|]. split.
  - intros Hd. unfold tostring. rewrite bind_read, Hd. done.
  - intros j js Hd. unfold tostring. rewrite bind_read, Hd.
    cbn [truthy from_option id]. rewrite bind_read. cbv zeta.
    unfold enumerate. cbn [imap for_each]. split.
    + intros Hits. unfold bind at 1. unfold bind at 1.
      by rewrite (bind_getattr_None _ _ _ _ Hits).
    + intros its Hits. split; [|split].
      * intros Hj. unfold bind at 1. unfold bind at 1.
        rewrite (bind_getattr_Some _ _ _ _ _ Hits).
        unfold getitem at 1. simpl. by rewrite Hj.
      * intros t Hj Hnum. unfold bind at 1. unfold bind at 1.
        rewrite (bind_getattr_Some _ _ _ _ _ Hits).
        unfold getitem at 1. simpl. rewrite Hj, bind_lift_Ok.
        unfold bind at 1. unfold bind at 1.
        by rewrite (strings_of_Raise t Hnum).
      * intros lhs Hj Hstr Hth. unfold bind at 1. unfold bind at 1.
        rewrite (bind_getattr_Some _ _ _ _ _ Hits).
        unfold getitem at 1. simpl. rewrite Hj, bind_lift_Ok.
        destruct lhs as [|t].
        -- rewrite bind_ret, bind_read. by rewrite (bind_getattr_None _ _ _ _ Hth).
        -- destruct (strings_of_Ok t Hstr) as (ks & Hks).
           unfold bind at 1. unfold bind at 1. rewrite Hks. unfold lift, ret.
           rewrite bind_read. by rewrite (bind_getattr_None _ _ _ _ Hth).
Qed.

End Description.

(** ** What a fit leaves in the object *)

Section Ensures.
Context {Rng Frame Cuts : Type}.
Implicit Types w : world Rng Frame Cuts.

Lemma ensures_preserves {A} (I Post : world Rng Frame Cuts -> Prop)
    (c : M Rng Frame Cuts A) :
  (forall w, I w -> Post w) -> preserves I c -> ensures I Post c.
Proof. intros Himp Hc w Hw. apply Himp, Hc, Hw. Qed.

Lemma ensures_bind {A B} (I Post : world Rng Frame Cuts -> Prop)
    (c : M Rng Frame Cuts A) (k : A -> M Rng Frame Cuts B) :
  (forall w, I w -> Post w) ->
  preserves I c -> (forall a, ensures I Post (k a)) -> ensures I Post (bind c k).
Proof.
  intros Himp Hc Hk w Hw. unfold bind. specialize (Hc w Hw).
  destruct (c w) as [[a|e] w1]; simpl in *; [by apply Hk|by apply Himp].
Qed.

End Ensures.

(** One step of a proof of [ensures] up to the point where the body reads
    [self.d_star] back. *)
Ltac ensures_step Q Himp :=
  lazymatch goal with
  | |- ensures _ _ (bind (read d_star) _) => fail
  | |- ensures _ _ (bind _ _) =>
      apply ensures_bind; [exact Himp|repeat self_step Q|intros ?]
  | |- ensures _ _ (if ?b then _ else _) => destruct b
  | |- ensures _ _ (raise _) =>
      apply ensures_preserves; [exact Himp|apply preserves_raise]
  end.

Section FitOutcome.
Context {Rng Frame Cuts : Type} `{!Collaborators Rng Frame Cuts}.
Implicit Types w : world Rng Frame Cuts.

(** The last statement of [fit] and [fit2]: [if self.d_star:] guards the
    only assignment of [theta] and [ci_theta]. *)
Lemma rule_rhs_guarded (t0 : option (list Q)) (c0 : option (list (Q * Q)))
    (Xtrain : list (gset nat)) (Ytrain : list (list Z)) :
  ensures (Rng := Rng)
    (fun w => theta (self w) = t0 /\ ci_theta (self w) = c0)
    (fun w => truthy (d_star (self w)) = false ->
              theta (self w) = t0 /\ ci_theta (self w) = c0)
    (bind (read d_star) (fun d =>
       match d with
       | Some (j :: js) =>
           bind (read alpha) (fun a =>
           bind (call called_get_rule_rhs (get_rule_rhs Xtrain Ytrain (j :: js) a true))
             (fun rhs => assign (set_theta rhs.1 rhs.2)))
       | _ => ret tt
       end)).
Proof.
  intros w Hw. rewrite bind_read.
  destruct (d_star (self w)) as [[|j js]|] eqn:Hd; try done.
  intros Hfalse. exfalso. revert Hfalse.
  set (Q := fun m : RuleListClassifier Frame Cuts => truthy (d_star m) = true).
  assert (Q (self (bind (read alpha) (fun a =>
           bind (call called_get_rule_rhs (get_rule_rhs Xtrain Ytrain (j :: js) a true))
             (fun rhs => assign (set_theta rhs.1 rhs.2))) w).2)) as HQ.
  { apply (preserves_at (fun w' => Q (self w'))); [|unfold Q; by rewrite Hd].
    repeat self_step Q. }
  unfold Q in HQ. by rewrite HQ.
Qed.

(** A fit that ends with no point estimate, because the search returned
    [None] or an empty list or because the fit raised before it got one,
    leaves [theta] and [ci_theta] as they were: the values of an earlier
    fit stay in the object.  The same holds for [fit2]. *)
Theorem fit_without_estimate_keeps_old_theta (X : matrix) (y : list Z)
    (feature_labels : option (list string)) w :
  (truthy (d_star (self (fit X y feature_labels w).2)) = false ->
   theta (self (fit X y feature_labels w).2) = theta (self w)
   /\ ci_theta (self (fit X y feature_labels w).2) = ci_theta (self w))
  /\ (truthy (d_star (self (fit2 X y feature_labels w).2)) = false ->
      theta (self (fit2 X y feature_labels w).2) = theta (self w)
      /\ ci_theta (self (fit2 X y feature_labels w).2) = ci_theta (self w)).
Proof.
  set (Q := fun m : RuleListClassifier Frame Cuts =>
              theta m = theta (self w) /\ ci_theta m = ci_theta (self w)).
  set (Post := fun w' : world Rng Frame Cuts =>
                 truthy (d_star (self w')) = false -> Q (self w')).
  assert (forall w', Q (self w') -> Post w') as Himp by (by intros w' HQ _).
  assert (Q (self w)) as Hw by done.
  split.
  - enough (ensures (fun w' => Q (self w')) Post (fit X y feature_labels)) as Hfit
      by (by apply Hfit).
    unfold fit, discretize, _prepend_feature_labels, mine, print.
    repeat ensures_step Q Himp.
    apply rule_rhs_guarded.
  - enough (ensures (fun w' => Q (self w')) Post (fit2 X y feature_labels)) as Hfit
      by (by apply Hfit).
    unfold fit2, print.
    repeat ensures_step Q Himp.
    apply rule_rhs_guarded.
Qed.

(** [fit] and [fit2] record the feature labels right after the input
    check: the ones given, or [ft1], [ft2], ... for the columns of the first
    row.  They are in the object whatever happens later in the fit. *)
Theorem fit_records_feature_labels (X : matrix) (y : list Z)
    (feature_labels0 : option (list string)) w (r0 : row) (rest : matrix)
    (y' : list Z) :
  size (list_to_set y : gset Z) = 2 ->
  check_X_y X y = Ok (r0 :: rest, y') ->
  let labels := default (map (fun i => "ft" +:+ pretty (i + 1)) (seq 0 (length r0)))
                  feature_labels0 in
  feature_labels (self (fit X y feature_labels0 w).2) = Some labels
  /\ feature_labels (self (fit2 X y feature_labels0 w).2) = Some labels.
Proof.
  intros Hsize Hcheck labels.
  set (Q := fun m : RuleListClassifier Frame Cuts => feature_labels m = Some labels).
  assert (forall k : list string -> M Rng Frame Cuts unit,
    bind match feature_labels0 with
         | None => bind (lift (getitem (r0 :: rest) 0)) (fun X0 =>
                     ret (map (fun i => "ft" +:+ pretty (i + 1)) (seq 0 (length X0))))
         | Some l => ret l
         end k = k labels) as Hlabels.
  { intros k. unfold labels. by destruct feature_labels0. }
  split.
  - unfold fit. rewrite bool_decide_eq_false_2 by (by intros ?).
    rewrite Hcheck, bind_call_Ok. cbn [fst snd]. rewrite Hlabels, bind_assign.
    apply (preserves_at (fun w' => Q (self w'))); [|done].
    unfold discretize, _prepend_feature_labels, mine, print.
    repeat self_step Q.
  - unfold fit2. rewrite Hcheck, bind_call_Ok. cbn [fst snd].
    rewrite Hlabels, bind_assign.
    apply (preserves_at (fun w' => Q (self w'))); [|done].
    unfold print. repeat self_step Q.
Qed.

(** A fit on categorical data, where the first cell of the checked input is
    a string, leaves [self.discretizer] as it was, so the discretizer of an
    earlier fit on numbers stays in the object; [fit2] never assigns it,
    whatever its input. *)
Theorem categorical_fit_keeps_discretizer (X : matrix) (y : list Z)
    (feature_labels0 : option (list string)) w :
  (forall (s : string) (r : row) (rest : matrix) (y' : list Z),
     check_X_y X y = Ok ((Str s :: r) :: rest, y') ->
     discretizer (self (fit X y feature_labels0 w).2) = discretizer (self w))
  /\ discretizer (self (fit2 X y feature_labels0 w).2) = discretizer (self w).
Proof.
  set (Q := fun m : RuleListClassifier Frame Cuts => discretizer m = discretizer (self w)).
  split.
  - intros s r rest y' Hcheck. unfold fit. case_bool_decide; [done|].
    rewrite Hcheck, bind_call_Ok. cbn [fst snd].
    apply (preserves_at (fun w' => Q (self w'))); [|done].
    apply preserves_bind; [repeat self_step Q|intros labels].
    apply preserves_bind; [repeat self_step Q|intros _].
    intros w1 Hw1. change (getitem ((Str s :: r) :: rest) 0) with (Ok (Str s :: r)).
    rewrite bind_lift_Ok. change (getitem (Str s :: r) 0) with (Ok (Str s)).
    rewrite bind_lift_Ok. cbn [is_str]. rewrite bind_ret.
    apply (preserves_at (fun w' => Q (self w'))); [|exact Hw1].
    unfold mine, print. repeat self_step Q.
  - apply (preserves_at (fun w' => Q (self w'))); [|done].
    unfold fit2, print. repeat self_step Q.
Qed.

Lemma call_Ok_inv {A} (e : event) (r : result A) w (a : A) w1 :
  call e r w = (Ok a, w1) -> r = Ok a /\ self w1 = self w.
Proof. unfold call, bind, emit, lift. destruct r; intros [= <- <-]; done. Qed.

Lemma sample_inv Xtrain Ytrain nruleslen lhs_len permsdic w r w1 :
  sample Xtrain Ytrain nruleslen lhs_len permsdic w = (r, w1) -> self w1 = self w.
Proof.
  intros Hs.
  pose proof (sample_self (fun m => m = self w) Xtrain Ytrain nruleslen lhs_len
                permsdic w eq_refl) as Hself.
  by rewrite Hs in Hself.
Qed.

Lemma fit_Ok_inv (X : matrix) (y : list Z)
    (feature_labels0 : option (list string)) w w' :
  fit X y feature_labels0 w = (Ok tt, w') ->
  truthy (d_star (self w')) = true ->
  exists X' y' mined data Xtrain d th ci,
    check_X_y X y = Ok (X', y')
    /\ itemsets (self w') = Some (null :: map items mined)
    /\ fit_sets mined data = Ok Xtrain
    /\ d_star (self w') = Some d
    /\ get_rule_rhs Xtrain (map (fun l => [l; 1 - l]%Z) y') d (alpha (self w')) true
       = Ok (th, ci)
    /\ theta (self w') = Some th
    /\ ci_theta (self w') = Some ci.
Proof.
  unfold fit. case_bool_decide; [intros [=]|]. intros Hfit Htruthy.
  apply bind_Ok_inv in Hfit as ([X' y'] & w1 & Hcheck & Hfit).
  apply call_Ok_inv in Hcheck as [Hcheck _]. cbn [fst snd] in Hfit.
  apply bind_Ok_inv in Hfit as (labels & w2 & _ & Hfit).
  apply bind_Ok_inv in Hfit as (? & w3 & _ & Hfit).
  apply bind_Ok_inv in Hfit as (X0 & w4 & _ & Hfit).
  apply bind_Ok_inv in Hfit as (X00 & w5 & _ & Hfit).
  apply bind_Ok_inv in Hfit as (data & w6 & _ & Hfit).
  apply bind_Ok_inv in Hfit as (data_pos & w7 & _ & Hfit).
  apply bind_Ok_inv in Hfit as (data_neg & w8 & _ & Hfit).
  destruct (negb _); [discriminate Hfit|].
  apply bind_Ok_inv in Hfit as (mined & w9 & _ & Hfit).
  apply bind_Ok_inv in Hfit as (v & w10 & _ & Hfit).
  apply bind_Ok_inv in Hfit as (? & w11 & _ & Hfit).
  apply bind_Ok_inv in Hfit as (Xtrain & w12 & Hsets & Hfit).
  rewrite bind_assign in Hfit.
  apply bind_Ok_inv in Hfit as (res & w14 & Hsample & Hfit).
  apply sample_inv in Hsample.
  apply bind_Ok_inv in Hfit as (permsdic & w15 & Hmerge & Hfit).
  apply call_Ok_inv in Hmerge as [_ Hmerge].
  rewrite bind_read in Hfit.
  apply bind_Ok_inv in Hfit as (d & w17 & Hpoint & Hfit).
  apply call_Ok_inv in Hpoint as [_ Hpoint].
  rewrite bind_assign, bind_read in Hfit. cbn [self d_star set_d_star] in Hfit.
  unfold lift in Hsets. injection Hsets as Hsets _.
  exists X', y', (list_set mined), data, Xtrain.
  destruct d as [[|j js]|].
  - unfold ret in Hfit. injection Hfit as <-. done.
  - rewrite bind_read in Hfit.
    destruct (get_rule_rhs Xtrain (map (fun l => [l; 1 - l]%Z) y') (j :: js)
                (alpha (set_d_star (Some (j :: js)) (self w17))) true)
      as [[th ci]|e] eqn:Hrhs; cbn [self] in Hfit; rewrite Hrhs in Hfit.
    + rewrite bind_call_Ok in Hfit. unfold assign in Hfit. injection Hfit as <-.
      exists (j :: js), th, ci. cbn. rewrite Hpoint, Hmerge, Hsample. cbn.
      cbn in Hrhs. rewrite Hpoint, Hmerge, Hsample in Hrhs. cbn in Hrhs.
      repeat split; done.
    + rewrite bind_call_Raise in Hfit. discriminate Hfit.
  - unfold ret in Hfit. injection Hfit as <-. done.
Qed.

End FitOutcome.

(** ** Mining in [fit2] *)

Section Fit2Mining.
Context {Rng Frame Cuts : Type} `{!Collaborators Rng Frame Cuts}.
Implicit Types w : world Rng Frame Cuts.

Lemma trace_within_app (ok : event -> Prop) (t0 t1 : list event) w :
  trace w = t0 ++ t1 -> trace_within ok (t0 ++ t1) w.
Proof. intros Ht. exists []. by rewrite app_nil_r. Qed.

(** [fit2] mines the whole data once, with [zmax=], and has no fallback: an
    exception of the miner, a [TypeError] too, ends the fit right there,
    before [self.itemsets] is assigned.  When the miner returns, the number
    of rules is printed whatever [self.verbose] says, ['null'] followed by
    the mined itemsets is stored, and fit2 goes on to the sampler without
    calling the miner again. *)
Theorem fit2_mines_once_without_fallback (X : matrix) (y : list Z)
    (feature_labels0 : option (list string)) w (r0 : row) (rest : matrix)
    (y' : list Z) :
  check_X_y X y = Ok (r0 :: rest, y') ->
  let mined := fpgrowth (r0 :: rest) (minsupport (self w)) kw_zmax
                 (maxcardinality (self w)) in
  let t1 := trace w ++ [called_check_X_y; called_fpgrowth kw_zmax] in
  (forall e, mined = Raise e ->
     (fit2 X y feature_labels0 w).1 = Raise e
     /\ trace (fit2 X y feature_labels0 w).2 = t1
     /\ itemsets (self (fit2 X y feature_labels0 w).2) = itemsets (self w))
  /\ (forall rules, mined = Ok rules ->
      let itemsets0 := list_set (map fst rules) in
      itemsets (self (fit2 X y feature_labels0 w).2)
      = Some (null :: map items itemsets0)
      /\ trace_within
           (fun e => e = called_run_bdl_multichain_serial \/ e = called_merge_chains
                     \/ e = called_get_point_estimate \/ e = called_get_rule_rhs)
           (t1 ++ [printed (pretty (length itemsets0) +:+ " rules mined")])
           (fit2 X y feature_labels0 w).2).
Proof.
  intros Hcheck mined t1.
  assert (forall k : list string -> M Rng Frame Cuts unit,
    exists labels,
    bind match feature_labels0 with
         | None => bind (lift (getitem (r0 :: rest) 0)) (fun X0 =>
                     ret (map (fun i => "ft" +:+ pretty (i + 1)) (seq 0 (length X0))))
         | Some l => ret l
         end k = k labels) as Hlabels.
  { intros k. destruct feature_labels0; by eexists. }
  unfold fit2. rewrite Hcheck, bind_call_Ok. cbn [fst snd].
  destruct (Hlabels (fun feature_labels =>
    bind (assign (set_feature_labels feature_labels)) (fun _ =>
    bind (read minsupport) (fun supp =>
    bind (read maxcardinality) (fun card =>
    bind (call (called_fpgrowth kw_zmax) (fpgrowth (r0 :: rest) supp kw_zmax card))
      (fun mined =>
    bind (print (pretty (length (list_set (map fst mined))) +:+ " rules mined"))
      (fun _ =>
    bind (assign (set_itemsets (null :: map items (list_set (map fst mined)))))
      (fun _ =>
    bind (sample (fit2_sets (list_set (map fst mined)) (r0 :: rest))
            (map (fun l => [l; 1 - l]%Z) y')
            (Counter (0 :: map length (list_set (map fst mined))))
            (0 :: map length (list_set (map fst mined))) default_permsdic)
      (fun res =>
    bind (call called_merge_chains (merge_chains res.1)) (fun permsdic =>
    bind (read id) (fun m =>
    bind (call called_get_point_estimate
            (get_point_estimate permsdic (0 :: map length (list_set (map fst mined)))
               (fit2_sets (list_set (map fst mined)) (r0 :: rest))
               (map (fun l => [l; 1 - l]%Z) y') (alpha m)
               (Counter (0 :: map length (list_set (map fst mined))))
               (maxcardinality m) (listlengthprior m) (listwidthprior m) (verbose m)))
      (fun d =>
    bind (assign (set_d_star d)) (fun _ =>
    bind (read d_star) (fun d =>
      match d with
      | Some (j :: js) =>
          bind (read alpha) (fun a =>
          bind (call called_get_rule_rhs
                  (get_rule_rhs (fit2_sets (list_set (map fst mined)) (r0 :: rest))
                     (map (fun l => [l; 1 - l]%Z) y') (j :: js) a true))
            (fun rhs => assign (set_theta rhs.1 rhs.2)))
      | _ => ret tt
      end))))))))))))))
    as (labels & ->).
  rewrite bind_assign, !bind_read. cbn [self minsupport maxcardinality set_feature_labels].
  subst mined. split.
  - intros e He. rewrite He, bind_call_Raise. cbn. unfold t1. by rewrite <- app_assoc.
  - intros rules Hrules. rewrite Hrules, bind_call_Ok.
    set (itemsets0 := list_set (map fst rules)).
    unfold print. rewrite bind_emit, bind_assign. cbn [self trace rng].
    split.
    + set (Q := fun m : RuleListClassifier Frame Cuts =>
                  itemsets m = Some (null :: map items itemsets0)).
      apply (preserves_at (fun w' => Q (self w'))); [|done].
      repeat self_step Q.
    + apply preserves_at.
      * repeat preserves_step.
      * apply trace_within_app. cbn. unfold t1. by rewrite <- !app_assoc.
Qed.

End Fit2Mining.

(** ** Discretized data *)

Section Binning.
Context {Rng Frame Cuts : Type} `{!Collaborators Rng Frame Cuts}.
Implicit Types w : world Rng Frame Cuts.

(** [discretize], the step of [fit] on numeric data: the frame of the
    features with the labels as a last column [y] goes to the discretizer,
    the discretizer is stored, and the bins of all columns of its frame but
    the last come back as strings with the feature label in front. *)
Theorem discretize_spec (X : matrix) (y : list Z) w (labels : list string)
    (D f : Frame) (cuts : Cuts) (n : nat) :
  length X = length y ->
  feature_labels (self w) = Some labels ->
  DataFrame (zip_with (fun r l => r ++ [Num (inject_Z l)]) X y) (labels ++ ["y"]) = Ok D ->
  MDLP_Discretizer D "y" = Ok (f, cuts) ->
  Forall (fun r => length r = n) (map (@removelast cell) (np_array f)) ->
  n <= length labels ->
  discretize X y w
  = (Ok (map (fun r => zip_with (fun l c => Str (l +:+ " : " +:+ astype_str c)) labels r)
           (map (@removelast cell) (np_array f))),
     {| self := set_discretizer (Some {| _data := f; _cuts := cuts |}) (self w);
        rng := rng w;
        trace := trace w ++ [called_MDLP_Discretizer] |}).
Proof.
  intros Hlen Hlabels HD Hmdlp Hrect Hn. unfold discretize, hstack.
  rewrite bool_decide_eq_true_2 by done. rewrite bind_lift_Ok.
  rewrite (bind_getattr_Some _ _ _ _ _ Hlabels), HD, bind_lift_Ok.
  rewrite Hmdlp, bind_call_Ok, bind_assign. cbn [fst snd self rng trace].
  by apply (prepend_feature_labels_Ok _ labels n).
Qed.

Lemma same_rule_list_blind :
  blind (same_rule_list (Rng := Rng) (Frame := Frame) (Cuts := Cuts)).
Proof. by intros w w' t t' HR. Qed.

Lemma predict_tail_rel (D : matrix) :
  rel (Rng := Rng) (Frame := Frame) (Cuts := Cuts) same_rule_list
    (bind (_to_itemset_indices D) (fun X0 =>
       bind (read d_star) (fun d => bind (getattr "theta" theta) (fun th =>
         bind (call called_preds_d_t (preds_d_t X0 (length D) d th))
           (fun P => ret (map (fun p => [(1 - p)%Q; p]) P))))))
    (bind (_to_itemset_indices D) (fun X0 =>
       bind (read d_star) (fun d => bind (getattr "theta" theta) (fun th =>
         bind (call called_preds_d_t (preds_d_t X0 (length D) d th))
           (fun P => ret (map (fun p => [(1 - p)%Q; p]) P)))))).
Proof.
  assert (forall w w' : world Rng Frame Cuts, same_rule_list w w' ->
            itemsets (self w) = itemsets (self w')) as Hits
    by (intros w w' HR; unfold same_rule_list, rule_list in HR; by simplify_eq).
  assert (forall w w' : world Rng Frame Cuts, same_rule_list w w' ->
            d_star (self w) = d_star (self w')) as Hd
    by (intros w w' HR; unfold same_rule_list, rule_list in HR; by simplify_eq).
  assert (forall w w' : world Rng Frame Cuts, same_rule_list w w' ->
            theta (self w) = theta (self w')) as Hth
    by (intros w w' HR; unfold same_rule_list, rule_list in HR; by simplify_eq).
  unfold _to_itemset_indices.
  repeat first
    [ apply rel_ret
    | apply rel_lift
    | apply rel_read; assumption
    | apply rel_getattr; assumption
    | apply rel_call; apply same_rule_list_blind
    | apply rel_for_each; intros ? ?
    | apply rel_bind; [|intros ?]
    | match goal with
      | |- rel _ (if ?b then _ else _) (if ?b then _ else _) => destruct b
      end ].
Qed.

(** Prediction with a discretizer is prediction without one on other
    transactions: [X] is framed under the feature labels and binned with
    the stored cut points, the last column of the binned frame is dropped,
    and the remaining bins, as strings with the feature label in front, are
    the transactions.  The discretizer ends up holding the binned frame. *)
Theorem predict_proba_with_discretizer (X : matrix) w (d : Discretizer Frame Cuts)
    (labels : list string) (f f' : Frame) (n : nat) :
  discretizer (self w) = Some d ->
  feature_labels (self w) = Some labels ->
  DataFrame X labels = Ok f ->
  apply_cutpoints (_cuts d) f = Ok f' ->
  Forall (fun r => length r = n) (map (@removelast cell) (np_array f')) ->
  n <= length labels ->
  let D := map (fun r => zip_with (fun l c => Str (l +:+ " : " +:+ astype_str c)) labels r)
             (map (@removelast cell) (np_array f')) in
  let w_plain := {| self := set_discretizer None (self w); rng := rng w;
                    trace := trace w |} in
  (predict_proba X w).1 = (predict_proba D w_plain).1
  /\ discretizer (self (predict_proba X w).2) = Some {| _data := f'; _cuts := _cuts d |}.
Proof.
  intros Hd Hlabels Hf Hf' Hrect Hn D w_plain.
  set (w3 := {| self := set_discretizer (Some {| _data := f'; _cuts := _cuts d |})
                          (set_discretizer (Some {| _data := f; _cuts := _cuts d |})
                             (self w));
                rng := rng w; trace := trace w ++ [called_apply_cutpoints] |}).
  assert (bind (getattr "feature_labels" feature_labels) (fun labels =>
            bind (lift (DataFrame X labels)) (fun f =>
            bind (assign (set_discretizer (Some {| _data := f; _cuts := _cuts d |})))
              (fun _ =>
            bind (call called_apply_cutpoints (apply_cutpoints (_cuts d) f)) (fun f' =>
            bind (assign (set_discretizer (Some {| _data := f'; _cuts := _cuts d |})))
              (fun _ =>
            _prepend_feature_labels (map (@removelast cell) (np_array f'))))))) w
          = (Ok D, w3)) as Hbin.
  { rewrite (bind_getattr_Some _ _ _ _ _ Hlabels), Hf, bind_lift_Ok, bind_assign.
    rewrite Hf', bind_call_Ok, bind_assign. cbn [self rng trace].
    by apply (prepend_feature_labels_Ok _ labels n). }
  unfold predict_proba, w_plain. rewrite !bind_read, Hd.
  cbn [self discretizer set_discretizer]. rewrite bind_ret.
  split.
  - unfold bind at 1. rewrite Hbin. by apply predict_tail_rel.
  - unfold bind at 1. rewrite Hbin.
    set (Q := fun m : RuleListClassifier Frame Cuts =>
                discretizer m = Some {| _data := f'; _cuts := _cuts d |}).
    apply (preserves_at (fun w' => Q (self w')) _ w3); [|reflexivity].
    unfold _to_itemset_indices. repeat self_step Q.
Qed.

End Binning.

(** ** [fit], then [predict_proba] *)

Section Composition.
Context {Rng Frame Cuts : Type} `{!Collaborators Rng Frame Cuts}.
Implicit Types w : world Rng Frame Cuts.

(** On numeric data, where the first cell of the checked input is a number,
    [fit] warns if [self.verbose], frames the features with the labels as
    column [y] under the feature labels it has just recorded, and stores the
    discretizer built from that frame; the discretizer stays in the object
    whatever happens later in the fit. *)
Theorem numeric_fit_stores_discretizer (X : matrix) (y : list Z)
    (feature_labels0 : option (list string)) w (q : Q) (r : row) (rest : matrix)
    (y' : list Z) (D f : Frame) (cuts : Cuts) :
  let X' := (Num q :: r) :: rest in
  let labels := default (map (fun i => "ft" +:+ pretty (i + 1))
                           (seq 0 (length (Num q :: r)))) feature_labels0 in
  size (list_to_set y : gset Z) = 2 ->
  check_X_y X y = Ok (X', y') ->
  length X' = length y' ->
  DataFrame (zip_with (fun r l => r ++ [Num (inject_Z l)]) X' y') (labels ++ ["y"])
  = Ok D ->
  MDLP_Discretizer D "y" = Ok (f, cuts) ->
  discretizer (self (fit X y feature_labels0 w).2)
  = Some {| _data := f; _cuts := cuts |}
  /\ trace_within (fun _ => True)
       (trace w ++ called_check_X_y
          :: (if verbose (self w)
              then [printed "Warning: non-categorical data. Trying to discretize. (Please convert categorical values to strings to avoid this.)"]
              else [])
          ++ [called_MDLP_Discretizer])
       (fit X y feature_labels0 w).2.
Proof.
  intros X' labels Hsize Hcheck Hlen HD Hmdlp.
  assert (forall k : list string -> M Rng Frame Cuts unit,
    bind match feature_labels0 with
         | None => bind (lift (getitem X' 0)) (fun X0 =>
                     ret (map (fun i => "ft" +:+ pretty (i + 1)) (seq 0 (length X0))))
         | Some l => ret l
         end k = k labels) as Hlabels.
  { intros k. unfold labels. by destruct feature_labels0. }
  assert (forall w1 : world Rng Frame Cuts, feature_labels (self w1) = Some labels ->
            discretize X' y' w1
            = _prepend_feature_labels (map (@removelast cell) (np_array f))
                {| self := set_discretizer (Some {| _data := f; _cuts := cuts |}) (self w1);
                   rng := rng w1;
                   trace := trace w1 ++ [called_MDLP_Discretizer] |}) as Hdisc.
  { intros w1 Hw1. unfold discretize, hstack.
    rewrite bool_decide_eq_true_2 by done. rewrite bind_lift_Ok.
    rewrite (bind_getattr_Some _ _ _ _ _ Hw1), HD, bind_lift_Ok.
    by rewrite Hmdlp, bind_call_Ok, bind_assign. }
  set (Q := fun m : RuleListClassifier Frame Cuts =>
              discretizer m = Some {| _data := f; _cuts := cuts |}).
  unfold fit. rewrite bool_decide_eq_false_2 by (by intros ?).
  rewrite Hcheck, bind_call_Ok. cbn [fst snd]. rewrite Hlabels, bind_assign.
  change (getitem X' 0) with (Ok (Num q :: r)). rewrite bind_lift_Ok.
  change (getitem (Num q :: r) 0) with (Ok (Num q)). rewrite bind_lift_Ok.
  cbn [is_str]. rewrite bind_assoc, bind_read, bind_assoc.
  cbn [self verbose set_feature_labels trace rng].
  set (k := fun X0 : matrix => bind _ _).
  assert (preserves (fun w' => Q (self w'))
            (bind (_prepend_feature_labels (map (@removelast cell) (np_array f))) k))
    as HQ.
  { unfold k, _prepend_feature_labels, mine, print. repeat self_step Q. }
  assert (forall t0, preserves (trace_within (fun _ => True) t0)
            (bind (_prepend_feature_labels (map (@removelast cell) (np_array f))) k))
    as Htrace.
  { intros t0. unfold k, _prepend_feature_labels, mine, print. repeat preserves_step. }
  destruct (verbose (self w)); unfold print; rewrite ?bind_emit, ?bind_ret;
    erewrite bind_cong by (by apply Hdisc); cbn [self trace rng].
  - split; [by apply HQ|]. apply Htrace. exists []. cbn.
    by rewrite app_nil_r, <- !app_assoc.
  - split; [by apply HQ|]. apply Htrace. exists []. cbn.
    by rewrite app_nil_r, <- !app_assoc.
Qed.

(** After a fit on categorical data that returned with a point estimate,
    prediction cannot fail in the wrapper: on every input [predict_proba]
    builds the satisfaction sets of the stored itemsets, calls the predictor
    once with the stored point estimate and [theta], and returns the rows
    [1 - p; p] of what the predictor returns, or raises what it raises. *)
Theorem predict_after_fit_reaches_predictor (X : matrix) (y : list Z)
    (feature_labels0 : option (list string)) w w' (X2 : matrix) :
  fit X y feature_labels0 w = (Ok tt, w') ->
  truthy (d_star (self w')) = true ->
  discretizer (self w') = None ->
  exists mined d th,
    itemsets (self w') = Some (null :: map items mined)
    /\ d_star (self w') = Some d
    /\ theta (self w') = Some th
    /\ predict_proba X2 w'
       = (match preds_d_t (set_range (length X2)
                             :: map (fun lhs => satisfied_by lhs X2) mined)
                  (length X2) (Some d) th with
          | Ok P => Ok (map (fun p => [(1 - p)%Q; p]) P)
          | Raise e => Raise e
          end,
          {| self := self w'; rng := rng w'; trace := trace w' ++ [called_preds_d_t] |}).
Proof.
  intros Hfit Htruthy Hnone.
  destruct (fit_Ok_inv _ _ _ _ _ Hfit Htruthy)
    as (X' & y' & mined & data & Xtrain & d & th & ci & _ & Hits & _ & Hd & _ & Hth & _).
  exists mined, d, th. repeat split; try done.
  unfold predict_proba. rewrite bind_read, Hnone, bind_ret.
  unfold bind at 1. rewrite (to_itemset_indices_closed mined X2 w' Hits).
  rewrite bind_read, Hd, (bind_getattr_Some _ _ _ _ _ Hth).
  destruct (preds_d_t _ _ _ _) as [P|e].
  - by rewrite bind_call_Ok.
  - by rewrite bind_call_Raise.
Qed.

End Composition.

(** ** Printing *)

Section Quiet.
Context {Rng Frame Cuts : Type} `{!Collaborators Rng Frame Cuts}.
Implicit Types w : world Rng Frame Cuts.

Lemma preserves_and {A} (P1 P2 : world Rng Frame Cuts -> Prop)
    (c : M Rng Frame Cuts A) :
  preserves P1 c -> preserves P2 c -> preserves (fun w => P1 w /\ P2 w) c.
Proof. intros H1 H2 w [Hw1 Hw2]. split; [by apply H1|by apply H2]. Qed.

(** [if self.verbose: print msg] on an object that is not verbose. *)
Lemma quiet_print {B} (P : world Rng Frame Cuts -> Prop) (msg : string)
    (k : unit -> M Rng Frame Cuts B) :
  preserves (fun w => verbose (self w) = false /\ P w) (k tt) ->
  preserves (fun w => verbose (self w) = false /\ P w)
    (bind (read verbose) (fun v => bind (if v then print msg else ret tt) k)).
Proof.
  intros Hk w [Hv Hw]. rewrite bind_read, Hv, bind_ret. by apply Hk.
Qed.

End Quiet.

(** One step of a proof that a body adds no printed line to the trace, and
    one step of a proof that a body prints nothing on an object that is not
    verbose. *)
Ltac no_print_step :=
  first
    [ apply preserves_ret
    | apply preserves_raise
    | apply preserves_lift
    | apply preserves_read
    | apply preserves_getattr
    | apply trace_within_call; solve [intros ?; discriminate]
    | apply trace_within_assign
    | apply trace_within_sample; solve [intros ?; discriminate]
    | apply preserves_try
    | apply preserves_for_each; intros ? ?
    | apply preserves_bind; [|intros ?]
    | match goal with
      | |- preserves _ (if ?b then _ else _) => destruct b
      | |- preserves _ (match ?x with _ => _ end) => destruct x
      end ].

Ltac quiet_leaf Q :=
  apply preserves_and; [solve [repeat self_step Q]|solve [repeat no_print_step]].

Ltac quiet_step Q :=
  first
    [ apply quiet_print
    | apply preserves_bind; [first [quiet_leaf Q|idtac]|intros ?]
    | match goal with
      | |- preserves _ (if ?b then _ else _) => destruct b
      | |- preserves _ (match ?x with _ => _ end) => destruct x
      end
    | quiet_leaf Q ].

Section QuietFit.
Context {Rng Frame Cuts : Type} `{!Collaborators Rng Frame Cuts}.
Implicit Types w : world Rng Frame Cuts.

(** With [verbose=False], [fit] prints nothing itself: neither the warning
    about non-categorical data nor the number of rules mined. *)
Theorem quiet_fit_prints_nothing (X : matrix) (y : list Z)
    (feature_labels : option (list string)) w :
  verbose (self w) = false ->
  trace_within (fun e => forall msg, e <> printed msg) (trace w)
    (fit X y feature_labels w).2.
Proof.
  intros Hquiet.
  set (Q := fun m : RuleListClassifier Frame Cuts => verbose m = false).
  enough ((fun w' => verbose (self w') = false
                     /\ trace_within (fun e => forall msg, e <> printed msg) (trace w) w')
            (fit X y feature_labels w).2) as [_ Ht] by exact Ht.
  apply preserves_at; [|split; [done|exists []; by rewrite app_nil_r]].
  unfold fit, discretize, _prepend_feature_labels, mine.
  repeat quiet_step Q.
Qed.

End QuietFit.

(** ** The [try] around the miner *)

Section TryExcept.
Context {Rng Frame Cuts : Type} `{!Collaborators Rng Frame Cuts}.
Implicit Types w : world Rng Frame Cuts.

(** The [try] around the two [zmax=] calls of [fit].  Only a [TypeError]
    reaches the handler: any other exception of the miner ends the mining.
    A [TypeError] of the second call, after the first one returned, reaches
    it too, and the handler then mines both partitions again with [max=].
    When both calls return, their itemsets are joined, those of the rows
    with label 0 first, and [max=] is never tried. *)
Theorem fallback_only_on_TypeError (data_pos data_neg : matrix) w :
  let supp := minsupport (self w) in
  let card := maxcardinality (self w) in
  let mining := try_except_TypeError (mine kw_zmax data_pos data_neg)
                                     (mine kw_max data_pos data_neg) in
  let w1 := {| self := self w; rng := rng w;
               trace := trace w ++ [called_fpgrowth kw_zmax] |} in
  let w2 := {| self := self w; rng := rng w;
               trace := trace w ++ [called_fpgrowth kw_zmax; called_fpgrowth kw_zmax] |} in
  (forall e, fpgrowth data_pos supp kw_zmax card = Raise e ->
     mining w = match e with
                | TypeError => mine kw_max data_pos data_neg w1
                | _ => (Raise e, w1)
                end)
  /\ (forall pos, fpgrowth data_pos supp kw_zmax card = Ok pos ->
      (forall e, fpgrowth data_neg supp kw_zmax card = Raise e ->
         mining w = match e with
                    | TypeError => mine kw_max data_pos data_neg w2
                    | _ => (Raise e, w2)
                    end)
      /\ (forall neg, fpgrowth data_neg supp kw_zmax card = Ok neg ->
          mining w = (Ok (map fst pos ++ map fst neg), w2))).
Proof.
  intros supp card mining w1 w2. subst mining supp card.
  unfold try_except_TypeError. split.
  - intros e He.
    assert (mine kw_zmax data_pos data_neg w = (Raise e, w1)) as ->.
    { unfold mine. by rewrite !bind_read, He, bind_call_Raise. }
    by destruct e.
  - intros pos Hpos. split.
    + intros e He.
      assert (mine kw_zmax data_pos data_neg w = (Raise e, w2)) as ->.
      { unfold mine. rewrite !bind_read, Hpos, bind_call_Ok, !bind_read.
        cbn [self trace rng]. rewrite He, bind_call_Raise. cbn [self trace rng].
        by rewrite <- app_assoc. }
      by destruct e.
    + intros neg Hneg.
      assert (mine kw_zmax data_pos data_neg w
              = (Ok (map fst pos ++ map fst neg), w2)) as ->; [|done].
      unfold mine. rewrite !bind_read, Hpos, bind_call_Ok, !bind_read.
      cbn [self trace rng]. rewrite Hneg, bind_call_Ok. cbn [self trace rng].
      by rewrite <- app_assoc.
Qed.

End TryExcept.

(** * [fit], stage by stage *)

(** One step of a proof that a method body leaves the random generators as
    they are. *)
Ltac rng_step :=
  first
    [ apply preserves_ret
    | apply preserves_raise
    | apply preserves_lift
    | apply preserves_read
    | apply preserves_getattr
    | apply preserves_call; solve [intros ? ? ?; done]
    | apply preserves_emit; solve [intros ? ? ?; done]
    | apply preserves_assign; solve [intros ? ?; done]
    | apply preserves_try
    | apply preserves_for_each; intros ? ?
    | apply preserves_bind; [|intros ?]
    | match goal with
      | |- preserves _ (if ?b then _ else _) => destruct b
      | |- preserves _ (match ?x with _ => _ end) => destruct x
      end ].

Section StageLemmas.
Context {Rng Frame Cuts : Type} `{!Collaborators Rng Frame Cuts}.
Implicit Types w : world Rng Frame Cuts.

(** [fit] on an input that passed both checks, stage by stage. *)
Lemma fit_checked (X : matrix) (y : list Z) (feature_labels0 : option (list string)) w
    (c : cell) (r : row) (rest : matrix) (y' : list Z) :
  size (list_to_set y : gset Z) = 2 ->
  check_X_y X y = Ok ((c :: r) :: rest, y') ->
  fit X y feature_labels0 w
  = bind (fit_transactions c ((c :: r) :: rest) y')
         (fun data => fit_from_data data y') (checked w feature_labels0 (c :: r)).
Proof.
  intros Hsize Hcheck. unfold fit. rewrite bool_decide_eq_false_2 by (by intros ?).
  rewrite Hcheck, bind_call_Ok. cbn [fst snd].
  destruct feature_labels0 as [l|]; reflexivity.
Qed.

(** What happens to the object between the input check and the sampler
    leaves the constructor's arguments and the random generators alone. *)
Lemma fit_transactions_frame (c : cell) (X : matrix) (y : list Z) w :
  hyperparameters (self (fit_transactions c X y w).2) = hyperparameters (self w)
  /\ rng (fit_transactions c X y w).2 = rng w.
Proof.
  split.
  - set (Q := fun m : RuleListClassifier Frame Cuts =>
                hyperparameters m = hyperparameters (self w)).
    apply (preserves_at (fun w' => Q (self w'))); [|done].
    unfold fit_transactions, discretize, _prepend_feature_labels, print.
    repeat self_step Q.
  - apply (preserves_at (fun w' => rng w' = rng w)); [|done].
    unfold fit_transactions, discretize, _prepend_feature_labels, print.
    repeat rng_step.
Qed.

Lemma mining_frame (data_pos data_neg : matrix) w :
  same_state w (try_except_TypeError (mine kw_zmax data_pos data_neg)
                                     (mine kw_max data_pos data_neg) w).2.
Proof.
  apply (preserves_at (same_state w)); [|done].
  unfold mine. repeat preserves_step.
Qed.

(** The assertion of [fit]. *)
Lemma fit_from_data_asserted (data : matrix) (y : list Z) (data_pos data_neg : matrix) w :
  rows_with_label 0 (enumerate data) y = Ok data_pos ->
  rows_with_label 1 (enumerate data) y = Ok data_neg ->
  fit_from_data data y w
  = if bool_decide (length data_pos + length data_neg = length data)
    then bind (try_except_TypeError (mine kw_zmax data_pos data_neg)
                                    (mine kw_max data_pos data_neg))
              (fit_from_itemsets data y) w
    else (Raise AssertionError, w).
Proof.
  intros Hpos Hneg. unfold fit_from_data. rewrite Hpos, bind_lift_Ok, Hneg, bind_lift_Ok.
  by case_bool_decide.
Qed.

(** The sets, the labels and the rule sizes [fit] hands to the rule-list
    engine. *)
Lemma fit_from_itemsets_sampler (data : matrix) (y : list Z) (raw : list row) w :
  let mined := list_set raw in
  let Xtrain := set_range (length data) :: map (fun lhs => satisfied_by lhs data) mined in
  let Ytrain := map (fun l => [l; 1 - l]%Z) y in
  let lhs_len := 0 :: map length mined in
  itemsets (self (fit_from_itemsets data y raw w).2) = Some (null :: map items mined)
  /\ rng (fit_from_itemsets data y raw w).2
     = rng (sample Xtrain Ytrain (Counter lhs_len) lhs_len default_permsdic w).2
  /\ trace_within (fun _ => True)
       (trace w ++ (if verbose (self w)
                    then [printed (pretty (length mined) +:+ " rules mined")] else [])
                ++ [called_run_bdl_multichain_serial])
       (fit_from_itemsets data y raw w).2.
Proof.
  intros mined Xtrain Ytrain lhs_len. unfold fit_from_itemsets. rewrite bind_read.
  fold mined.
  assert (forall t,
    let w4 := {| self := set_itemsets (null :: map items mined) (self w);
                 rng := rng w; trace := t |} in
    forall K : _ -> M Rng Frame Cuts unit,
    (forall res, preserves (fun w' => itemsets (self w') = Some (null :: map items mined))
                   (K res)) ->
    (forall res g, preserves (fun w' => rng w' = g) (K res)) ->
    (forall res t0, preserves (trace_within (fun _ => True) t0) (K res)) ->
    itemsets (self (bind (sample Xtrain Ytrain (Counter lhs_len) lhs_len default_permsdic) K w4).2)
    = Some (null :: map items mined)
    /\ rng (bind (sample Xtrain Ytrain (Counter lhs_len) lhs_len default_permsdic) K w4).2
       = rng (sample Xtrain Ytrain (Counter lhs_len) lhs_len default_permsdic w).2
    /\ trace_within (fun _ => True) (t ++ [called_run_bdl_multichain_serial])
         (bind (sample Xtrain Ytrain (Counter lhs_len) lhs_len default_permsdic) K w4).2)
    as Hsample.
  { intros t w4 K Hits Hrng Htrace. unfold bind, sample. cbn.
    destruct (run_bdl_multichain_serial _ _ _ _ _ _ _ _ _ _ _ _ _ _ _ _) as [[res|e] g];
      cbn.
    - split; [by apply Hits|]. split; [by apply Hrng|].
      apply Htrace. exists []. by rewrite app_nil_r.
    - split; [done|]. split; [done|]. exists []. by rewrite app_nil_r. }
  set (Q := fun m : RuleListClassifier Frame Cuts =>
              itemsets m = Some (null :: map items mined)).
  destruct (verbose (self w)); unfold print; rewrite ?bind_emit, ?bind_ret;
    rewrite fit_sets_closed, bind_lift_Ok, bind_assign; cbn [self rng trace].
  - rewrite (app_assoc (trace w)).
    apply (Hsample (trace w ++ [printed (pretty (length mined) +:+ " rules mined")])).
    + intros res. repeat self_step Q.
    + intros res g. repeat rng_step.
    + intros res t0. repeat preserves_step.
  - apply (Hsample (trace w)).
    + intros res. repeat self_step Q.
    + intros res g. repeat rng_step.
    + intros res t0. repeat preserves_step.
Qed.


(** The sampler reads the constructor's arguments and the random
    generators, nothing else. *)
Lemma sample_frame Xtrain Ytrain nruleslen lhs_len permsdic w w1 :
  hyperparameters (self w1) = hyperparameters (self w) ->
  rng w1 = rng w ->
  (sample Xtrain Ytrain nruleslen lhs_len permsdic w1).1
  = (sample Xtrain Ytrain nruleslen lhs_len permsdic w).1
  /\ rng (sample Xtrain Ytrain nruleslen lhs_len permsdic w1).2
     = rng (sample Xtrain Ytrain nruleslen lhs_len permsdic w).2.
Proof.
  intros Hh Hr. unfold hyperparameters in Hh. simplify_eq. unfold sample.
  repeat match goal with H : _ (self w1) = _ (self w) |- _ => rewrite H; clear H end.
  rewrite Hr.
  by destruct (run_bdl_multichain_serial _ _ _ _ _ _ _ _ _ _ _ _ _ _ _ _) as [res g].
Qed.

(** [fit] up to the itemsets: the input passed both checks, the
    transactions were built, the class partitions passed the assertion and
    the miner returned. *)
Lemma fit_mined (X : matrix) (y : list Z) (feature_labels0 : option (list string)) w
    (c : cell) (r : row) (rest : matrix) (y' : list Z) (data : matrix) w2
    (data_pos data_neg : matrix) (raw : list row) w3 :
  size (list_to_set y : gset Z) = 2 ->
  check_X_y X y = Ok ((c :: r) :: rest, y') ->
  fit_transactions c ((c :: r) :: rest) y' (checked w feature_labels0 (c :: r))
  = (Ok data, w2) ->
  rows_with_label 0 (enumerate data) y' = Ok data_pos ->
  rows_with_label 1 (enumerate data) y' = Ok data_neg ->
  length data_pos + length data_neg = length data ->
  try_except_TypeError (mine kw_zmax data_pos data_neg)
                       (mine kw_max data_pos data_neg) w2 = (Ok raw, w3) ->
  fit X y feature_labels0 w = fit_from_itemsets data y' raw w3
  /\ hyperparameters (self w3) = hyperparameters (self w)
  /\ rng w3 = rng w.
Proof.
  intros Hsize Hcheck Hdata Hpos Hneg Hassert Hmine.
  rewrite (fit_checked X y feature_labels0 w c r rest y' Hsize Hcheck).
  unfold bind at 1. rewrite Hdata.
  rewrite (fit_from_data_asserted data y' data_pos data_neg w2 Hpos Hneg).
  rewrite bool_decide_eq_true_2 by done. unfold bind at 1. rewrite Hmine.
  split; [done|].
  pose proof (fit_transactions_frame c ((c :: r) :: rest) y'
                (checked w feature_labels0 (c :: r))) as [Hh Hr].
  rewrite Hdata in Hh, Hr. cbn [snd] in Hh, Hr.
  pose proof (mining_frame data_pos data_neg w2) as [Hs Hg].
  rewrite Hmine in Hs, Hg. cbn [snd] in Hs, Hg.
  rewrite <- Hs, <- Hg. split; [exact Hh|exact Hr].
Qed.

(** What [fit] then hands to the sampler. *)
Lemma fit_sampler (X : matrix) (y : list Z) (feature_labels0 : option (list string)) w
    (c : cell) (r : row) (rest : matrix) (y' : list Z) (data : matrix) w2
    (data_pos data_neg : matrix) (raw : list row) w3 :
  size (list_to_set y : gset Z) = 2 ->
  check_X_y X y = Ok ((c :: r) :: rest, y') ->
  fit_transactions c ((c :: r) :: rest) y' (checked w feature_labels0 (c :: r))
  = (Ok data, w2) ->
  rows_with_label 0 (enumerate data) y' = Ok data_pos ->
  rows_with_label 1 (enumerate data) y' = Ok data_neg ->
  length data_pos + length data_neg = length data ->
  try_except_TypeError (mine kw_zmax data_pos data_neg)
                       (mine kw_max data_pos data_neg) w2 = (Ok raw, w3) ->
  let mined := list_set raw in
  let Xtrain := set_range (length data) :: map (fun lhs => satisfied_by lhs data) mined in
  let Ytrain := map (fun l => [l; 1 - l]%Z) y' in
  let lhs_len := 0 :: map length mined in
  itemsets (self (fit X y feature_labels0 w).2) = Some (null :: map items mined)
  /\ rng (fit X y feature_labels0 w).2
     = rng (sample Xtrain Ytrain (Counter lhs_len) lhs_len default_permsdic w).2
  /\ trace_within (fun _ => True)
       (trace w3 ++ (if verbose (self w)
                     then [printed (pretty (length mined) +:+ " rules mined")] else [])
                 ++ [called_run_bdl_multichain_serial])
       (fit X y feature_labels0 w).2.
Proof.
  intros Hsize Hcheck Hdata Hpos Hneg Hassert Hmine mined Xtrain Ytrain lhs_len.
  destruct (fit_mined X y feature_labels0 w c r rest y' data w2 data_pos data_neg raw w3)
    as (-> & Hh & Hr); try done.
  destruct (fit_from_itemsets_sampler data y' raw w3) as (Hits & Hrng & Htrace).
  split; [exact Hits|]. split.
  - rewrite Hrng. by apply sample_frame.
  - assert (verbose (self w3) = verbose (self w)) as Hv
      by (unfold hyperparameters in Hh; by simplify_eq).
    by rewrite <- Hv.
Qed.

Lemma fit_from_itemsets_trace (data : matrix) (y : list Z) (raw : list row) t0 :
  preserves (trace_within (fun _ => True) t0) (fit_from_itemsets data y raw).
Proof. unfold fit_from_itemsets, print. repeat preserves_step. Qed.

Lemma getitem_0_inv {A} (l : list A) (a : A) :
  getitem l 0 = Ok a -> exists l', l = a :: l'.
Proof. destruct l as [|b l]; [done|]. intros [= ->]. by exists l. Qed.

(** A fit that returned has been through every stage. *)
Lemma fit_Ok_stages (X : matrix) (y : list Z)
    (feature_labels0 : option (list string)) w w' :
  fit X y feature_labels0 w = (Ok tt, w') ->
  exists c r rest y' data w2 data_pos data_neg raw w3,
    size (list_to_set y : gset Z) = 2
    /\ check_X_y X y = Ok ((c :: r) :: rest, y')
    /\ fit_transactions c ((c :: r) :: rest) y' (checked w feature_labels0 (c :: r))
       = (Ok data, w2)
    /\ rows_with_label 0 (enumerate data) y' = Ok data_pos
    /\ rows_with_label 1 (enumerate data) y' = Ok data_neg
    /\ length data_pos + length data_neg = length data
    /\ try_except_TypeError (mine kw_zmax data_pos data_neg)
                            (mine kw_max data_pos data_neg) w2 = (Ok raw, w3)
    /\ fit_from_itemsets data y' raw w3 = (Ok tt, w').
Proof.
  intros Hfit.
  assert (size (list_to_set y : gset Z) = 2) as Hsize.
  { destruct (decide (size (list_to_set y : gset Z) = 2)) as [Hs|Hs]; [done|].
    unfold fit in Hfit. rewrite bool_decide_eq_true_2 in Hfit by done.
    discriminate Hfit. }
  assert (exists c r rest y', check_X_y X y = Ok ((c :: r) :: rest, y'))
    as (c & r & rest & y' & Hcheck).
  { unfold fit in Hfit. rewrite bool_decide_eq_false_2 in Hfit by (by intros ?).
    apply bind_Ok_inv in Hfit as ([X' y'] & w1 & Hcheck & Hfit).
    apply call_Ok_inv in Hcheck as [Hcheck _]. cbn [fst snd] in Hfit.
    apply bind_Ok_inv in Hfit as (labels & w2 & _ & Hfit).
    apply bind_Ok_inv in Hfit as (? & w3 & _ & Hfit).
    apply bind_Ok_inv in Hfit as (X0 & w4 & HX0 & Hfit).
    apply bind_Ok_inv in Hfit as (X00 & w5 & HX00 & Hfit).
    unfold lift in HX0, HX00. injection HX0 as HX0 _. injection HX00 as HX00 _.
    apply getitem_0_inv in HX0 as (rest & ->).
    apply getitem_0_inv in HX00 as (r & ->). by exists X00, r, rest, y'. }
  rewrite (fit_checked X y feature_labels0 w c r rest y' Hsize Hcheck) in Hfit.
  apply bind_Ok_inv in Hfit as (data & w2 & Hdata & Hfit).
  unfold fit_from_data in Hfit.
  apply bind_Ok_inv in Hfit as (data_pos & w2a & Hpos & Hfit).
  unfold lift in Hpos. injection Hpos as Hpos <-.
  apply bind_Ok_inv in Hfit as (data_neg & w2b & Hneg & Hfit).
  unfold lift in Hneg. injection Hneg as Hneg <-.
  case_bool_decide as Hassert; [|discriminate Hfit]. cbn [negb] in Hfit.
  apply bind_Ok_inv in Hfit as (raw & w3 & Hmine & Hfit).
  exists c, r, rest, y', data, w2, data_pos, data_neg, raw, w3. done.
Qed.

(** What the last stage leaves when it returns with a point estimate. *)
Lemma fit_from_itemsets_Ok_inv (data : matrix) (y : list Z) (raw : list row) w w' :
  fit_from_itemsets data y raw w = (Ok tt, w') ->
  truthy (d_star (self w')) = true ->
  let mined := list_set raw in
  let Xtrain := set_range (length data) :: map (fun lhs => satisfied_by lhs data) mined in
  exists d th ci,
    itemsets (self w') = Some (null :: map items mined)
    /\ d_star (self w') = Some d
    /\ get_rule_rhs Xtrain (map (fun l => [l; 1 - l]%Z) y) d (alpha (self w')) true
       = Ok (th, ci)
    /\ theta (self w') = Some th
    /\ ci_theta (self w') = Some ci.
Proof.
  intros Hfit Htruthy mined Xtrain. unfold fit_from_itemsets in Hfit.
  fold mined in Hfit.
  apply bind_Ok_inv in Hfit as (v & w10 & _ & Hfit).
  apply bind_Ok_inv in Hfit as (? & w11 & _ & Hfit).
  rewrite fit_sets_closed, bind_lift_Ok, bind_assign in Hfit. fold Xtrain in Hfit.
  apply bind_Ok_inv in Hfit as (res & w14 & Hsample & Hfit).
  apply sample_inv in Hsample.
  apply bind_Ok_inv in Hfit as (permsdic & w15 & Hmerge & Hfit).
  apply call_Ok_inv in Hmerge as [_ Hmerge].
  rewrite bind_read in Hfit.
  apply bind_Ok_inv in Hfit as (d & w17 & Hpoint & Hfit).
  apply call_Ok_inv in Hpoint as [_ Hpoint].
  rewrite bind_assign, bind_read in Hfit. cbn [self d_star set_d_star] in Hfit.
  destruct d as [[|j js]|].
  - unfold ret in Hfit. injection Hfit as <-. done.
  - rewrite bind_read in Hfit.
    destruct (get_rule_rhs Xtrain (map (fun l => [l; 1 - l]%Z) y) (j :: js)
                (alpha (set_d_star (Some (j :: js)) (self w17))) true)
      as [[th ci]|e] eqn:Hrhs; cbn [self] in Hfit; rewrite Hrhs in Hfit.
    + rewrite bind_call_Ok in Hfit. unfold assign in Hfit. injection Hfit as <-.
      exists (j :: js), th, ci. cbn. rewrite Hpoint, Hmerge, Hsample. cbn.
      cbn in Hrhs. rewrite Hpoint, Hmerge, Hsample in Hrhs. cbn in Hrhs.
      repeat split; done.
    + rewrite bind_call_Raise in Hfit. discriminate Hfit.
  - unfold ret in Hfit. injection Hfit as <-. done.
Qed.

End StageLemmas.

(** ** The encoding of transactions as satisfaction sets *)

Section Encoding.
Context {Rng Frame Cuts : Type} `{!Collaborators Rng Frame Cuts}.
Implicit Types w : world Rng Frame Cuts.

(** C6: the satisfaction set at rule index 0 is the full range of
    transaction indices [{0, ..., n-1}] of the data.  In [fit]: whenever the
    input passed both checks and became the transactions [data], the class
    partitions passed the assertion and the miner returned, the sets [fit]
    builds from [data] and hands to the sampler have the full range of
    [data] at index 0.  At prediction time: the sets [_to_itemset_indices]
    rebuilds have it whenever it returns, and it does return whenever
    [self.itemsets] is not empty, as is the case after every fit that
    returned. *)
Theorem rule_0_is_satisfied_by_all (data : matrix) :
  (forall mined : list row,
     exists X, fit_sets mined data = Ok X
               /\ X !! 0 = Some (set_range (length data)))
  /\ (forall (X : matrix) (y : list Z) (feature_labels : option (list string)) w
             (c : cell) (r : row) (rest : matrix) (y' : list Z) w2
             (data_pos data_neg : matrix) (raw : list row) w3,
        size (list_to_set y : gset Z) = 2 ->
        check_X_y X y = Ok ((c :: r) :: rest, y') ->
        fit_transactions c ((c :: r) :: rest) y' (checked w feature_labels (c :: r))
        = (Ok data, w2) ->
        rows_with_label 0 (enumerate data) y' = Ok data_pos ->
        rows_with_label 1 (enumerate data) y' = Ok data_neg ->
        length data_pos + length data_neg = length data ->
        try_except_TypeError (mine kw_zmax data_pos data_neg)
                             (mine kw_max data_pos data_neg) w2 = (Ok raw, w3) ->
        let mined := list_set raw in
        let lhs_len := 0 :: map length mined in
        exists Xtrain,
          fit_sets mined data = Ok Xtrain
          /\ Xtrain !! 0 = Some (set_range (length data))
          /\ rng (fit X y feature_labels w).2
             = rng (sample Xtrain (map (fun l => [l; 1 - l]%Z) y') (Counter lhs_len)
                      lhs_len default_permsdic w).2)
  /\ (forall w w' (X : list (gset nat)),
        _to_itemset_indices data w = (Ok X, w') ->
        X !! 0 = Some (set_range (length data)))
  /\ (forall w lhs its,
        itemsets (self w) = Some (lhs :: its) ->
        exists X, _to_itemset_indices data w = (Ok X, w)
                  /\ X !! 0 = Some (set_range (length data)))
  /\ (forall Xtrain y feature_labels w w',
        fit Xtrain y feature_labels w = (Ok tt, w') ->
        exists X, _to_itemset_indices data w' = (Ok X, w')
                  /\ X !! 0 = Some (set_range (length data)))
  /\ (forall i, i ∈ set_range (length data) <-> i < length data).
Proof.
  assert (forall w lhs its,
            itemsets (self w) = Some (lhs :: its) ->
            exists X, _to_itemset_indices data w = (Ok X, w)
                      /\ X !! 0 = Some (set_range (length data))) as Hpredict.
  { intros w lhs its Hits.
    destruct (to_itemset_indices_spec data w (lhs :: its) Hits)
      as (X & HX & _ & H0 & _); [done|eauto]. }
  split; [|split; [|split; [|split; [|split]]]].
  - intros mined. destruct (fit_sets_spec mined data) as (X & HX & _ & H0 & _).
    eauto.
  - intros X y feature_labels w c r rest y' w2 data_pos data_neg raw w3
      Hsize Hcheck Hdata Hpos Hneg Hassert Hmine mined lhs_len.
    destruct (fit_sampler X y feature_labels w c r rest y' data w2 data_pos data_neg
                raw w3) as (_ & Hrng & _); try done.
    eexists. split; [apply fit_sets_closed|]. split; [done|exact Hrng].
  - intros w w' X HX.
    destruct (to_itemset_indices_Ok data w w' X HX) as (its & Hits & Hne).
    destruct (to_itemset_indices_spec data w its Hits Hne) as (X' & HX' & _ & H0 & _).
    rewrite HX in HX'. by simplify_eq.
  - exact Hpredict.
  - intros Xtrain y feature_labels w w' Hfit.
    destruct (fit_Ok_itemsets Xtrain y feature_labels w w' Hfit) as (mined & Hits).
    by apply (Hpredict w' null (map items mined)).
  - intros i. apply elem_of_set_range.
Qed.

(** C7: for a rule index [j > 0] and a transaction [i], [i] is in the
    satisfaction set [j] exactly when every token of rule [j]'s antecedent
    occurs in transaction [i].  In [fit]: whenever the input passed both
    checks and became the transactions [data], the class partitions passed
    the assertion and the miner returned, rule [j] is entry [j] of
    [self.itemsets], ['null'] followed by the mined itemsets, and set [j] of
    the sets [fit] builds from [data] and hands to the sampler is as said.
    At prediction time: so is set [j] of the sets rebuilt from
    [self.itemsets]. *)
Theorem satisfaction_is_subset_test (data : matrix) (j i : nat)
    (lhs : itemset) (xi : row) :
  0 < j ->
  data !! i = Some xi ->
  (forall (mined : list row) (X : list (gset nat)),
     fit_sets mined data = Ok X ->
     (null :: map items mined) !! j = Some lhs ->
     exists Xj, X !! j = Some Xj
                /\ (i ∈ Xj <->
                    forall t, t ∈ set_of lhs -> exists c, c ∈ xi /\ cell_eqb t c = true))
  /\ (forall (X : matrix) (y : list Z) (feature_labels : option (list string)) w
             (c : cell) (r : row) (rest : matrix) (y' : list Z) w2
             (data_pos data_neg : matrix) (raw : list row) w3,
        size (list_to_set y : gset Z) = 2 ->
        check_X_y X y = Ok ((c :: r) :: rest, y') ->
        fit_transactions c ((c :: r) :: rest) y' (checked w feature_labels (c :: r))
        = (Ok data, w2) ->
        rows_with_label 0 (enumerate data) y' = Ok data_pos ->
        rows_with_label 1 (enumerate data) y' = Ok data_neg ->
        length data_pos + length data_neg = length data ->
        try_except_TypeError (mine kw_zmax data_pos data_neg)
                             (mine kw_max data_pos data_neg) w2 = (Ok raw, w3) ->
        let mined := list_set raw in
        let lhs_len := 0 :: map length mined in
        (null :: map items mined) !! j = Some lhs ->
        exists Xtrain Xj,
          fit_sets mined data = Ok Xtrain
          /\ Xtrain !! j = Some Xj
          /\ (i ∈ Xj <->
              forall t, t ∈ set_of lhs -> exists c, c ∈ xi /\ cell_eqb t c = true)
          /\ itemsets (self (fit X y feature_labels w).2) = Some (null :: map items mined)
          /\ rng (fit X y feature_labels w).2
             = rng (sample Xtrain (map (fun l => [l; 1 - l]%Z) y') (Counter lhs_len)
                      lhs_len default_permsdic w).2)
  /\ (forall w w' (X : list (gset nat)) (its : list itemset),
        itemsets (self w) = Some its ->
        _to_itemset_indices data w = (Ok X, w') ->
        its !! j = Some lhs ->
        exists Xj, X !! j = Some Xj
                   /\ (i ∈ Xj <->
                       forall t, t ∈ set_of lhs -> exists c, c ∈ xi /\ cell_eqb t c = true)).
Proof.
  intros Hj Hi.
  assert (forall t : row, i ∈ satisfied_by t data <->
            forall a, a ∈ t -> exists c, c ∈ xi /\ cell_eqb a c = true) as Hsat.
  { intros t. rewrite elem_of_satisfied_by, <- issubset_spec. split.
    - intros (xi' & Hi' & Hsub). by simplify_eq.
    - eauto. }
  assert (forall (mined : list row) (X : list (gset nat)),
     fit_sets mined data = Ok X ->
     (null :: map items mined) !! j = Some lhs ->
     exists Xj, X !! j = Some Xj
                /\ (i ∈ Xj <->
                    forall t, t ∈ set_of lhs -> exists c, c ∈ xi /\ cell_eqb t c = true))
    as Hfit.
  { intros mined X HX Hlhs.
    destruct (fit_sets_spec mined data) as (X' & HX' & _ & _ & Hrest).
    rewrite HX in HX'. simplify_eq.
    destruct j as [|j]; [lia|]. simpl in Hlhs.
    apply list_lookup_fmap_Some in Hlhs as (t & -> & Ht).
    exists (satisfied_by t data). split; [|apply Hsat].
    replace (S j) with (j + 1) by lia. by apply Hrest. }
  split; [exact Hfit|]. split.
  - intros X y feature_labels w c r rest y' w2 data_pos data_neg raw w3
      Hsize Hcheck Hdata Hpos Hneg Hassert Hmine mined lhs_len Hlhs.
    destruct (fit_sampler X y feature_labels w c r rest y' data w2 data_pos data_neg
                raw w3) as (Hits & Hrng & _); try done.
    destruct (Hfit mined _ (fit_sets_closed mined data) Hlhs) as (Xj & HXj & Hiff).
    eexists _, Xj. split; [apply fit_sets_closed|]. done.
  - intros w w' X its Hits HX Hlhs.
    assert (its <> []) as Hne by (intros ->; by rewrite lookup_nil in Hlhs).
    destruct (to_itemset_indices_spec data w its Hits Hne) as (X' & HX' & _ & _ & Hrest).
    rewrite HX in HX'. simplify_eq.
    exists (satisfied_by (set_of lhs) data). split; [by apply Hrest|apply Hsat].
Qed.

End Encoding.

(** ** The assertion on the class partitions *)

Section AssertionClaim.
Context {Rng Frame Cuts : Type} `{!Collaborators Rng Frame Cuts}.
Implicit Types w : world Rng Frame Cuts.

(** C9: with one label per transaction, the rows with label 0 and the rows
    with label 1 together are as many as the transactions, which is what
    [fit] asserts, exactly when every label is 0 or 1.  The check before it
    only counts the distinct labels.  So on every input that passed both
    checks and became the transactions [data], [fit] gets past its assertion
    and on to the miner when every label is 0 or 1, and ends in the
    [AssertionError], the miner never called, when some label is not. *)
Theorem assertion_holds_iff_labels_0_1 (data : matrix) (y' : list Z) :
  length data = length y' ->
  (exists data_pos data_neg,
     rows_with_label 0 (enumerate data) y' = Ok data_pos
     /\ rows_with_label 1 (enumerate data) y' = Ok data_neg
     /\ (length data_pos + length data_neg = length data
         <-> Forall (fun l => l = 0%Z \/ l = 1%Z) y'))
  /\ (forall (X : matrix) (y : list Z) (feature_labels : option (list string)) w
             (c : cell) (r : row) (rest : matrix) w2,
        size (list_to_set y : gset Z) = 2 ->
        check_X_y X y = Ok ((c :: r) :: rest, y') ->
        fit_transactions c ((c :: r) :: rest) y' (checked w feature_labels (c :: r))
        = (Ok data, w2) ->
        (Forall (fun l => l = 0%Z \/ l = 1%Z) y' ->
         exists evs,
           trace (fit X y feature_labels w).2
           = trace w2 ++ called_fpgrowth kw_zmax :: evs)
        /\ (~ Forall (fun l => l = 0%Z \/ l = 1%Z) y' ->
            fit X y feature_labels w = (Raise AssertionError, w2)))
  /\ (forall (X : matrix) (y : list Z) (feature_labels : option (list string)) w
             (s : string) (r : row) (rest : matrix),
        data = (Str s :: r) :: rest ->
        size (list_to_set y : gset Z) = 2 ->
        check_X_y X y = Ok (data, y') ->
        (Forall (fun l => l = 0%Z \/ l = 1%Z) y' ->
         exists evs,
           trace (fit X y feature_labels w).2
           = trace w ++ called_check_X_y :: called_fpgrowth kw_zmax :: evs)
        /\ (~ Forall (fun l => l = 0%Z \/ l = 1%Z) y' ->
            (fit X y feature_labels w).1 = Raise AssertionError
            /\ trace (fit X y feature_labels w).2 = trace w ++ [called_check_X_y])).
Proof.
  intros Hlen.
  destruct (partition_sizes data y' Hlen)
    as (data_pos & data_neg & Hpos & Hneg & Hiff).
  assert (forall (X : matrix) (y : list Z) (feature_labels : option (list string)) w
             (c : cell) (r : row) (rest : matrix) w2,
        size (list_to_set y : gset Z) = 2 ->
        check_X_y X y = Ok ((c :: r) :: rest, y') ->
        fit_transactions c ((c :: r) :: rest) y' (checked w feature_labels (c :: r))
        = (Ok data, w2) ->
        (Forall (fun l => l = 0%Z \/ l = 1%Z) y' ->
         exists evs,
           trace (fit X y feature_labels w).2
           = trace w2 ++ called_fpgrowth kw_zmax :: evs)
        /\ (~ Forall (fun l => l = 0%Z \/ l = 1%Z) y' ->
            fit X y feature_labels w = (Raise AssertionError, w2))) as Hall.
  { intros X y feature_labels w c r rest w2 Hsize Hcheck Hdata.
    assert (fit X y feature_labels w = fit_from_data data y' w2) as ->.
    { rewrite (fit_checked X y feature_labels w c r rest y' Hsize Hcheck).
      unfold bind at 1. by rewrite Hdata. }
    rewrite (fit_from_data_asserted data y' data_pos data_neg w2 Hpos Hneg).
    split.
    - intros H01. apply Hiff in H01. rewrite bool_decide_eq_true_2 by done.
      assert (trace_within (fun _ => True) (trace w2 ++ [called_fpgrowth kw_zmax])
                (bind (try_except_TypeError (mine kw_zmax data_pos data_neg)
                                            (mine kw_max data_pos data_neg))
                      (fit_from_itemsets data y') w2).2) as (evs & Ht & _).
      { unfold bind. pose proof (try_mine_trace data_pos data_neg w2) as Htry.
        destruct (try_except_TypeError _ _ w2) as [[itemsets|e] w3]; [|done].
        revert Htry. apply (preserves_at (trace_within _ _)).
        apply fit_from_itemsets_trace. }
      exists evs. by rewrite Ht, <- app_assoc.
    - intros H01. by rewrite bool_decide_eq_false_2 by (by rewrite Hiff). }
  split; [by exists data_pos, data_neg|]. split; [exact Hall|].
  intros X y feature_labels w s r rest -> Hsize Hcheck.
  destruct (Hall X y feature_labels w (Str s) r rest
              (checked w feature_labels (Str s :: r)) Hsize Hcheck eq_refl)
    as [H1 H2].
  split.
  - intros H01. destruct (H1 H01) as (evs & Ht). exists evs.
    rewrite Ht. cbn [checked trace]. by rewrite <- app_assoc.
  - intros H01. by rewrite (H2 H01).
Qed.

End AssertionClaim.

(** ** The mining fallback *)

Section FallbackClaim.
Context {Rng Frame Cuts : Type} (C : Collaborators Rng Frame Cuts).
Implicit Types w : world Rng Frame Cuts.

(** C8: when [fpgrowth] does not know the keyword [zmax] and answers every
    such call with a [TypeError], the mining step of [fit] returns what the
    two calls with the keyword [max] return, made with the same
    [minsupport] and [maxcardinality] on the same two class partitions.
    In [fit] itself, on an input that passed both checks and became the
    transactions [data], whose class partitions passed the assertion: after
    the one failed call with [zmax], [fit] calls the miner with [max] on the
    rows of [data] with label 0 and then on those with label 1, with
    [self.minsupport] and [self.maxcardinality]; an exception of either call
    ends the fit; when both return, their itemsets, joined in this order and
    deduplicated, are the candidates that go into [self.itemsets] and, as
    satisfaction sets, to the sampler.  The whole of [fit] then returns the
    same, and leaves the same object and random generators, as it does with
    a miner that takes [zmax] with the meaning [max] has. *)
Theorem fallback_mines_same_candidates :
  (forall data supp card,
     fpgrowth (Collaborators := C) data supp kw_zmax card = Raise TypeError) ->
  (forall (data_pos data_neg : matrix) w,
     (try_except_TypeError (mine kw_zmax data_pos data_neg)
                           (mine kw_max data_pos data_neg) w).1
     = match fpgrowth data_pos (minsupport (self w)) kw_max (maxcardinality (self w)) with
       | Ok pos =>
           match fpgrowth data_neg (minsupport (self w)) kw_max (maxcardinality (self w)) with
           | Ok neg => Ok (map fst pos ++ map fst neg)
           | Raise e => Raise e
           end
       | Raise e => Raise e
       end)
  /\ (forall (X : matrix) (y : list Z) (feature_labels : option (list string)) w
             (c : cell) (r : row) (rest : matrix) (y' : list Z) (data : matrix) w2
             (data_pos data_neg : matrix),
        size (list_to_set y : gset Z) = 2 ->
        check_X_y X y = Ok ((c :: r) :: rest, y') ->
        fit_transactions c ((c :: r) :: rest) y' (checked w feature_labels (c :: r))
        = (Ok data, w2) ->
        rows_with_label 0 (enumerate data) y' = Ok data_pos ->
        rows_with_label 1 (enumerate data) y' = Ok data_neg ->
        length data_pos + length data_neg = length data ->
        let supp := minsupport (self w) in
        let card := maxcardinality (self w) in
        let after calls := {| self := self w2; rng := rng w2;
                              trace := trace w2 ++ called_fpgrowth kw_zmax :: calls |} in
        (forall e, fpgrowth data_pos supp kw_max card = Raise e ->
           fit X y feature_labels w = (Raise e, after [called_fpgrowth kw_max]))
        /\ (forall pos, fpgrowth data_pos supp kw_max card = Ok pos ->
            (forall e, fpgrowth data_neg supp kw_max card = Raise e ->
               fit X y feature_labels w
               = (Raise e, after [called_fpgrowth kw_max; called_fpgrowth kw_max]))
            /\ (forall neg, fpgrowth data_neg supp kw_max card = Ok neg ->
                let mined := list_set (map fst pos ++ map fst neg) in
                let lhs_len := 0 :: map length mined in
                itemsets (self (fit X y feature_labels w).2)
                = Some (null :: map items mined)
                /\ rng (fit X y feature_labels w).2
                   = rng (sample (set_range (length data)
                                    :: map (fun lhs => satisfied_by lhs data) mined)
                            (map (fun l => [l; 1 - l]%Z) y') (Counter lhs_len) lhs_len
                            default_permsdic w).2
                /\ exists evs,
                     trace (fit X y feature_labels w).2
                     = trace w2 ++ called_fpgrowth kw_zmax :: called_fpgrowth kw_max
                         :: called_fpgrowth kw_max :: evs)))
  /\ (forall X y feature_labels w,
        let C' := with_fpgrowth C (fun data supp _ card =>
                                     fpgrowth data supp kw_max card) in
        (fit (Collaborators0 := C) X y feature_labels w).1
        = (fit (Collaborators0 := C') X y feature_labels w).1
        /\ same_state (fit (Collaborators0 := C) X y feature_labels w).2
                      (fit (Collaborators0 := C') X y feature_labels w).2).
Proof.
  intros Hzmax. split; [|split].
  - intros data_pos data_neg w. by apply mine_fallback.
  - intros X y feature_labels w c r rest y' data w2 data_pos data_neg
      Hsize Hcheck Hdata Hpos Hneg Hassert supp card after.
    pose proof (fit_transactions_frame c ((c :: r) :: rest) y'
                  (checked w feature_labels (c :: r))) as [Hh _].
    rewrite Hdata in Hh. cbn [snd] in Hh.
    assert (minsupport (self w2) = supp /\ maxcardinality (self w2) = card)
      as [Hsupp Hcard].
    { unfold hyperparameters in Hh. cbn [checked self] in Hh. by simplify_eq. }
    assert (try_except_TypeError (mine kw_zmax data_pos data_neg)
                                 (mine kw_max data_pos data_neg) w2
            = match fpgrowth data_pos supp kw_max card with
              | Raise e => (Raise e, after [called_fpgrowth kw_max])
              | Ok pos =>
                  match fpgrowth data_neg supp kw_max card with
                  | Raise e =>
                      (Raise e, after [called_fpgrowth kw_max; called_fpgrowth kw_max])
                  | Ok neg =>
                      (Ok (map fst pos ++ map fst neg),
                       after [called_fpgrowth kw_max; called_fpgrowth kw_max])
                  end
              end) as Hmine.
    { unfold try_except_TypeError.
      assert (mine kw_zmax data_pos data_neg w2
              = (Raise TypeError, after [])) as ->.
      { unfold mine. by rewrite !bind_read, Hzmax, bind_call_Raise. }
      unfold mine, after. rewrite !bind_read. cbn [self rng trace].
      rewrite Hsupp, Hcard.
      destruct (fpgrowth data_pos supp kw_max card) as [pos|e].
      - rewrite bind_call_Ok, !bind_read. cbn [self rng trace].
        rewrite Hsupp, Hcard.
        destruct (fpgrowth data_neg supp kw_max card) as [neg|e].
        + rewrite bind_call_Ok. cbn [self rng trace]. unfold ret.
          by rewrite <- !app_assoc.
        + rewrite bind_call_Raise. cbn [self rng trace]. by rewrite <- !app_assoc.
      - rewrite bind_call_Raise. cbn [self rng trace]. by rewrite <- !app_assoc. }
    assert (fit X y feature_labels w
            = bind (try_except_TypeError (mine kw_zmax data_pos data_neg)
                                         (mine kw_max data_pos data_neg))
                   (fit_from_itemsets data y') w2) as Hfit.
    { rewrite (fit_checked X y feature_labels w c r rest y' Hsize Hcheck).
      unfold bind at 1. rewrite Hdata.
      rewrite (fit_from_data_asserted data y' data_pos data_neg w2 Hpos Hneg).
      by rewrite bool_decide_eq_true_2. }
    split; [|intros pos Hp; split].
    + intros e He. rewrite Hfit. unfold bind. by rewrite Hmine, He.
    + intros e He. rewrite Hfit. unfold bind. by rewrite Hmine, Hp, He.
    + intros neg Hn mined lhs_len.
      destruct (fit_sampler X y feature_labels w c r rest y' data w2 data_pos data_neg
                  (map fst pos ++ map fst neg)
                  (after [called_fpgrowth kw_max; called_fpgrowth kw_max]))
        as (Hits & Hrng & (evs & Ht & _)); try done.
      { by rewrite Hmine, Hp, Hn. }
      split; [exact Hits|]. split; [exact Hrng|].
      eexists. rewrite Ht. unfold after. cbn [trace].
      rewrite <- !app_assoc. cbn [app]. reflexivity.
  - intros X y feature_labels w C'. by apply fit_fallback_rel.
Qed.

End FallbackClaim.

(** ** What a fit that returned has computed *)

Section FitReturn.
Context {Rng Frame Cuts : Type} `{!Collaborators Rng Frame Cuts}.
Implicit Types w : world Rng Frame Cuts.

(** A fit that returns with a point estimate has just computed [theta] and
    [ci_theta] from it: they are what [get_rule_rhs] returned for the
    satisfaction sets, over the transactions the fit made of the checked
    input, of the itemsets now in [self.itemsets], the labels the input
    check returned, the point estimate now in [self.d_star], and
    [self.alpha]. *)
Theorem fit_Ok_theta_from_rule_rhs (X : matrix) (y : list Z)
    (feature_labels0 : option (list string)) w w' :
  fit X y feature_labels0 w = (Ok tt, w') ->
  truthy (d_star (self w')) = true ->
  exists c r rest y' data w2 mined Xtrain d th ci,
    check_X_y X y = Ok ((c :: r) :: rest, y')
    /\ fit_transactions c ((c :: r) :: rest) y' (checked w feature_labels0 (c :: r))
       = (Ok data, w2)
    /\ itemsets (self w') = Some (null :: map items mined)
    /\ fit_sets mined data = Ok Xtrain
    /\ Xtrain = set_range (length data) :: map (fun lhs => satisfied_by lhs data) mined
    /\ d_star (self w') = Some d
    /\ get_rule_rhs Xtrain (map (fun l => [l; 1 - l]%Z) y') d (alpha (self w')) true
       = Ok (th, ci)
    /\ theta (self w') = Some th
    /\ ci_theta (self w') = Some ci.
Proof.
  intros Hfit Htruthy.
  destruct (fit_Ok_stages X y feature_labels0 w w' Hfit)
    as (c & r & rest & y' & data & w2 & data_pos & data_neg & raw & w3
        & _ & Hcheck & Hdata & _ & _ & _ & _ & Hlast).
  destruct (fit_from_itemsets_Ok_inv data y' raw w3 w' Hlast Htruthy)
    as (d & th & ci & Hits & Hd & Hrhs & Hth & Hci).
  exists c, r, rest, y', data, w2, (list_set raw),
    (set_range (length data) :: map (fun lhs => satisfied_by lhs data) (list_set raw)),
    d, th, ci.
  split; [exact Hcheck|]. split; [exact Hdata|]. split; [exact Hits|].
  split; [apply fit_sets_closed|]. done.
Qed.

End FitReturn.

(** * More runs with the demo collaborators *)

(** The fit of the four transactions with the labels 1, 1, 0, 0, stage by
    stage, with the stand-in miner and the recording sampler. *)
Lemma rule_0_is_satisfied_by_all_witness :
  let C := recording kw_zmax in
  let y := [1; 1; 0; 0]%Z in
  let mined := [[Str "d"]; [Str "b"]; [Str "a"]; [Str "c"]] in
  let lhs_len := [0; 1; 1; 1; 1] in
  (exists Xtrain,
     fit_sets mined Demo.X4 = Ok Xtrain
     /\ Xtrain !! 0 = Some (set_range 4)
     /\ rng (fit (Collaborators0 := C) Demo.X4 y None fresh).2
        = rng (sample (Collaborators0 := C) Xtrain (map (fun l => [l; 1 - l]%Z) y)
                 (Counter lhs_len) lhs_len default_permsdic fresh).2)
  /\ rng (fit (Collaborators0 := C) Demo.X4 y None fresh).2
     = [[0; 1; 2; 3]; [2; 3]; [0; 2]; [0; 1]; [1; 3]].
Proof.
  intros C y mined lhs_len.
  set (w2 := checked fresh None [Str "a"; Str "b"]).
  split; [|vm_compute; reflexivity].
  apply (proj1 (proj2 (rule_0_is_satisfied_by_all (Collaborators0 := C) Demo.X4))
           Demo.X4 y None fresh (Str "a") [Str "b"]
           [[Str "a"; Str "c"]; [Str "d"; Str "b"]; [Str "d"; Str "c"]] y w2
           [[Str "d"; Str "b"]; [Str "d"; Str "c"]]
           [[Str "a"; Str "b"]; [Str "a"; Str "c"]]
           [[Str "b"]; [Str "d"]; [Str "c"]; [Str "b"]; [Str "a"]; [Str "c"]]
           {| self := self w2; rng := rng w2;
              trace := trace w2 ++ [called_fpgrowth kw_zmax; called_fpgrowth kw_zmax] |});
    vm_compute; reflexivity.
Defined.

Lemma satisfaction_is_subset_test_witness :
  let C := recording kw_zmax in
  let y := [1; 1; 0; 0]%Z in
  let mined := [[Str "d"]; [Str "b"]; [Str "a"]; [Str "c"]] in
  let lhs_len := [0; 1; 1; 1; 1] in
  let subset_test := forall t, t ∈ [Str "d"] ->
                       exists c, c ∈ [Str "d"; Str "b"] /\ cell_eqb t c = true in
  (exists Xtrain Xj,
     fit_sets mined Demo.X4 = Ok Xtrain
     /\ Xtrain !! 1 = Some Xj
     /\ (2 ∈ Xj <-> subset_test)
     /\ itemsets (self (fit (Collaborators0 := C) Demo.X4 y None fresh).2)
        = Some (null :: map items mined)
     /\ rng (fit (Collaborators0 := C) Demo.X4 y None fresh).2
        = rng (sample (Collaborators0 := C) Xtrain (map (fun l => [l; 1 - l]%Z) y)
                 (Counter lhs_len) lhs_len default_permsdic fresh).2)
  /\ rng (fit (Collaborators0 := C) Demo.X4 y None fresh).2 !! 1 = Some [2; 3]
  /\ (forall (w w' : world nat matrix unit) (X : list (gset nat)) (its : list itemset),
        itemsets (self w) = Some its ->
        _to_itemset_indices Demo.X4 w = (Ok X, w') ->
        its !! 1 = Some (items [Str "d"]) ->
        exists Xj, X !! 1 = Some Xj /\ (2 ∈ Xj <-> subset_test)).
Proof.
  intros C y mined lhs_len subset_test.
  set (w2 := checked fresh None [Str "a"; Str "b"]).
  split; [|split; [vm_compute; reflexivity|]].
  - destruct (satisfaction_is_subset_test (Collaborators0 := C) Demo.X4 1 2
                (items [Str "d"]) [Str "d"; Str "b"] (le_n 1) eq_refl)
      as (_ & Hfit & _).
    apply (Hfit Demo.X4 y None fresh (Str "a") [Str "b"]
             [[Str "a"; Str "c"]; [Str "d"; Str "b"]; [Str "d"; Str "c"]] y w2
             [[Str "d"; Str "b"]; [Str "d"; Str "c"]]
             [[Str "a"; Str "b"]; [Str "a"; Str "c"]]
             [[Str "b"]; [Str "d"]; [Str "c"]; [Str "b"]; [Str "a"]; [Str "c"]]
             {| self := self w2; rng := rng w2;
                trace := trace w2 ++ [called_fpgrowth kw_zmax; called_fpgrowth kw_zmax] |});
      vm_compute; reflexivity.
  - apply (satisfaction_is_subset_test (Collaborators0 := Demo.collaborators kw_zmax)
             Demo.X4 1 2 (items [Str "d"]) [Str "d"; Str "b"] (le_n 1) eq_refl).
Defined.

Lemma assertion_holds_iff_labels_0_1_witness :
  let C := Demo.collaborators kw_zmax in
  let y := [1; 1; 0; 0]%Z in
  let numbers := [[Num 1]; [Num 2]] in
  (exists data_pos data_neg,
     rows_with_label 0 (enumerate Demo.X4) y = Ok data_pos
     /\ rows_with_label 1 (enumerate Demo.X4) y = Ok data_neg
     /\ (length data_pos + length data_neg = length Demo.X4
         <-> Forall (fun l => l = 0%Z \/ l = 1%Z) y))
  /\ (exists evs,
        trace (fit (Collaborators0 := C) Demo.X4 y None Demo.w0).2
        = [called_check_X_y; called_fpgrowth kw_zmax] ++ evs)
  /\ (fit (Collaborators0 := C) numbers [1; 2]%Z None Demo.w0).1 = Raise AssertionError
  /\ trace (fit (Collaborators0 := C) numbers [1; 2]%Z None Demo.w0).2
     = [called_check_X_y;
        printed "Warning: non-categorical data. Trying to discretize. (Please convert categorical values to strings to avoid this.)";
        called_MDLP_Discretizer].
Proof.
  intros C y numbers.
  destruct (assertion_holds_iff_labels_0_1 (Collaborators0 := C) Demo.X4 y eq_refl)
    as (Hsizes & Hfit & _).
  split; [exact Hsizes|]. split.
  - destruct (Hfit Demo.X4 y None Demo.w0 (Str "a") [Str "b"]
                [[Str "a"; Str "c"]; [Str "d"; Str "b"]; [Str "d"; Str "c"]]
                (checked Demo.w0 None [Str "a"; Str "b"])) as [Hpass _];
      [vm_compute; reflexivity|reflexivity|reflexivity|].
    apply Hpass. repeat (constructor; [auto|]). constructor.
  - set (w1 := checked Demo.w0 None [Num 1]).
    destruct (assertion_holds_iff_labels_0_1 (Collaborators0 := C)
                [[Str "ft1 : 1/1"]; [Str "ft1 : 2/1"]] [1; 2]%Z eq_refl)
      as (_ & Hnum & _).
    destruct (Hnum numbers [1; 2]%Z None Demo.w0 (Num 1) [] [[Num 2]]
                (fit_transactions (Collaborators0 := C) (Num 1) numbers [1; 2]%Z w1).2)
      as [_ Hfail]; [vm_compute; reflexivity|reflexivity|vm_compute; reflexivity|].
    rewrite Hfail.
    + split; vm_compute; reflexivity.
    + intros H01. apply Forall_cons in H01 as [_ H01].
      apply Forall_cons in H01 as [[H2|H2] _]; discriminate H2.
Defined.

Lemma fallback_mines_same_candidates_witness :
  let C := recording kw_max in
  let C' := with_fpgrowth C (fun data supp _ card =>
                               fpgrowth data supp kw_max card) in
  let y := [1; 1; 0; 0]%Z in
  let mined := [[Str "d"]; [Str "b"]; [Str "a"]; [Str "c"]] in
  let lhs_len := [0; 1; 1; 1; 1] in
  (forall data supp card,
     fpgrowth (Collaborators := C) data supp kw_zmax card = Raise TypeError)
  /\ (itemsets (self (fit (Collaborators0 := C) Demo.X4 y None fresh).2)
      = Some (null :: map items mined)
      /\ rng (fit (Collaborators0 := C) Demo.X4 y None fresh).2
         = rng (sample (Collaborators0 := C)
                  (set_range 4 :: map (fun lhs => satisfied_by lhs Demo.X4) mined)
                  (map (fun l => [l; 1 - l]%Z) y) (Counter lhs_len) lhs_len
                  default_permsdic fresh).2
      /\ exists evs,
           trace (fit (Collaborators0 := C) Demo.X4 y None fresh).2
           = [called_check_X_y] ++ called_fpgrowth kw_zmax :: called_fpgrowth kw_max
               :: called_fpgrowth kw_max :: evs)
  /\ rng (fit (Collaborators0 := C) Demo.X4 y None fresh).2
     = [[0; 1; 2; 3]; [2; 3]; [0; 2]; [0; 1]; [1; 3]]
  /\ (fit (Collaborators0 := C) Demo.X4 y None fresh).1
     = (fit (Collaborators0 := C') Demo.X4 y None fresh).1
  /\ same_state (fit (Collaborators0 := C) Demo.X4 y None fresh).2
                (fit (Collaborators0 := C') Demo.X4 y None fresh).2.
Proof.
  intros C C' y mined lhs_len.
  assert (forall data supp card,
            fpgrowth (Collaborators := C) data supp kw_zmax card = Raise TypeError)
    as Hzmax by reflexivity.
  split; [exact Hzmax|].
  destruct (fallback_mines_same_candidates C Hzmax) as (_ & Hfit & Hsame).
  split; [|split; [vm_compute; reflexivity|apply Hsame]].
  destruct (Hfit Demo.X4 y None fresh (Str "a") [Str "b"]
              [[Str "a"; Str "c"]; [Str "d"; Str "b"]; [Str "d"; Str "c"]] y Demo.X4
              (checked fresh None [Str "a"; Str "b"])
              [[Str "d"; Str "b"]; [Str "d"; Str "c"]]
              [[Str "a"; Str "b"]; [Str "a"; Str "c"]]) as (_ & Hpos);
    [vm_compute; reflexivity|reflexivity|reflexivity|reflexivity|reflexivity
    |reflexivity|].
  destruct (Hpos [([Str "b"], 1%Z); ([Str "d"], 2%Z); ([Str "c"], 1%Z)])
    as (_ & Hneg); [vm_compute; reflexivity|].
  apply (Hneg [([Str "b"], 1%Z); ([Str "a"], 2%Z); ([Str "c"], 1%Z)]).
  vm_compute; reflexivity.
Defined.

Lemma encoders_agree_witness :
  let mined := [[Str "a"]; [Str "b"; Str "c"]] in
  let w : world nat matrix unit :=
    {| self := set_itemsets (null :: map items mined) default_classifier;
       rng := 0; trace := [] |} in
  fit_sets mined Demo.X4 = Ok (fit2_sets mined Demo.X4)
  /\ _to_itemset_indices Demo.X4 w = (Ok (fit2_sets mined Demo.X4), w).
Proof.
  intros mined w. apply (encoders_agree mined Demo.X4 w). reflexivity.
Defined.

Lemma satisfaction_sets_within_range_witness :
  let w : world nat matrix unit :=
    {| self := set_itemsets [null; items [Str "a"]; items [Str "b"; Str "c"]]
                 default_classifier;
       rng := 0; trace := [] |} in
  let X := [set_range 4; satisfied_by [Str "a"] Demo.X4;
            satisfied_by [Str "b"; Str "c"] Demo.X4] in
  Forall (fun Xj => Xj ⊆ set_range (length Demo.X4)) X
  /\ (Demo.X4 = [] -> Forall (fun Xj => Xj = ∅) X).
Proof.
  intros w X. apply (satisfaction_sets_within_range Demo.X4 w w X).
  vm_compute. reflexivity.
Defined.

Lemma longer_antecedent_fewer_transactions_witness :
  let its := [null; items [Str "a"]; items [Str "a"; Str "b"]] in
  let w : world nat matrix unit :=
    {| self := set_itemsets its default_classifier; rng := 0; trace := [] |} in
  let X := [set_range 4; satisfied_by [Str "a"] Demo.X4;
            satisfied_by [Str "a"; Str "b"] Demo.X4] in
  exists X1 X2,
    X !! 1 = Some X1 /\ X !! 2 = Some X2
    /\ (issubset [Str "a"] [Str "a"; Str "b"] = true -> X2 ⊆ X1)
    /\ ([Str "a"] = [] -> X1 = set_range (length Demo.X4)).
Proof.
  intros its w X.
  apply (longer_antecedent_fewer_transactions Demo.X4 w w X its 1 2
           (items [Str "a"]) (items [Str "a"; Str "b"]));
    try reflexivity; lia.
Defined.

Lemma prepend_feature_labels_spec_witness :
  let C := Demo.collaborators kw_zmax in
  let w : world nat matrix unit :=
    {| self := set_feature_labels ["age"; "sex"] default_classifier;
       rng := 0; trace := [] |} in
  _prepend_feature_labels (Collaborators0 := C) [[Num 1; Str "m"]; [Num 2; Str "f"]] w
  = (Ok [[Str "age : 1/1"; Str "sex : m"]; [Str "age : 2/1"; Str "sex : f"]], w).
Proof.
  intros C w.
  apply (prepend_feature_labels_spec (Collaborators0 := C)
           [[Num 1; Str "m"]; [Num 2; Str "f"]] ["age"; "sex"] 2 w).
  - reflexivity.
  - repeat constructor.
  - simpl. lia.
Defined.

Lemma tostring_of_trained_model_witness :
  let C := Demo.collaborators kw_zmax in
  let w : world nat matrix unit :=
    {| self := set_theta [3 # 4; 1 # 4] [(1 # 2, 1%Q); (0%Q, 1 # 2)]
                 (set_d_star (Some [1; 0])
                    (set_itemsets [null; items [Str "a"; Str "b"]] default_classifier));
       rng := 0; trace := [] |} in
  tostring (Collaborators0 := C) 1 w
  = (Ok ("Trained RuleListClassifier " +:+ nl
         +:+ "============================" +:+ nl
         +:+ "IF a AND b THEN probability of class 1: 300/4% (100/2%-100/1%)" +:+ nl
         +:+ "ELSE probability of class 1: 100/4% (0/1%-100/2%)" +:+ nl
         +:+ "===========================" +:+ nl), w).
Proof.
  intros C w.
  apply (tostring_of_trained_model (Collaborators0 := C) 1 w
           [1; 0] [null; items [Str "a"; Str "b"]] [3 # 4; 1 # 4]
           [(1 # 2, 1%Q); (0%Q, 1 # 2)]);
    first [reflexivity | discriminate | simpl; lia | idtac].
  repeat constructor.
  - exists (items [Str "a"; Str "b"]). split; [reflexivity|by repeat constructor].
  - exists null. split; [reflexivity|constructor].
Defined.

Lemma fit_without_estimate_keeps_old_theta_witness :
  let w' := (fit (Collaborators0 := no_estimate) Demo.X4 [1; 1; 0; 0]%Z None
               Demo.mostly_class_0).2 in
  d_star (self w') = None
  /\ theta (self w') = Some [1 # 4]
  /\ ci_theta (self w') = Some [(1 # 10, 1 # 2)].
Proof.
  intros w'. split; [vm_compute; reflexivity|].
  apply (proj1 (fit_without_estimate_keeps_old_theta (Collaborators0 := no_estimate)
                  Demo.X4 [1; 1; 0; 0]%Z None Demo.mostly_class_0)).
  vm_compute. reflexivity.
Defined.

Lemma fit_records_feature_labels_witness :
  let C := Demo.collaborators kw_zmax in
  feature_labels (self (fit (Collaborators0 := C) Demo.X4 [1; 1; 0; 0]%Z None Demo.w0).2)
  = Some ["ft1"; "ft2"]
  /\ feature_labels (self (fit2 (Collaborators0 := C) Demo.X4 [1; 1; 0; 0]%Z None Demo.w0).2)
     = Some ["ft1"; "ft2"].
Proof.
  intros C.
  apply (fit_records_feature_labels (Collaborators0 := C) Demo.X4 [1; 1; 0; 0]%Z None
           Demo.w0 [Str "a"; Str "b"]
           [[Str "a"; Str "c"]; [Str "d"; Str "b"]; [Str "d"; Str "c"]]
           [1; 1; 0; 0]%Z).
  - vm_compute. reflexivity.
  - reflexivity.
Defined.

Lemma categorical_fit_keeps_discretizer_witness :
  let C := Demo.collaborators kw_zmax in
  let old := Some {| _data := [[Num 1; Num 0]]; _cuts := tt |} in
  let w : world nat matrix unit :=
    {| self := set_discretizer old default_classifier; rng := 0; trace := [] |} in
  discretizer (self (fit (Collaborators0 := C) Demo.X4 [1; 1; 0; 0]%Z None w).2) = old
  /\ discretizer (self (fit2 (Collaborators0 := C) Demo.X4 [1; 1; 0; 0]%Z None w).2) = old
  /\ discretizer (self (fit2 (Collaborators0 := C) [[Num 1]; [Num 2]] [0; 1]%Z None w).2)
     = old.
Proof.
  intros C old w. split; [|split].
  - apply (proj1 (categorical_fit_keeps_discretizer (Collaborators0 := C) Demo.X4
                    [1; 1; 0; 0]%Z None w) "a" [Str "b"]
             [[Str "a"; Str "c"]; [Str "d"; Str "b"]; [Str "d"; Str "c"]]
             [1; 1; 0; 0]%Z).
    reflexivity.
  - apply (proj2 (categorical_fit_keeps_discretizer (Collaborators0 := C) Demo.X4
                    [1; 1; 0; 0]%Z None w)).
  - apply (proj2 (categorical_fit_keeps_discretizer (Collaborators0 := C)
                    [[Num 1]; [Num 2]] [0; 1]%Z None w)).
Defined.

Lemma fit_Ok_theta_from_rule_rhs_witness :
  let C := Demo.collaborators kw_zmax in
  let y := [1; 1; 0; 0]%Z in
  let w' := (fit (Collaborators0 := C) Demo.X4 y None Demo.w0).2 in
  exists c r rest y' data w2 mined Xtrain d th ci,
    check_X_y (Collaborators := C) Demo.X4 y = Ok ((c :: r) :: rest, y')
    /\ fit_transactions (Collaborators0 := C) c ((c :: r) :: rest) y'
         (checked Demo.w0 None (c :: r)) = (Ok data, w2)
    /\ itemsets (self w') = Some (null :: map items mined)
    /\ fit_sets mined data = Ok Xtrain
    /\ Xtrain = set_range (length data) :: map (fun lhs => satisfied_by lhs data) mined
    /\ d_star (self w') = Some d
    /\ get_rule_rhs (Collaborators := C) Xtrain (map (fun l => [l; 1 - l]%Z) y') d
         (alpha (self w')) true = Ok (th, ci)
    /\ theta (self w') = Some th
    /\ ci_theta (self w') = Some ci.
Proof.
  intros C y w'.
  apply (fit_Ok_theta_from_rule_rhs (Collaborators0 := C) Demo.X4 y None Demo.w0 w').
  - vm_compute. reflexivity.
  - vm_compute. reflexivity.
Defined.

Lemma fit2_mines_once_without_fallback_witness :
  let C := Demo.collaborators kw_zmax in
  let w' := (fit2 (Collaborators0 := C) Demo.X4 [1; 1; 0; 0]%Z None Demo.w0).2 in
  let itemsets0 := [[Str "a"]; [Str "b"]; [Str "d"]; [Str "c"]] in
  itemsets (self w') = Some (null :: map items itemsets0)
  /\ trace_within
       (fun e => e = called_run_bdl_multichain_serial \/ e = called_merge_chains
                 \/ e = called_get_point_estimate \/ e = called_get_rule_rhs)
       ([called_check_X_y; called_fpgrowth kw_zmax; printed "4 rules mined"]) w'.
Proof.
  intros C w' itemsets0.
  apply (proj2 (fit2_mines_once_without_fallback (Collaborators0 := C) Demo.X4
                  [1; 1; 0; 0]%Z None Demo.w0 [Str "a"; Str "b"]
                  [[Str "a"; Str "c"]; [Str "d"; Str "b"]; [Str "d"; Str "c"]]
                  [1; 1; 0; 0]%Z eq_refl)
           [([Str "a"], 2%Z); ([Str "b"], 2%Z); ([Str "d"], 2%Z); ([Str "c"], 2%Z)]).
  vm_compute. reflexivity.
Defined.

Lemma discretize_spec_witness :
  let C := Demo.collaborators kw_zmax in
  let w : world nat matrix unit :=
    {| self := set_feature_labels ["age"; "dose"] default_classifier;
       rng := 0; trace := [] |} in
  let D := [[Num 1; Num 2; Num 0]; [Num 3; Num 4; Num 1]] in
  discretize (Collaborators0 := C) [[Num 1; Num 2]; [Num 3; Num 4]] [0; 1]%Z w
  = (Ok [[Str "age : 1/1"; Str "dose : 2/1"]; [Str "age : 3/1"; Str "dose : 4/1"]],
     {| self := set_discretizer (Some {| _data := D; _cuts := tt |}) (self w);
        rng := 0; trace := [called_MDLP_Discretizer] |}).
Proof.
  intros C w D.
  apply (discretize_spec (Collaborators0 := C) [[Num 1; Num 2]; [Num 3; Num 4]]
           [0; 1]%Z w ["age"; "dose"] D D tt 2);
    first [reflexivity | simpl; lia | repeat constructor].
Defined.

Lemma predict_proba_with_discretizer_witness :
  let C := Demo.collaborators kw_zmax in
  let d := {| _data := [[Num 1; Num 2; Num 0]]; _cuts := tt |} in
  let w : world nat matrix unit :=
    {| self := set_discretizer (Some d)
                 (set_feature_labels ["age"; "dose"] (self Demo.mostly_class_0));
       rng := 0; trace := [] |} in
  let w_plain : world nat matrix unit :=
    {| self := set_discretizer None (self w); rng := 0; trace := [] |} in
  (predict_proba (Collaborators0 := C) [[Num 5; Num 6]] w).1
  = (predict_proba (Collaborators0 := C) [[Str "age : 5/1"]] w_plain).1
  /\ discretizer (self (predict_proba (Collaborators0 := C) [[Num 5; Num 6]] w).2)
     = Some {| _data := [[Num 5; Num 6]]; _cuts := tt |}.
Proof.
  intros C d w w_plain.
  apply (predict_proba_with_discretizer (Collaborators0 := C) [[Num 5; Num 6]] w d
           ["age"; "dose"] [[Num 5; Num 6]] [[Num 5; Num 6]] 1);
    first [reflexivity | simpl; lia | repeat constructor].
Defined.

Lemma numeric_fit_stores_discretizer_witness :
  let C := Demo.collaborators kw_zmax in
  let X := [[Num 1; Num 2]; [Num 3; Num 4]] in
  let D := [[Num 1; Num 2; Num 0]; [Num 3; Num 4; Num 1]] in
  discretizer (self (fit (Collaborators0 := C) X [0; 1]%Z None Demo.w0).2)
  = Some {| _data := D; _cuts := tt |}
  /\ trace_within (fun _ => True)
       [called_check_X_y;
        printed "Warning: non-categorical data. Trying to discretize. (Please convert categorical values to strings to avoid this.)";
        called_MDLP_Discretizer]
       (fit (Collaborators0 := C) X [0; 1]%Z None Demo.w0).2.
Proof.
  intros C X D.
  apply (numeric_fit_stores_discretizer (Collaborators0 := C) X [0; 1]%Z None Demo.w0
           1 [Num 2] [[Num 3; Num 4]] [0; 1]%Z D D tt); reflexivity.
Defined.

Lemma predict_after_fit_reaches_predictor_witness :
  let C := Demo.collaborators kw_zmax in
  let w' := (fit (Collaborators0 := C) Demo.X4 [1; 1; 0; 0]%Z None Demo.w0).2 in
  let X2 := [[Str "a"; Str "z"]] in
  exists mined d th,
    itemsets (self w') = Some (null :: map items mined)
    /\ d_star (self w') = Some d
    /\ theta (self w') = Some th
    /\ predict_proba (Collaborators0 := C) X2 w'
       = (match preds_d_t (Collaborators := C)
                  (set_range (length X2) :: map (fun lhs => satisfied_by lhs X2) mined)
                  (length X2) (Some d) th with
          | Ok P => Ok (map (fun p => [(1 - p)%Q; p]) P)
          | Raise e => Raise e
          end,
          {| self := self w'; rng := rng w'; trace := trace w' ++ [called_preds_d_t] |}).
Proof.
  intros C w' X2.
  apply (predict_after_fit_reaches_predictor (Collaborators0 := C) Demo.X4
           [1; 1; 0; 0]%Z None Demo.w0 w' X2); vm_compute; reflexivity.
Defined.

Lemma quiet_fit_prints_nothing_witness :
  let C := Demo.collaborators kw_zmax in
  let w : world nat matrix unit :=
    {| self := init 3 1 2 10 [1%Q; 1%Q] 3 50000 "class 1" false;
       rng := 0; trace := [] |} in
  trace_within (fun e => forall msg, e <> printed msg) []
    (fit (Collaborators0 := C) Demo.X4 [1; 1; 0; 0]%Z None w).2.
Proof.
  intros C w.
  apply (quiet_fit_prints_nothing (Collaborators0 := C) Demo.X4 [1; 1; 0; 0]%Z None w).
  reflexivity.
Defined.
